(** * Read reconciliation and upsert orchestration of the LiteLLM provider

    A shallow embedding of [litellm/resource_credential_crud.go] and
    [litellm/resource_model_crud.go]: the two retry-with-backoff read
    reconcilers, the reads they drive, and the create-or-update
    orchestrator of models with its request mapper.

    Go values are modelled as follows.
    - [error] is [option string]: [None] is [nil], [Some msg] an error whose
      [Error()] text is [msg]; [fmt.Errorf("p: %w", err)] prepends [p: ].
    - [time.Duration] is an [int64] count of nanoseconds: a [Z] with the
      wrap-around of [delay *= 2] written out.
    - [float64] is the kernel's binary64 [float].
    - [*schema.ResourceData] is an identifier and a finite map of fields.
      [d.Set] of a string, a number or a boolean built by the code stores
      it. [d.Set] of a map decoded from a response may be refused by the
      schema, and its error is dropped: what the field holds afterwards is
      a parameter, and only that field is written.
    - The HTTP server is a parameter: a function from the number of requests
      made so far to a reply, which says whether [MakeRequest] failed and,
      if not, the status code and what the response handler of [utils.go]
      makes of the response (an error or a decoded body).
    - The UUID source, the helpers [GetStringValue] and [GetIntValue] of
      [utils.go] and the Go library functions [json.Unmarshal],
      [strconv.Atoi], [strconv.ParseFloat] and [strings.TrimSpace] are
      parameters, and so is the order in which [range] visits a map.
    - [time.Sleep] and [MakeRequest] append to a chronological trace.
    - The credential functions assert that [m] is a client without a
      check; they are modelled for a [m] that is one. The model functions
      check the assertion, and [m] is a parameter there. *)

From Stdlib Require Import ZArith String Ascii List Lia Bool.
From Stdlib Require Import Floats.PrimFloat.
From stdpp Require Import base gmap strings list.
Import ListNotations.

Local Open Scope string_scope.
Local Open Scope list_scope.
Local Open Scope Z_scope.

#[local] Set Warnings "-register-all".

(** ** Go strings *)

(** [strings.HasPrefix(s, prefix)]. *)
Fixpoint HasPrefix (s prefix : string) {struct prefix} : bool :=
  match prefix, s with
  | EmptyString, _ => true
  | String _ _, EmptyString => false
  | String a p, String b t => Ascii.eqb a b && HasPrefix t p
  end.

(** [strings.Contains(s, substr)]: [substr] occurs at some offset of [s]. *)
Fixpoint Contains (s substr : string) : bool :=
  HasPrefix s substr ||
  match s with
  | EmptyString => false
  | String _ t => Contains t substr
  end.

(** What the two functions decide, stated with concatenation. *)
Definition has_prefix (s p : string) : Prop := exists t, s = p +:+ t.
Definition has_substring (s sub : string) : Prop :=
  exists pre post, s = pre +:+ sub +:+ post.

(** ** Go errors *)

Definition error : Type := option string.

Definition is_nil (err : error) : bool :=
  match err with None => true | Some _ => false end.

(** [fmt.Errorf(prefix + "%w", err)] for a non-nil [err] with text [msg]. *)
Definition Errorf_w (prefix msg : string) : error := Some (prefix +:+ msg).

(** ** Durations and the backoff update *)

Definition Millisecond : Z := 1000000.
Definition Second : Z := 1000 * Millisecond.

(** Two's complement wrap-around of a signed 64-bit integer. *)
Definition wrap64 (z : Z) : Z := (z + 2 ^ 63) mod 2 ^ 64 - 2 ^ 63.

(** [maxDelay := 10 * time.Second] in both reconcilers. *)
Definition maxDelay : Z := 10 * Second.

(** [delay *= 2; if delay > maxDelay { delay = maxDelay }]. *)
Definition next_delay (delay : Z) : Z :=
  let delay := wrap64 (delay * 2) in
  if delay >? maxDelay then maxDelay else delay.

(** ** Values of type [interface{}] *)

Inductive Value : Type :=
| VNil
| VBool (b : bool)
| VInt (n : Z)
| VFloat (f : float)
| VStr (s : string)
| VList (l : list Value)
| VMap (m : gmap string Value).

(** ** Request and response bodies ([types.go], as the code uses them) *)

Record CredentialRequest := {
  cr_CredentialName : string;
  cr_ModelID : string;
  cr_CredentialInfo : gmap string Value;
  cr_CredentialValues : gmap string Value }.

Record CredentialResponse := {
  CredentialName : string;
  CredentialInfo : gmap string Value }.

Record ModelInfo := {
  mi_ID : string;
  mi_DBModel : bool;
  mi_BaseModel : string;
  mi_Tier : string;
  mi_Mode : string;
  mi_TeamID : string }.

Record ModelRequest := {
  mr_ModelName : string;
  mr_LiteLLMParams : gmap string Value;
  mr_ModelInfo : ModelInfo;
  mr_Additional : gmap string Value }.

Record LiteLLMParamsResponse := {
  CustomLLMProvider : string;
  TPM : Z;
  RPM : Z;
  APIBase : string;
  APIVersion : string;
  AWSRegionName : string;
  Thinking : option (gmap string Value);
  MergeReasoningContentInChoices : bool }.

Record ModelInfoResponse := {
  BaseModel : string;
  Tier : string;
  Mode : string;
  TeamID : string }.

Record ModelResponse := {
  ModelName : string;
  LiteLLMParams : LiteLLMParamsResponse;
  ModelInfoOf : ModelInfoResponse }.

Inductive Body : Type :=
| BodyNil
| BodyCredential (req : CredentialRequest)
| BodyModel (req : ModelRequest).

(** ** The declarative field set, [*schema.ResourceData] *)

Record ResourceData := {
  rd_id : string;
  rd_fields : gmap string Value }.

Definition Id (d : ResourceData) : string := rd_id d.

Definition SetId (id : string) (d : ResourceData) : ResourceData :=
  {| rd_id := id; rd_fields := rd_fields d |}.

(** [d.Set(key, value)]. *)
Definition SetField (key : string) (v : Value) (d : ResourceData) : ResourceData :=
  {| rd_id := rd_id d; rd_fields := <[key := v]> (rd_fields d) |}.

(** [d.Set(key, value)] with its error dropped, on a value the schema may
    refuse: [stored] is what the field holds afterwards, if anything. Only
    the field itself is written. *)
Definition SetStored (key : string) (stored : option Value) (d : ResourceData) :
    ResourceData :=
  {| rd_id := rd_id d; rd_fields := partial_alter (fun _ => stored) key (rd_fields d) |}.

(** [d.Get(key).(string)] and its siblings: the stored value, or the zero
    value of the asserted type when the field is unset. *)
Definition GetString (d : ResourceData) (key : string) : string :=
  match rd_fields d !! key with Some (VStr s) => s | _ => "" end.

Definition GetInt (d : ResourceData) (key : string) : Z :=
  match rd_fields d !! key with Some (VInt n) => n | _ => 0 end.

Definition GetFloat (d : ResourceData) (key : string) : float :=
  match rd_fields d !! key with Some (VFloat f) => f | _ => 0%float end.

Definition GetBool (d : ResourceData) (key : string) : bool :=
  match rd_fields d !! key with Some (VBool b) => b | _ => false end.

Definition GetMap (d : ResourceData) (key : string) : gmap string Value :=
  match rd_fields d !! key with Some (VMap m) => m | _ => ∅ end.

(** Whether a value is the zero value of its type. *)
Definition is_zero (v : Value) : bool :=
  match v with
  | VNil => true
  | VBool b => negb b
  | VInt n => Z.eqb n 0
  | VFloat f => PrimFloat.eqb f 0%float
  | VStr s => String.eqb s ""
  | VList l => match l with [] => true | _ => false end
  | VMap m => bool_decide (m = ∅)
  end.

(** [d.GetOk(key)]: the value, and whether it is set to a non-zero value. *)
Definition GetOk (d : ResourceData) (key : string) : option Value :=
  match rd_fields d !! key with
  | Some v => if is_zero v then None else Some v
  | None => None
  end.

(** A sequence of statements on the field set, run in order. *)
Definition run_statements (stmts : list (ResourceData -> ResourceData))
    (d : ResourceData) : ResourceData :=
  fold_left (fun d stmt => stmt d) stmts d.

(** ** The world: field set, requests made, UUIDs drawn, trace *)

Inductive Event : Type :=
| EvSleep (delay : Z)
| EvRequest (method endpoint : string) (body : Body).

Record World := {
  data : ResourceData;
  requests : nat;
  uuids : nat;
  trace : list Event }.

Definition with_data (f : ResourceData -> ResourceData) (w : World) : World :=
  {| data := f (data w); requests := requests w; uuids := uuids w; trace := trace w |}.

(** [time.Sleep(delay)]. *)
Definition Sleep (delay : Z) (w : World) : World :=
  {| data := data w; requests := requests w; uuids := uuids w;
     trace := trace w ++ [EvSleep delay] |}.

(** What a request comes back with: [MakeRequest] failed, or it returned a
    response with a status code, which the handler of [utils.go] turns into
    an error or a decoded body. *)
Inductive Handled (R : Type) : Type :=
| HandlerError (msg : string)
| Decoded (body : R).

Inductive Reply (R : Type) : Type :=
| TransportError (msg : string)
| Response (StatusCode : Z) (handled : Handled R).

Arguments HandlerError {R} msg.
Arguments Decoded {R} body.
Arguments TransportError {R} msg.
Arguments Response {R} StatusCode handled.

(** [MakeRequest(client, method, endpoint, body)] against a server whose
    [n]-th reply is [server n]. *)
Definition MakeRequest {R} (server : nat -> Reply R) (method endpoint : string)
    (body : Body) (w : World) : World * Reply R :=
  ({| data := data w; requests := S (requests w); uuids := uuids w;
      trace := trace w ++ [EvRequest method endpoint body] |},
   server (requests w)).

(** ** Credentials: [resource_credential_crud.go] *)

(** The test of line 37 on the text of a non-nil error. *)
Definition credentialRetryable (msg : string) : bool :=
  Contains msg "credential_not_found".

Section CredentialCode.
Variable server : nat -> Reply CredentialResponse.

(** [d.Set] of the Terraform SDK on a map. The writer checks the value
    against the schema of the field, which is not part of this package, and
    writes a map entry by entry in Go's map order; it returns an error on an
    entry it refuses, and line 134 drops that error. What the field holds
    after the call, if anything, is therefore a parameter, given the field,
    the value and the world of the call. *)
Variable schema_Set : string -> Value -> World -> option Value.

Definition resourceLiteLLMCredentialRead (w : World) : World * error :=
  let credentialName := Id (data w) in
  let modelID := GetString (data w) "model_id" in
  let endpoint := "/credentials/by_name/" +:+ credentialName in
  let endpoint :=
    if negb (String.eqb modelID "") then endpoint +:+ "?model_id=" +:+ modelID
    else endpoint in
  let '(w, reply) := MakeRequest server "GET" endpoint BodyNil w in
  match reply with
  | TransportError msg => (w, Errorf_w "failed to read credential: " msg)
  | Response StatusCode handled =>
    if Z.eqb StatusCode 404 then (with_data (SetId "") w, None)
    else
      match handled with
      | HandlerError msg =>
        if String.eqb msg "credential_not_found"
        then (with_data (SetId "") w, None)
        else (w, Errorf_w "failed to read credential: " msg)
      | Decoded credentialResp =>
        let w := with_data (SetField "credential_name"
                              (VStr (CredentialName credentialResp))) w in
        let stored :=
          schema_Set "credential_info" (VMap (CredentialInfo credentialResp)) w in
        let w := with_data (SetStored "credential_info" stored) w in
        (w, None)
      end
  end.

(** The loop of [retryCredentialRead]; [remaining] is [maxRetries - i], the
    number of iterations the [for] statement has left. *)
Fixpoint retryCredentialRead_loop (remaining : nat) (i maxRetries : Z)
    (origID : string) (delay : Z) (err : error) (w : World) : World * error :=
  match remaining with
  | O => (w, err)
  | S remaining =>
    let '(w, err) := resourceLiteLLMCredentialRead w in
    let '(w, err) :=
      if is_nil err && String.eqb (Id (data w)) ""
      then (with_data (SetId origID) w, Some "credential_not_found")
      else (w, err) in
    match err with
    | None => (w, None)
    | Some msg =>
      if negb (credentialRetryable msg) then (w, err)
      else
        let '(w, delay) :=
          if i <? maxRetries - 1 then (Sleep delay w, next_delay delay)
          else (w, delay) in
        retryCredentialRead_loop remaining (i + 1) maxRetries origID delay err w
    end
  end.

Definition retryCredentialRead (w : World) (maxRetries : Z) : World * error :=
  let delay := 1 * Second in
  let origID := Id (data w) in
  retryCredentialRead_loop (Z.to_nat maxRetries) 0 maxRetries origID delay None w.

Definition resourceLiteLLMCredentialCreate (w : World) : World * error :=
  let d := data w in
  let credentialName := GetString d "credential_name" in
  let credentialRequest :=
    {| cr_CredentialName := credentialName;
       cr_ModelID := GetString d "model_id";
       cr_CredentialInfo := GetMap d "credential_info";
       cr_CredentialValues := GetMap d "credential_values" |} in
  let '(w, reply) :=
    MakeRequest server "POST" "/credentials" (BodyCredential credentialRequest) w in
  match reply with
  | TransportError msg => (w, Errorf_w "failed to create credential: " msg)
  | Response _ (HandlerError msg) => (w, Errorf_w "failed to create credential: " msg)
  | Response _ (Decoded _) =>
    retryCredentialRead (with_data (SetId credentialName) w) 5
  end.

Definition resourceLiteLLMCredentialUpdate (w : World) : World * error :=
  let d := data w in
  let credentialName := Id d in
  let credentialRequest :=
    {| cr_CredentialName := credentialName;
       cr_ModelID := "";
       cr_CredentialInfo := GetMap d "credential_info";
       cr_CredentialValues := GetMap d "credential_values" |} in
  let endpoint := "/credentials/" +:+ credentialName in
  let '(w, reply) :=
    MakeRequest server "PATCH" endpoint (BodyCredential credentialRequest) w in
  match reply with
  | TransportError msg => (w, Errorf_w "failed to update credential: " msg)
  | Response _ (HandlerError msg) => (w, Errorf_w "failed to update credential: " msg)
  | Response _ (Decoded _) => retryCredentialRead w 5
  end.

End CredentialCode.

Section CredentialDeleteCode.
Variable server : nat -> Reply CredentialResponse.


End CredentialDeleteCode.

(** ** Models: [resource_model_crud.go] *)

Definition isRetryableModelError (err : error) : bool :=
  match err with
  | None => false
  | Some errStr =>
    Contains errStr "not found" ||
    Contains errStr "Model id =" ||
    Contains errStr "model_not_found"
  end.

Definition endpointModelNew : string := "/model/new".
Definition endpointModelUpdate : string := "/model/update".
Definition endpointModelInfo : string := "/model/info".

(** The provider's meta value [m interface{}]: a [*Client] or something else. *)
Inductive Meta : Type := MetaClient | MetaOther.

(** [map[bool]string{true: "update", false: "create"}[isUpdate]]. *)
Definition opName (isUpdate : bool) : string :=
  if isUpdate then "update" else "create".

(** The string items of a decoded JSON list, in order (lines 198-203). *)
Definition stringItems (dropList : list Value) : list string :=
  omap (fun item => match item with VStr paramStr => Some paramStr | _ => None end)
       dropList.

Section ModelCode.
Variable server : nat -> Reply ModelResponse.
Variable m : Meta.
(** [uuid.New().String()]: the [n]-th identifier drawn. *)
Variable uuid_New : nat -> string.
(** [json.Unmarshal] into an [interface{}], [strconv.Atoi],
    [strconv.ParseFloat(_, 64)] and [strings.TrimSpace]; [None] is an error. *)
Variable json_Unmarshal : string -> option Value.
Variable strconv_Atoi : string -> option Z.
Variable strconv_ParseFloat : string -> option float.
Variable strings_TrimSpace : string -> string.
(** The order in which [range] visits a map; Go leaves it unspecified. *)
Variable range : gmap string Value -> list (string * Value).
(** [GetStringValue] and [GetIntValue] of [utils.go], and [int(f)]. *)
Variable GetStringValue : string -> string -> string.
Variable GetIntValue : Z -> Z -> Z.
Variable float_to_int : float -> Z.

(** The body of [resourceLiteLLMModelRead] after a decoded response (lines
    323-387): its statements, run in order on the field set. *)
Definition readModelFields (modelResp : ModelResponse) : ResourceData -> ResourceData :=
  let params := LiteLLMParams modelResp in
  let info := ModelInfoOf modelResp in
  run_statements [
    (fun d => SetField "model_name"
       (VStr (GetStringValue (ModelName modelResp) (GetString d "model_name"))) d);
    (fun d => SetField "custom_llm_provider"
       (VStr (GetStringValue (CustomLLMProvider params)
                             (GetString d "custom_llm_provider"))) d);
    (fun d => SetField "tpm" (VInt (GetIntValue (TPM params) (GetInt d "tpm"))) d);
    (fun d => SetField "rpm" (VInt (GetIntValue (RPM params) (GetInt d "rpm"))) d);
    (fun d => SetField "model_api_base"
       (VStr (GetStringValue (APIBase params) (GetString d "model_api_base"))) d);
    (fun d => SetField "api_version"
       (VStr (GetStringValue (APIVersion params) (GetString d "api_version"))) d);
    (fun d => SetField "base_model"
       (VStr (GetStringValue (BaseModel info) (GetString d "base_model"))) d);
    (fun d => SetField "tier" (VStr (GetStringValue (Tier info) (GetString d "tier"))) d);
    (fun d => SetField "mode" (VStr (GetStringValue (Mode info) (GetString d "mode"))) d);
    (fun d => SetField "team_id"
       (VStr (GetStringValue (TeamID info) (GetString d "team_id"))) d);
    (fun d => SetField "model_api_key" (VStr (GetString d "model_api_key")) d);
    (fun d => SetField "aws_access_key_id" (VStr (GetString d "aws_access_key_id")) d);
    (fun d => SetField "aws_secret_access_key"
       (VStr (GetString d "aws_secret_access_key")) d);
    (fun d => SetField "aws_region_name"
       (VStr (GetStringValue (AWSRegionName params)
                             (GetString d "aws_region_name"))) d);
    (fun d => SetField "aws_session_name" (VStr (GetString d "aws_session_name")) d);
    (fun d => SetField "aws_role_name" (VStr (GetString d "aws_role_name")) d);
    (fun d => SetField "input_cost_per_million_tokens"
       (VFloat (GetFloat d "input_cost_per_million_tokens")) d);
    (fun d => SetField "output_cost_per_million_tokens"
       (VFloat (GetFloat d "output_cost_per_million_tokens")) d);
    (fun d =>
       match GetOk d "thinking_enabled" with
       | Some _ =>
         let thinkingEnabled := GetBool d "thinking_enabled" in
         let d := SetField "thinking_enabled" (VBool thinkingEnabled) d in
         if thinkingEnabled then
           match GetOk d "thinking_budget_tokens" with
           | Some _ =>
             SetField "thinking_budget_tokens"
               (VInt (GetInt d "thinking_budget_tokens")) d
           | None => d
           end
         else d
       | None =>
         match Thinking params with
         | Some thinking =>
           match thinking !! "type" with
           | Some (VStr thinkingType) =>
             if String.eqb thinkingType "enabled" then
               let d := SetField "thinking_enabled" (VBool true) d in
               match thinking !! "budget_tokens" with
               | Some (VFloat budgetTokens) =>
                 SetField "thinking_budget_tokens"
                   (VInt (float_to_int budgetTokens)) d
               | _ => d
               end
             else SetField "thinking_enabled" (VBool false) d
           | _ => SetField "thinking_enabled" (VBool false) d
           end
         | None => SetField "thinking_enabled" (VBool false) d
         end
       end);
    (fun d =>
       match GetOk d "merge_reasoning_content_in_choices" with
       | Some _ =>
         SetField "merge_reasoning_content_in_choices"
           (VBool (GetBool d "merge_reasoning_content_in_choices")) d
       | None =>
         SetField "merge_reasoning_content_in_choices"
           (VBool (MergeReasoningContentInChoices params)) d
       end);
    (fun d =>
       match GetOk d "additional_litellm_params" with
       | Some _ =>
         SetField "additional_litellm_params"
           (VMap (GetMap d "additional_litellm_params")) d
       | None => d
       end) ].

Definition resourceLiteLLMModelRead (w : World) : World * error :=
  match m with
  | MetaOther => (w, Some "invalid type assertion for client")
  | MetaClient =>
    let endpoint := endpointModelInfo +:+ "?litellm_model_id=" +:+ Id (data w) in
    let '(w, reply) := MakeRequest server "GET" endpoint BodyNil w in
    match reply with
    | TransportError msg => (w, Errorf_w "failed to read model: " msg)
    | Response _ (HandlerError msg) =>
      if String.eqb msg "model_not_found" then (with_data (SetId "") w, None)
      else (w, Errorf_w "failed to read model: " msg)
    | Response _ (Decoded modelResp) => (with_data (readModelFields modelResp) w, None)
    end
  end.

(** The loop of [retryModelRead]; [remaining] is [maxRetries - i]. The test
    [d.Id() == ""] of lines 49-53 only logs, so it has no counterpart here. *)
Fixpoint retryModelRead_loop (remaining : nat) (i maxRetries : Z)
    (delay : Z) (err : error) (w : World) : World * error :=
  match remaining with
  | O => (w, err)
  | S remaining =>
    let '(w, err) := resourceLiteLLMModelRead w in
    match err with
    | None => (w, None)
    | Some _ =>
      if negb (isRetryableModelError err) then (w, err)
      else
        let '(w, delay) :=
          if i <? maxRetries - 1 then (Sleep delay w, next_delay delay)
          else (w, delay) in
        retryModelRead_loop remaining (i + 1) maxRetries delay err w
    end
  end.

Definition retryModelRead (w : World) (maxRetries : Z) : World * error :=
  let delay := 500 * Millisecond in
  let w := Sleep (200 * Millisecond) w in
  retryModelRead_loop (Z.to_nat maxRetries) 0 maxRetries delay None w.

(** The conversion of a string that is not taken as JSON (lines 211-225,
    repeated at lines 229-243). *)
Definition convertString (strValue : string) : Value :=
  if String.eqb strValue "true" then VBool true
  else if String.eqb strValue "false" then VBool false
  else
    match strconv_Atoi strValue with
    | Some intValue => VInt intValue
    | None =>
      match strconv_ParseFloat strValue with
      | Some floatValue => VFloat floatValue
      | None => VStr strValue
      end
    end.

(** One iteration of the loop over [additional_litellm_params] (lines
    187-248), on the payload built so far and the keys to drop. *)
Definition mergeAdditionalParam (acc : gmap string Value * list string)
    (entry : string * Value) : gmap string Value * list string :=
  let '(litellmParams, dropParams) := acc in
  let '(key, value) := entry in
  match value with
  | VStr strValue =>
    let trimmedValue := strings_TrimSpace strValue in
    if HasPrefix trimmedValue "[" || HasPrefix trimmedValue "{" then
      match json_Unmarshal strValue with
      | Some parsedValue =>
        if String.eqb key "additional_drop_params" then
          match parsedValue with
          | VList dropList => (litellmParams, dropParams ++ stringItems dropList)
          | _ => (litellmParams, dropParams)
          end
        else (<[key := parsedValue]> litellmParams, dropParams)
      | None => (<[key := convertString strValue]> litellmParams, dropParams)
      end
    else (<[key := convertString strValue]> litellmParams, dropParams)
  | _ => (<[key := value]> litellmParams, dropParams)
  end.

(** Lines 184-254: merge the bag, then apply the drops. *)
Definition mergeAdditionalParams (additionalParams : gmap string Value)
    (litellmParams : gmap string Value) : gmap string Value :=
  let '(litellmParams, dropParams) :=
    fold_left mergeAdditionalParam (range additionalParams) (litellmParams, []) in
  fold_left (fun params paramToDrop => delete paramToDrop params) dropParams litellmParams.

Definition setIf (cond : bool) (key : string) (v : Value)
    (params : gmap string Value) : gmap string Value :=
  if cond then <[key := v]> params else params.

Definition setIfString (d : ResourceData) (field key : string)
    (params : gmap string Value) : gmap string Value :=
  let s := GetString d field in
  setIf (negb (String.eqb s "")) key (VStr s) params.

Definition setIfFloat (d : ResourceData) (field : string)
    (params : gmap string Value) : gmap string Value :=
  let f := GetFloat d field in
  setIf (PrimFloat.ltb 0%float f) field (VFloat f) params.

(** Lines 91-181: the base [litellm_params] and the optional parameters. *)
Definition baseLiteLLMParams (d : ResourceData) : gmap string Value :=
  let inputCostPerToken :=
    (GetFloat d "input_cost_per_million_tokens" / 1000000)%float in
  let outputCostPerToken :=
    (GetFloat d "output_cost_per_million_tokens" / 1000000)%float in
  let customLLMProvider := GetString d "custom_llm_provider" in
  let baseModel := GetString d "base_model" in
  let modelName := customLLMProvider +:+ "/" +:+ baseModel in
  let thinking : option (gmap string Value) :=
    if GetBool d "thinking_enabled" then
      Some (<["type" := VStr "enabled"]>
              (<["budget_tokens" := VInt (GetInt d "thinking_budget_tokens")]> ∅))
    else None in
  let litellmParams : gmap string Value :=
    <["custom_llm_provider" := VStr customLLMProvider]>
      (<["model" := VStr modelName]>
        (<["input_cost_per_token" := VFloat inputCostPerToken]>
          (<["output_cost_per_token" := VFloat outputCostPerToken]>
            (<["merge_reasoning_content_in_choices" :=
                 VBool (GetBool d "merge_reasoning_content_in_choices")]> ∅)))) in
  let litellmParams := setIf (0 <? GetInt d "tpm") "tpm" (VInt (GetInt d "tpm")) litellmParams in
  let litellmParams := setIf (0 <? GetInt d "rpm") "rpm" (VInt (GetInt d "rpm")) litellmParams in
  let litellmParams := setIfString d "model_api_key" "api_key" litellmParams in
  let litellmParams := setIfString d "model_api_base" "api_base" litellmParams in
  let litellmParams := setIfString d "api_version" "api_version" litellmParams in
  let litellmParams := setIfFloat d "input_cost_per_pixel" litellmParams in
  let litellmParams := setIfFloat d "output_cost_per_pixel" litellmParams in
  let litellmParams := setIfFloat d "input_cost_per_second" litellmParams in
  let litellmParams := setIfFloat d "output_cost_per_second" litellmParams in
  let litellmParams := setIfString d "aws_access_key_id" "aws_access_key_id" litellmParams in
  let litellmParams :=
    setIfString d "aws_secret_access_key" "aws_secret_access_key" litellmParams in
  let litellmParams := setIfString d "aws_region_name" "aws_region_name" litellmParams in
  let litellmParams := setIfString d "aws_session_name" "aws_session_name" litellmParams in
  let litellmParams := setIfString d "aws_role_name" "aws_role_name" litellmParams in
  let litellmParams := setIfString d "vertex_project" "vertex_project" litellmParams in
  let litellmParams := setIfString d "vertex_location" "vertex_location" litellmParams in
  let litellmParams :=
    setIfString d "vertex_credentials" "vertex_credentials" litellmParams in
  let litellmParams := setIfString d "reasoning_effort" "reasoning_effort" litellmParams in
  match thinking with
  | Some thinking => <["thinking" := VMap thinking]> litellmParams
  | None => litellmParams
  end.

(** Lines 91-254: the [litellm_params] of the request. *)
Definition buildLiteLLMParams (d : ResourceData) : gmap string Value :=
  let litellmParams := baseLiteLLMParams d in
  match GetOk d "additional_litellm_params" with
  | Some (VMap additionalParams) => mergeAdditionalParams additionalParams litellmParams
  | _ => litellmParams
  end.

(** Lines 256-268. *)
Definition buildModelRequest (d : ResourceData) (modelID : string) : ModelRequest :=
  {| mr_ModelName := GetString d "model_name";
     mr_LiteLLMParams := buildLiteLLMParams d;
     mr_ModelInfo :=
       {| mi_ID := modelID;
          mi_DBModel := true;
          mi_BaseModel := GetString d "base_model";
          mi_Tier := GetString d "tier";
          mi_Mode := GetString d "mode";
          mi_TeamID := GetString d "team_id" |};
     mr_Additional := ∅ |}.

(** [uuid.New().String()]. *)
Definition uuid_New_String (w : World) : World * string :=
  ({| data := data w; requests := requests w; uuids := S (uuids w); trace := trace w |},
   uuid_New (uuids w)).

(** The body of [createOrUpdateModel], with the recursive call of line 284
    as [self]. *)
Definition createOrUpdateModel_body (self : World -> World * error)
    (w : World) (isUpdate : bool) : World * error :=
  match m with
  | MetaOther => (w, Some "invalid type assertion for client")
  | MetaClient =>
    let modelID := Id (data w) in
    let '(w, modelID) := if negb isUpdate then uuid_New_String w else (w, modelID) in
    let modelReq := buildModelRequest (data w) modelID in
    let endpoint := if isUpdate then endpointModelUpdate else endpointModelNew in
    let '(w, reply) := MakeRequest server "POST" endpoint (BodyModel modelReq) w in
    match reply with
    | TransportError msg =>
      (w, Errorf_w ("failed to " +:+ opName isUpdate +:+ " model: ") msg)
    | Response _ (HandlerError msg) =>
      if isUpdate && String.eqb msg "model_not_found" then self w
      else (w, Errorf_w ("failed to " +:+ opName isUpdate +:+ " model: ") msg)
    | Response _ (Decoded _) => retryModelRead (with_data (SetId modelID) w) 8
    end
  end.

(** [createOrUpdateModel]: the recursive call is made with [isUpdate =
    false], and a call with [isUpdate = false] makes none, so two levels of
    the body are the whole function ([createOrUpdateModel_unfold] below). *)
Definition createOrUpdateModel (w : World) (isUpdate : bool) : World * error :=
  createOrUpdateModel_body
    (fun w => createOrUpdateModel_body (fun w => (w, None)) w false) w isUpdate.

Definition resourceLiteLLMModelCreate (w : World) : World * error :=
  createOrUpdateModel w false.

Definition resourceLiteLLMModelUpdate (w : World) : World * error :=
  createOrUpdateModel w true.

End ModelCode.





(** ** Vocabulary of the statements *)

(** The delays slept in a trace, and the endpoints requested with a method. *)
Definition sleeps (tr : list Event) : list Z :=
  omap (fun e => match e with EvSleep delay => Some delay | _ => None end) tr.

Definition endpoints (method : string) (tr : list Event) : list string :=
  omap (fun e => match e with
                 | EvRequest method' endpoint _ =>
                   if String.eqb method' method then Some endpoint else None
                 | _ => None
                 end) tr.

(** [n] read attempts with a sleep between consecutive ones, the delay
    updated after each sleep. *)
Fixpoint retry_trace (req : Event) (delay : Z) (n : nat) : list Event :=
  match n with
  | O => []
  | S n' =>
    req :: match n' with
           | O => []
           | S _ => EvSleep delay :: retry_trace req (next_delay delay) n'
           end
  end.

(** The first [n] delays of a backoff that starts at [delay]. *)
Fixpoint backoff_delays (delay : Z) (n : nat) : list Z :=
  match n with
  | O => []
  | S n' => delay :: backoff_delays (next_delay delay) n'
  end.

(** Each element is at least its predecessor. *)
Definition nondecreasing (l : list Z) : Prop :=
  forall (k : nat) a b, l !! k = Some a -> l !! S k = Some b -> a <= b.

(** The world after one request [ev], and after [n] requests that left the
    field set as it was and produced the events [tr]. *)
Definition sent (ev : Event) (w : World) : World :=
  {| data := data w; requests := S (requests w); uuids := uuids w;
     trace := trace w ++ [ev] |}.

Definition ran (tr : list Event) (n : nat) (w : World) : World :=
  {| data := data w; requests := (requests w + n)%nat; uuids := uuids w;
     trace := trace w ++ tr |}.

(** The world after a UUID has been drawn. *)
Definition drawn (w : World) : World :=
  {| data := data w; requests := requests w; uuids := S (uuids w); trace := trace w |}.

(** The request of a credential read, from the field set it starts with. *)
Definition credentialReadEndpoint (d : ResourceData) : string :=
  if negb (String.eqb (GetString d "model_id") "")
  then ("/credentials/by_name/" +:+ Id d) +:+ "?model_id=" +:+ GetString d "model_id"
  else "/credentials/by_name/" +:+ Id d.

Definition credentialReadRequest (d : ResourceData) : Event :=
  EvRequest "GET" (credentialReadEndpoint d) BodyNil.

(** Whether a credential read clears the identifier on a reply, and the
    error it returns. *)
Definition credentialReadClears (reply : Reply CredentialResponse) : bool :=
  match reply with
  | TransportError _ => false
  | Response StatusCode handled =>
    Z.eqb StatusCode 404 ||
    match handled with
    | HandlerError msg => String.eqb msg "credential_not_found"
    | Decoded _ => false
    end
  end.

Definition credentialReadError (reply : Reply CredentialResponse) : error :=
  match reply with
  | TransportError msg => Some ("failed to read credential: " +:+ msg)
  | Response _ (HandlerError msg) =>
    if credentialReadClears reply then None
    else Some ("failed to read credential: " +:+ msg)
  | Response _ (Decoded _) => None
  end.

(** What a credential read that finds the credential makes of the world
    its request has left (lines 133-134): the name is stored, and the
    information is whatever [d.Set] leaves of it. *)
Definition credentialFound (schema_Set : string -> Value -> World -> option Value)
    (resp : CredentialResponse) (w : World) : World :=
  let w := with_data (SetField "credential_name" (VStr (CredentialName resp))) w in
  with_data
    (SetStored "credential_info"
       (schema_Set "credential_info" (VMap (CredentialInfo resp)) w)) w.

(** The error of an attempt of [retryCredentialRead] (lines 25-30) on a
    reply that is an error or clears the identifier. *)
Definition credentialAttemptError (reply : Reply CredentialResponse) : error :=
  if credentialReadClears reply then Some "credential_not_found"
  else credentialReadError reply.

(** The reply makes the attempt a retryable not-found. *)
Definition credentialNotFound (reply : Reply CredentialResponse) : bool :=
  match credentialAttemptError reply with
  | Some msg => credentialRetryable msg
  | None => false
  end.

(** The request of a model read, and the error the read returns. *)
Definition modelReadEndpoint (d : ResourceData) : string :=
  endpointModelInfo +:+ "?litellm_model_id=" +:+ Id d.

Definition modelReadRequest (d : ResourceData) : Event :=
  EvRequest "GET" (modelReadEndpoint d) BodyNil.

Definition modelReadError (reply : Reply ModelResponse) : error :=
  match reply with
  | TransportError msg => Some ("failed to read model: " +:+ msg)
  | Response _ (HandlerError msg) =>
    if String.eqb msg "model_not_found" then None
    else Some ("failed to read model: " +:+ msg)
  | Response _ (Decoded _) => None
  end.

Definition modelNotFound (reply : Reply ModelResponse) : bool :=
  isRetryableModelError (modelReadError reply).

(** An error that is [inner] behind a non-empty operation prefix. *)
Definition wrapped_with_operation_prefix (err : error) (inner : string) : Prop :=
  exists op, op <> "" /\ err = Errorf_w op inner.

(** [n] reads of [endpoint] with [n - 1] sleeps in between, the [k]-th
    sleep lasting [min (delay * 2^k) maxDelay]. *)
Definition reads_with_backoff (tr : list Event) (endpoint : string) (delay : Z)
    (n : nat) : Prop :=
  tr = retry_trace (EvRequest "GET" endpoint BodyNil) delay n /\
  endpoints "GET" tr = repeat endpoint n /\
  length (sleeps tr) = (n - 1)%nat /\
  forall k, (k < n - 1)%nat ->
    sleeps tr !! k = Some (Z.min (delay * 2 ^ Z.of_nat k) maxDelay).

(** The time slept in a trace, in nanoseconds. *)
Definition total_sleep (tr : list Event) : Z := foldr Z.add 0 (sleeps tr).

(** The fields a model read writes, and whether the response says that
    thinking is enabled (lines 361-362). *)
Definition modelReadKeys : list string :=
  ["model_name"; "custom_llm_provider"; "tpm"; "rpm"; "model_api_base"; "api_version";
   "base_model"; "tier"; "mode"; "team_id"; "model_api_key"; "aws_access_key_id";
   "aws_secret_access_key"; "aws_region_name"; "aws_session_name"; "aws_role_name";
   "input_cost_per_million_tokens"; "output_cost_per_million_tokens";
   "thinking_enabled"; "thinking_budget_tokens"; "merge_reasoning_content_in_choices";
   "additional_litellm_params"].

Definition apiThinkingEnabled (modelResp : ModelResponse) : bool :=
  match Thinking (LiteLLMParams modelResp) with
  | Some thinking =>
    match thinking !! "type" with
    | Some (VStr thinkingType) => String.eqb thinkingType "enabled"
    | _ => false
    end
  | None => false
  end.

(** A field that is unset or holds a boolean, as the schema has it. *)
Definition unset_or_bool (d : ResourceData) (key : string) : Prop :=
  rd_fields d !! key = None \/ exists b, rd_fields d !! key = Some (VBool b).

(** The optional string parameters of [createOrUpdateModel] (lines
    131-176), each as the field read and the key written, its four optional
    float parameters, and every key lines 115-181 can write. *)
Definition stringParams : list (string * string) :=
  [("model_api_key", "api_key"); ("model_api_base", "api_base");
   ("api_version", "api_version"); ("aws_access_key_id", "aws_access_key_id");
   ("aws_secret_access_key", "aws_secret_access_key");
   ("aws_region_name", "aws_region_name"); ("aws_session_name", "aws_session_name");
   ("aws_role_name", "aws_role_name"); ("vertex_project", "vertex_project");
   ("vertex_location", "vertex_location");
   ("vertex_credentials", "vertex_credentials");
   ("reasoning_effort", "reasoning_effort")].

Definition floatParams : list string :=
  ["input_cost_per_pixel"; "output_cost_per_pixel"; "input_cost_per_second";
   "output_cost_per_second"].

Definition litellmParamKeys : list string :=
  ["custom_llm_provider"; "model"; "input_cost_per_token"; "output_cost_per_token";
   "merge_reasoning_content_in_choices"; "tpm"; "rpm"; "thinking"] ++
  map snd stringParams ++ floatParams.

(** *** The request mapper *)

Section MapperVocabulary.
Variable json_Unmarshal : string -> option Value.
Variable strconv_Atoi : string -> option Z.
Variable strconv_ParseFloat : string -> option float.
Variable strings_TrimSpace : string -> string.

(** The test of line 192: the trimmed string starts with a bracket or a brace. *)
Definition looksLikeJSON (strValue : string) : bool :=
  HasPrefix (strings_TrimSpace strValue) "[" ||
  HasPrefix (strings_TrimSpace strValue) "{".

(** What the loop stores for a string of the bag under an ordinary key. *)
Definition mergedValue (strValue : string) : Value :=
  if looksLikeJSON strValue then
    match json_Unmarshal strValue with
    | Some parsedValue => parsedValue
    | None => convertString strconv_Atoi strconv_ParseFloat strValue
    end
  else convertString strconv_Atoi strconv_ParseFloat strValue.

(** The conversion in the words of the specification: JSON is tried first,
    on every string, then the boolean literals, an integer, a float, and
    the string is kept otherwise. *)
Definition coerce_spec (strValue : string) : Value :=
  match json_Unmarshal strValue with
  | Some parsedValue => parsedValue
  | None => convertString strconv_Atoi strconv_ParseFloat strValue
  end.

(** What an entry of the bag stores under its key, if anything, and the
    keys it asks to drop. *)
Definition entryValue (key : string) (value : Value) : option Value :=
  match value with
  | VStr strValue =>
    if looksLikeJSON strValue then
      match json_Unmarshal strValue with
      | Some parsedValue =>
        if String.eqb key "additional_drop_params" then None else Some parsedValue
      | None => Some (convertString strconv_Atoi strconv_ParseFloat strValue)
      end
    else Some (convertString strconv_Atoi strconv_ParseFloat strValue)
  | _ => Some value
  end.

Definition entryDrops (key : string) (value : Value) : list string :=
  match value with
  | VStr strValue =>
    if looksLikeJSON strValue then
      match json_Unmarshal strValue with
      | Some (VList dropList) =>
        if String.eqb key "additional_drop_params" then stringItems dropList else []
      | _ => []
      end
    else []
  | _ => []
  end.

(** The keys named by the reserved entry of a bag: the string items of its
    value, when that is a string holding a JSON list. *)
Definition namedDrops (additionalParams : gmap string Value) : list string :=
  match additionalParams !! "additional_drop_params" with
  | Some value => entryDrops "additional_drop_params" value
  | None => []
  end.

End MapperVocabulary.

(** ** Sample inputs *)

(** Stand-ins for the UUID source and the Go library, used by the examples
    only. [sample_Atoi] reads an optional sign and decimal digits within
    the range of a 64-bit [int]; [sample_json_Unmarshal] knows the two
    documents of the examples, [null] and a list of one string;
    [sample_ParseFloat] is only applied to strings that are not numbers;
    [sample_TrimSpace] trims ASCII white space. *)
Definition sample_uuid_New (n : nat) : string :=
  nth n ["0b7c1e52-7d3f-4a8e-9c55-1f2e3d4c5b6a"; "5e0d9a11-2b6c-4f0e-8a77-9d8c7b6a5f4e"]
    "a3f1c2d4-5e6f-4a7b-8c9d-0e1f2a3b4c5d".

Definition digit_of (c : ascii) : option Z :=
  let n := Z.of_nat (nat_of_ascii c) in
  if (48 <=? n) && (n <=? 57) then Some (n - 48) else None.

Fixpoint digits_of (s : string) (acc : Z) : option Z :=
  match s with
  | EmptyString => Some acc
  | String c t =>
    match digit_of c with
    | Some n => digits_of t (acc * 10 + n)
    | None => None
    end
  end.

Definition sample_Atoi (s : string) : option Z :=
  let in_range (n : Z) := if (- 2 ^ 63 <=? n) && (n <? 2 ^ 63) then Some n else None in
  match s with
  | EmptyString => None
  | String c t =>
    if Ascii.eqb c "+" then
      match t with EmptyString => None | _ => digits_of t 0 ≫= in_range end
    else if Ascii.eqb c "-" then
      match t with
      | EmptyString => None
      | _ => digits_of t 0 ≫= (fun n => in_range (- n))
      end
    else digits_of s 0 ≫= in_range
  end.

Definition quoted (s : string) : string :=
  String (ascii_of_nat 34) s +:+ String (ascii_of_nat 34) "".

Definition sample_json_Unmarshal (s : string) : option Value :=
  if String.eqb s "null" then Some VNil
  else if String.eqb s ("[" +:+ quoted "tpm" +:+ "]") then Some (VList [VStr "tpm"])
  else None.

Definition sample_ParseFloat (s : string) : option float := None.

Definition is_space (c : ascii) : bool :=
  let n := nat_of_ascii c in
  (Nat.eqb n 32 || (Nat.leb 9 n && Nat.leb n 13))%bool.

Fixpoint trim_left (s : string) : string :=
  match s with
  | EmptyString => EmptyString
  | String c t => if is_space c then trim_left t else s
  end.

Definition sample_TrimSpace (s : string) : string :=
  String.rev (trim_left (String.rev (trim_left s))).

(** [range] in the order of the map's list of entries. *)
Definition sample_range (m : gmap string Value) : list (string * Value) :=
  map_to_list m.

(** A model whose bag holds an ordinary string and the reserved entry. *)
Definition test_model_with_bag : ResourceData :=
  {| rd_id := "model-1";
     rd_fields :=
       <["tpm" := VInt 100]>
         (<["additional_litellm_params" :=
              VMap (<["stop" := VStr "null"]>
                      (<["additional_drop_params" :=
                           VStr ("[" +:+ quoted "tpm" +:+ "]")]> ∅))]> ∅) |}.

(** A world in which nothing has happened yet. *)
Definition initial_world (d : ResourceData) : World :=
  {| data := d; requests := 0; uuids := 0; trace := [] |}.

(** A server that answers the [n]-th request with the [n]-th reply of a
    script, and with [last] once the script has run out. *)
Definition scripted {R} (script : list (Reply R)) (last : Reply R) : nat -> Reply R :=
  fun n => nth n script last.

(** The credential of [resource_credential_crud_test.go]. *)
Definition test_credential : ResourceData :=
  {| rd_id := "test-cred";
     rd_fields :=
       <["credential_name" := VStr "test-cred"]>
         (<["model_id" := VStr ""]>
            (<["credential_info" := VMap ∅]>
               (<["credential_values" := VMap (<["key" := VStr "val"]> ∅)]> ∅))) |}.

(** Replies of the test servers: a bare 404, a 500 and a found credential. *)
Definition reply_404 : Reply CredentialResponse := Response 404 (HandlerError "").

Definition reply_500 : Reply CredentialResponse :=
  Response 500 (HandlerError "API request failed: internal server error").

Definition reply_found : Reply CredentialResponse :=
  Response 200 (Decoded {| CredentialName := "test-cred";
                            CredentialInfo := <["provider" := VStr "aws"]> ∅ |}).

(** A stand-in for the SDK's writer on a map of strings, used by the
    examples only: a map whose values are all strings or null is stored,
    null as the empty string; any other value leaves the field as the call
    found it. *)
Definition is_string_or_null (v : Value) : bool :=
  match v with VStr _ | VNil => true | _ => false end.

Definition null_as_empty (v : Value) : Value :=
  match v with VNil => VStr "" | _ => v end.

Definition sample_schema_Set (key : string) (value : Value) (w : World) : option Value :=
  match value with
  | VMap entries =>
    if forallb (fun entry => is_string_or_null (snd entry)) (map_to_list entries)
    then Some (VMap (null_as_empty <$> entries))
    else rd_fields (data w) !! key
  | _ => rd_fields (data w) !! key
  end.

(** A model under its identifier, and replies of a model server. *)
Definition test_model : ResourceData :=
  {| rd_id := "model-1";
     rd_fields :=
       <["model_name" := VStr "gpt"]>
         (<["custom_llm_provider" := VStr "openai"]>
            (<["base_model" := VStr "gpt-4o"]> ∅)) |}.

Definition model_reply_missing : Reply ModelResponse :=
  Response 404 (HandlerError "model_not_found").

Definition model_reply_not_yet : Reply ModelResponse :=
  Response 400 (HandlerError "Model id = model-1 not found on litellm proxy").

Definition model_reply_500 : Reply ModelResponse :=
  Response 500 (HandlerError "API request failed: internal server error").

Definition sample_model_response : ModelResponse :=
  {| ModelName := "gpt";
     LiteLLMParams :=
       {| CustomLLMProvider := "openai"; TPM := 0; RPM := 0; APIBase := "";
          APIVersion := ""; AWSRegionName := ""; Thinking := None;
          MergeReasoningContentInChoices := false |};
     ModelInfoOf := {| BaseModel := "gpt-4o"; Tier := ""; Mode := ""; TeamID := "" |} |}.

Definition model_reply_ok : Reply ModelResponse :=
  Response 200 (Decoded sample_model_response).

(** Stand-ins for the helpers of [utils.go], used by the examples only: the
    API value unless it is the zero value. No example converts a float. *)
Definition sample_GetStringValue (apiValue defaultValue : string) : string :=
  if String.eqb apiValue "" then defaultValue else apiValue.

Definition sample_GetIntValue (apiValue defaultValue : Z) : Z :=
  if Z.eqb apiValue 0 then defaultValue else apiValue.

Definition sample_float_to_int (f : float) : Z := 0.

(** The orchestrator and the request builder over the stand-ins. *)
Definition sample_createOrUpdateModel (server : nat -> Reply ModelResponse)
    (w : World) (isUpdate : bool) : World * error :=
  createOrUpdateModel server MetaClient sample_uuid_New sample_json_Unmarshal
    sample_Atoi sample_ParseFloat sample_TrimSpace sample_range sample_GetStringValue
    sample_GetIntValue sample_float_to_int w isUpdate.

Definition sample_buildModelRequest (d : ResourceData) (modelID : string) : ModelRequest :=
  buildModelRequest sample_json_Unmarshal sample_Atoi sample_ParseFloat sample_TrimSpace
    sample_range d modelID.

(** * Properties *)

(** ** Strings *)

Lemma HasPrefix_spec (s p : string) : HasPrefix s p = true <-> has_prefix s p.
Proof.
  revert s. induction p as [|a p IH]; intros s; simpl.
  - split; [intros _; exists s; reflexivity | reflexivity].
  - destruct s as [|b t].
    + split; [discriminate | intros [u Hu]; discriminate].
    + rewrite andb_true_iff, Ascii.eqb_eq, IH. split.
      * intros [-> [u ->]]. exists u. reflexivity.
      * intros [u Hu]. injection Hu as -> ->. split; [reflexivity | exists u; reflexivity].
Qed.

Lemma Contains_spec (s sub : string) : Contains s sub = true <-> has_substring s sub.
Proof.
  induction s as [|b t IH]; simpl.
  - rewrite orb_false_r, HasPrefix_spec. split.
    + intros [u Hu]. exists "", u. exact Hu.
    + intros (pre & post & H). destruct pre; [exists post; exact H | discriminate].
  - rewrite orb_true_iff, HasPrefix_spec, IH. split.
    + intros [[u Hu] | (pre & post & ->)].
      * exists "", u. exact Hu.
      * exists (String b pre), post. reflexivity.
    + intros (pre & post & H). destruct pre as [|c pre].
      * left. exists post. exact H.
      * right. injection H as -> ->. exists pre, post. reflexivity.
Qed.

Lemma append_length (s t : string) :
  String.length (s +:+ t) = (String.length s + String.length t)%nat.
Proof. induction s as [|a s IH]; simpl; [reflexivity | rewrite IH; reflexivity]. Qed.

Lemma append_self_inv (op s : string) : s = op +:+ s -> op = "".
Proof.
  intros H. apply (f_equal String.length) in H. rewrite append_length in H.
  destruct op; [reflexivity | simpl in H; lia].
Qed.

(** ** Backoff *)

Lemma wrap64_small (z : Z) : - 2 ^ 63 <= z < 2 ^ 63 -> wrap64 z = z.
Proof. intros H. unfold wrap64. rewrite Z.mod_small; lia. Qed.

Lemma next_delay_min (delay : Z) :
  - 2 ^ 62 <= delay < 2 ^ 62 -> next_delay delay = Z.min (delay * 2) maxDelay.
Proof.
  intros H. unfold next_delay. rewrite wrap64_small by lia.
  destruct (Z.gtb_spec (delay * 2) maxDelay); lia.
Qed.

Lemma maxDelay_value : maxDelay = 10000000000.
Proof. reflexivity. Qed.

Lemma next_delay_bounds (delay : Z) :
  0 < delay <= maxDelay ->
  delay <= next_delay delay /\ 0 < next_delay delay <= maxDelay.
Proof.
  intros H. pose proof maxDelay_value as Hm.
  rewrite next_delay_min by lia. lia.
Qed.

Lemma backoff_delays_length (delay : Z) (n : nat) : length (backoff_delays delay n) = n.
Proof. revert delay. induction n as [|n IH]; intros delay; simpl; [|rewrite IH]; reflexivity. Qed.

Lemma backoff_delays_lookup (n k : nat) (delay : Z) :
  0 < delay <= maxDelay -> (k < n)%nat ->
  backoff_delays delay n !! k = Some (Z.min (delay * 2 ^ Z.of_nat k) maxDelay).
Proof.
  revert k delay. induction n as [|n IH]; intros k delay Hd Hk; [lia|].
  destruct k as [|k]; simpl.
  - f_equal. lia.
  - rewrite IH by (try apply next_delay_bounds; solve [assumption | lia]).
    pose proof maxDelay_value as Hm.
    rewrite next_delay_min by lia. f_equal.
    rewrite Nat2Z.inj_succ, Z.pow_succ_r by lia.
    assert (0 < 2 ^ Z.of_nat k) by (apply Z.pow_pos_nonneg; lia).
    destruct (Z.min_spec (delay * 2) maxDelay) as [[? ->] | [? ->]]; [|nia].
    f_equal. lia.
Qed.

Lemma backoff_delays_nondecreasing (delay : Z) (n : nat) :
  0 < delay <= maxDelay -> nondecreasing (backoff_delays delay n).
Proof.
  intros Hd k a b Ha Hb.
  assert (S k < n)%nat as Hk.
  { apply lookup_lt_Some in Hb. rewrite backoff_delays_length in Hb. exact Hb. }
  rewrite backoff_delays_lookup in Ha, Hb by (assumption || lia).
  injection Ha as <-. injection Hb as <-.
  rewrite Nat2Z.inj_succ, Z.pow_succ_r by lia.
  assert (0 < 2 ^ Z.of_nat k) by (apply Z.pow_pos_nonneg; lia).
  apply Z.min_le_compat_r. nia.
Qed.

Lemma backoff_delays_capped (delay : Z) (n : nat) (a : Z) :
  0 < delay <= maxDelay -> a ∈ backoff_delays delay n -> 0 < a <= maxDelay.
Proof.
  intros Hd [k Hk]%list_elem_of_lookup.
  assert (k < n)%nat as Hlt.
  { apply lookup_lt_Some in Hk. rewrite backoff_delays_length in Hk. exact Hk. }
  rewrite backoff_delays_lookup in Hk by assumption. injection Hk as <-.
  assert (0 < 2 ^ Z.of_nat k) by (apply Z.pow_pos_nonneg; lia).
  pose proof maxDelay_value. split; [|apply Z.le_min_r].
  apply Z.min_glb_lt; nia.
Qed.

(** ** Traces *)

Lemma sleeps_app (tr1 tr2 : list Event) : sleeps (tr1 ++ tr2) = sleeps tr1 ++ sleeps tr2.
Proof. unfold sleeps. apply omap_app. Qed.

Lemma endpoints_app (method : string) (tr1 tr2 : list Event) :
  endpoints method (tr1 ++ tr2) = endpoints method tr1 ++ endpoints method tr2.
Proof. unfold endpoints. apply omap_app. Qed.

Lemma retry_trace_S (req : Event) (delay : Z) (n : nat) :
  retry_trace req delay (S (S n)) =
  [req; EvSleep delay] ++ retry_trace req (next_delay delay) (S n).
Proof. reflexivity. Qed.

Lemma sleeps_retry_trace (method endpoint : string) (body : Body) (delay : Z) (n : nat) :
  sleeps (retry_trace (EvRequest method endpoint body) delay n) =
  backoff_delays delay (n - 1).
Proof.
  revert delay. induction n as [|[|n] IH]; intros delay; try reflexivity.
  rewrite retry_trace_S, sleeps_app, IH. simpl. rewrite Nat.sub_0_r. reflexivity.
Qed.

Lemma endpoints_retry_trace (method endpoint : string) (body : Body) (delay : Z) (n : nat) :
  endpoints method (retry_trace (EvRequest method endpoint body) delay n) =
  repeat endpoint n.
Proof.
  revert delay. induction n as [|[|n] IH]; intros delay.
  - reflexivity.
  - simpl. rewrite String.eqb_refl. reflexivity.
  - rewrite retry_trace_S, endpoints_app, IH. simpl.
    rewrite String.eqb_refl. reflexivity.
Qed.

(** ** The credential reconciler *)

Section CredentialProofs.
Variable server : nat -> Reply CredentialResponse.
Variable schema_Set : string -> Value -> World -> option Value.

Lemma SetId_restore (d : ResourceData) : SetId (Id d) (SetId "" d) = d.
Proof. destruct d; reflexivity. Qed.

Lemma credentialRead_clears (w : World) :
  credentialReadClears (server (requests w)) = true ->
  resourceLiteLLMCredentialRead server schema_Set w =
  (with_data (SetId "") (sent (credentialReadRequest (data w)) w), None).
Proof.
  unfold resourceLiteLLMCredentialRead, credentialReadClears, MakeRequest,
    credentialReadRequest, credentialReadEndpoint, sent.
  destruct (server (requests w)) as [msg | status [msg | resp]]; intros H;
    try discriminate; destruct (Z.eqb status 404); simpl in H;
    try rewrite H; try discriminate;
    destruct (String.eqb (GetString (data w) "model_id") ""); reflexivity.
Qed.

Lemma credentialRead_error (w : World) (e : string) :
  credentialReadError (server (requests w)) = Some e ->
  resourceLiteLLMCredentialRead server schema_Set w =
  (sent (credentialReadRequest (data w)) w, Some e).
Proof.
  unfold resourceLiteLLMCredentialRead, credentialReadError, credentialReadClears,
    MakeRequest, credentialReadRequest, credentialReadEndpoint, sent, Errorf_w.
  destruct (server (requests w)) as [msg | status [msg | resp]]; intros H;
    try discriminate.
  - injection H as <-.
    destruct (String.eqb (GetString (data w) "model_id") ""); reflexivity.
  - destruct (Z.eqb status 404); simpl in H; [discriminate|].
    destruct (String.eqb msg "credential_not_found"); [discriminate|].
    injection H as <-.
    destruct (String.eqb (GetString (data w) "model_id") ""); reflexivity.
Qed.

(** One iteration on a reply that is a retryable not-found. *)
Lemma retryCredentialRead_loop_retry (rem : nat) (i maxRetries delay : Z)
    (err : error) (w : World) :
  credentialNotFound (server (requests w)) = true ->
  retryCredentialRead_loop server schema_Set (S rem) i maxRetries (Id (data w)) delay err w =
  let w1 := sent (credentialReadRequest (data w)) w in
  let err1 := credentialAttemptError (server (requests w)) in
  if i <? maxRetries - 1
  then retryCredentialRead_loop server schema_Set rem (i + 1) maxRetries (Id (data w))
         (next_delay delay) err1 (Sleep delay w1)
  else retryCredentialRead_loop server schema_Set rem (i + 1) maxRetries (Id (data w))
         delay err1 w1.
Proof.
  unfold credentialNotFound, credentialAttemptError. intros H.
  cbn [retryCredentialRead_loop].
  destruct (credentialReadClears (server (requests w))) eqn:Hc.
  - rewrite credentialRead_clears by exact Hc. cbn [is_nil andb with_data data sent].
    unfold Id at 1. cbn [SetId rd_id]. rewrite String.eqb_refl.
    rewrite H. cbn [negb].
    replace (with_data (SetId (Id (data w))) _)
      with (sent (credentialReadRequest (data w)) w)
      by (unfold with_data, sent; cbn; rewrite SetId_restore; reflexivity).
    destruct (i <? maxRetries - 1); reflexivity.
  - destruct (credentialReadError (server (requests w))) as [e|] eqn:He;
      [|discriminate].
    rewrite (credentialRead_error _ _ He). cbn [is_nil andb]. rewrite H. cbn [negb].
    destruct (i <? maxRetries - 1); reflexivity.
Qed.

(** One iteration on a reply that is an error of another kind. *)
Lemma retryCredentialRead_loop_fatal (rem : nat) (i maxRetries delay : Z)
    (origID : string) (err : error) (w : World) (e : string) :
  credentialReadError (server (requests w)) = Some e ->
  credentialRetryable e = false ->
  retryCredentialRead_loop server schema_Set (S rem) i maxRetries origID delay err w =
  (sent (credentialReadRequest (data w)) w, Some e).
Proof.
  intros He Hr. cbn [retryCredentialRead_loop].
  rewrite (credentialRead_error _ _ He). cbn [is_nil andb]. rewrite Hr. reflexivity.
Qed.

Lemma sent_ran (ev : Event) (w : World) : sent ev w = ran [ev] 1 w.
Proof. unfold sent, ran. rewrite Nat.add_1_r. reflexivity. Qed.

Lemma ran_ran (tr1 tr2 : list Event) (n1 n2 : nat) (w : World) :
  ran tr2 n2 (ran tr1 n1 w) = ran (tr1 ++ tr2) (n1 + n2) w.
Proof. unfold ran. cbn. rewrite Nat.add_assoc, app_assoc. reflexivity. Qed.

Lemma Sleep_ran (delay : Z) (tr : list Event) (n : nat) (w : World) :
  Sleep delay (ran tr n w) = ran (tr ++ [EvSleep delay]) n w.
Proof. unfold Sleep, ran. cbn. rewrite app_assoc. reflexivity. Qed.

(** Every attempt a retryable not-found: the loop runs out of attempts. *)
Lemma retryCredentialRead_loop_exhausts (rem : nat) :
  forall (i maxRetries delay : Z) (err : error) (w : World),
  Z.of_nat rem = maxRetries - i -> (1 <= rem)%nat ->
  (forall j, (j < rem)%nat -> credentialNotFound (server (requests w + j)%nat) = true) ->
  retryCredentialRead_loop server schema_Set rem i maxRetries (Id (data w)) delay err w =
  (ran (retry_trace (credentialReadRequest (data w)) delay rem) rem w,
   credentialAttemptError (server (requests w + (rem - 1))%nat)).
Proof.
  induction rem as [|rem IH]; intros i maxRetries delay err w Hrem Hpos Hnf; [lia|].
  rewrite retryCredentialRead_loop_retry
    by (specialize (Hnf 0%nat); rewrite Nat.add_0_r in Hnf; apply Hnf; lia).
  cbv zeta. destruct rem as [|rem].
  - destruct (Z.ltb_spec i (maxRetries - 1)); [lia|].
    cbn [retryCredentialRead_loop]. rewrite sent_ran. simpl.
    rewrite Nat.add_0_r. reflexivity.
  - destruct (Z.ltb_spec i (maxRetries - 1)); [|lia].
    rewrite sent_ran, Sleep_ran.
    change (Id (data w)) with
      (Id (data (ran ([credentialReadRequest (data w)] ++ [EvSleep delay]) 1 w))).
    rewrite IH.
    + rewrite ran_ran. cbn [data ran]. rewrite retry_trace_S.
      f_equal. do 2 f_equal. cbn [requests ran]. lia.
    + lia.
    + lia.
    + intros j Hj. cbn [requests ran].
      replace (requests w + 1 + j)%nat with (requests w + S j)%nat by lia.
      apply Hnf. lia.
Qed.

(** Retryable not-founds, then an error of another kind at attempt [k]. *)
Lemma retryCredentialRead_loop_stops (k : nat) :
  forall (rem : nat) (i maxRetries delay : Z) (err : error) (w : World) (e : string),
  Z.of_nat rem = maxRetries - i -> (k < rem)%nat ->
  (forall j, (j < k)%nat -> credentialNotFound (server (requests w + j)%nat) = true) ->
  credentialReadError (server (requests w + k)%nat) = Some e ->
  credentialRetryable e = false ->
  retryCredentialRead_loop server schema_Set rem i maxRetries (Id (data w)) delay err w =
  (ran (retry_trace (credentialReadRequest (data w)) delay (S k)) (S k) w, Some e).
Proof.
  induction k as [|k IH]; intros rem i maxRetries delay err w e Hrem Hk Hnf He Hr;
    (destruct rem as [|rem]; [lia|]).
  - rewrite Nat.add_0_r in He.
    rewrite (retryCredentialRead_loop_fatal _ _ _ _ _ _ _ _ He Hr).
    rewrite sent_ran. reflexivity.
  - rewrite retryCredentialRead_loop_retry
      by (specialize (Hnf 0%nat); rewrite Nat.add_0_r in Hnf; apply Hnf; lia).
    cbv zeta. destruct (Z.ltb_spec i (maxRetries - 1)); [|lia].
    rewrite sent_ran, Sleep_ran.
    change (Id (data w)) with
      (Id (data (ran ([credentialReadRequest (data w)] ++ [EvSleep delay]) 1 w))).
    rewrite (IH _ _ _ _ _ _ e).
    + rewrite ran_ran. cbn [data ran]. rewrite retry_trace_S. reflexivity.
    + lia.
    + lia.
    + intros j Hj. cbn [requests ran].
      replace (requests w + 1 + j)%nat with (requests w + S j)%nat by lia.
      apply Hnf. lia.
    + cbn [requests ran].
      replace (requests w + 1 + k)%nat with (requests w + S k)%nat by lia. exact He.
    + exact Hr.
Qed.

Lemma credentialRead_found (w : World) (status : Z) (resp : CredentialResponse) :
  server (requests w) = Response status (Decoded resp) -> status <> 404 ->
  resourceLiteLLMCredentialRead server schema_Set w =
  (credentialFound schema_Set resp (sent (credentialReadRequest (data w)) w), None).
Proof.
  intros Hr Hs.
  unfold resourceLiteLLMCredentialRead, MakeRequest, credentialReadRequest,
    credentialReadEndpoint, sent, credentialFound.
  rewrite Hr. destruct (Z.eqb_spec status 404) as [|_]; [contradiction|].
  destruct (String.eqb (GetString (data w) "model_id") ""); reflexivity.
Qed.

Lemma credentialReadRequest_ext (d1 d2 : ResourceData) :
  Id d1 = Id d2 -> rd_fields d1 !! "model_id" = rd_fields d2 !! "model_id" ->
  credentialReadRequest d1 = credentialReadRequest d2.
Proof.
  intros HId Hf. unfold credentialReadRequest, credentialReadEndpoint, GetString.
  rewrite HId, Hf. reflexivity.
Qed.

Lemma Id_SetId (id : string) (d : ResourceData) : Id (SetId id d) = id.
Proof. reflexivity. Qed.

Lemma Id_SetField (key : string) (v : Value) (d : ResourceData) :
  Id (SetField key v d) = Id d.
Proof. reflexivity. Qed.

(** A found read keeps the identifier, the counters, the trace and every
    field but the two it writes. *)
Lemma Id_credentialFound (resp : CredentialResponse) (w : World) :
  Id (data (credentialFound schema_Set resp w)) = Id (data w).
Proof. reflexivity. Qed.

Lemma credentialFound_frame (resp : CredentialResponse) (w : World) :
  requests (credentialFound schema_Set resp w) = requests w /\
  uuids (credentialFound schema_Set resp w) = uuids w /\
  trace (credentialFound schema_Set resp w) = trace w /\
  forall key, key <> "credential_name" -> key <> "credential_info" ->
    rd_fields (data (credentialFound schema_Set resp w)) !! key =
    rd_fields (data w) !! key.
Proof.
  repeat split. intros key Hname Hinfo.
  unfold credentialFound. cbn [with_data data SetStored SetField rd_fields].
  rewrite lookup_partial_alter_ne by congruence.
  rewrite lookup_insert_ne by congruence. reflexivity.
Qed.

(** What holds of the loop whatever the server replies: it only appends
    reads of the original identifier and sleeps of the backoff sequence, it
    leaves the identifier as it was on entry, and it returns [nil] only
    after a read that left a non-empty identifier. *)
Lemma retryCredentialRead_loop_invariants (rem : nat) :
  forall (i maxRetries delay : Z) (err : error) (w : World) (origID : string)
         (req : Event) (R : World * error),
  Id (data w) = origID -> credentialReadRequest (data w) = req ->
  R = retryCredentialRead_loop server schema_Set rem i maxRetries origID delay err w ->
  exists tr n,
    trace (fst R) = trace w ++ tr /\
    sleeps tr = backoff_delays delay n /\
    (forall ev, ev ∈ tr -> ev = req \/ exists d, ev = EvSleep d) /\
    Id (data (fst R)) = origID /\
    (snd R = None -> (rem = 0%nat /\ err = None) \/ origID <> "").
Proof.
  induction rem as [|rem IH]; intros i maxRetries delay err w origID req R HId Hreq HR.
  { exists [], 0%nat. subst R. cbn. rewrite app_nil_r.
    repeat split; try assumption; [intros ev Hev; inversion Hev | intros ->; left; auto]. }
  (* the rest of the iteration, from a world [w1] reached by the read *)
  assert (forall (w1 : World) (msg : string),
    trace w1 = trace w ++ [req] -> Id (data w1) = origID ->
    credentialReadRequest (data w1) = req ->
    R = (let '(w2, delay2) :=
           if i <? maxRetries - 1 then (Sleep delay w1, next_delay delay)
           else (w1, delay) in
         retryCredentialRead_loop server schema_Set rem (i + 1) maxRetries origID delay2
           (Some msg) w2) ->
    exists tr n,
      trace (fst R) = trace w ++ tr /\ sleeps tr = backoff_delays delay n /\
      (forall ev, ev ∈ tr -> ev = req \/ exists d, ev = EvSleep d) /\
      Id (data (fst R)) = origID /\
      (snd R = None -> (S rem = 0%nat /\ err = None) \/ origID <> "")) as Hcont.
  { clear HR. intros w1 msg Htr HId1 Hreq1 HR. destruct (i <? maxRetries - 1).
    - destruct (IH (i + 1) maxRetries (next_delay delay) (Some msg) (Sleep delay w1)
                  origID req R HId1 Hreq1 HR) as (tr & n & H1 & H2 & H3 & H4 & H5).
      exists ([req] ++ [EvSleep delay] ++ tr), (S n).
      rewrite H1. cbn [Sleep trace]. rewrite Htr, <- !app_assoc.
      repeat split; try assumption.
      + rewrite !sleeps_app, H2. rewrite <- Hreq. reflexivity.
      + intros ev Hev. rewrite !elem_of_app, !list_elem_of_singleton in Hev.
        destruct Hev as [-> | [-> | Hev]]; [left; reflexivity | right; eauto | auto].
      + intros Hn. destruct (H5 Hn) as [[_ ?] | ?]; [discriminate | right; assumption].
    - destruct (IH (i + 1) maxRetries delay (Some msg) w1
                  origID req R HId1 Hreq1 HR) as (tr & n & H1 & H2 & H3 & H4 & H5).
      exists ([req] ++ tr), n.
      rewrite H1, Htr, <- !app_assoc.
      repeat split; try assumption.
      + rewrite !sleeps_app, H2. rewrite <- Hreq. reflexivity.
      + intros ev Hev. rewrite !elem_of_app, !list_elem_of_singleton in Hev.
        destruct Hev as [-> | Hev]; [left; reflexivity | auto].
      + intros Hn. destruct (H5 Hn) as [[_ ?] | ?]; [discriminate | right; assumption]. }
  cbn [retryCredentialRead_loop] in HR.
  destruct (credentialReadClears (server (requests w))) eqn:Hc.
  - (* the read cleared the identifier: restored, retried *)
    rewrite credentialRead_clears in HR by exact Hc.
    cbn [is_nil andb with_data data sent] in HR.
    rewrite Id_SetId, String.eqb_refl in HR.
    change (credentialRetryable "credential_not_found") with true in HR.
    cbn [negb] in HR.
    eapply Hcont; [| | | exact HR]; cbn.
    + rewrite Hreq. reflexivity.
    + reflexivity.
    + rewrite <- Hreq. apply credentialReadRequest_ext; [symmetry; exact HId | reflexivity].
  - destruct (credentialReadError (server (requests w))) as [e|] eqn:He.
    + (* the read failed *)
      rewrite (credentialRead_error _ _ He) in HR. cbn [is_nil andb] in HR.
      destruct (credentialRetryable e); cbn [negb] in HR.
      * eapply Hcont; [| | | exact HR]; cbn;
          [rewrite Hreq; reflexivity | exact HId | exact Hreq].
      * exists [req], 0%nat. subst req R. cbn.
        repeat split; try assumption; try discriminate.
        intros ev ->%list_elem_of_singleton. left; reflexivity.
    + (* the read found the credential *)
      destruct (server (requests w)) as [msg | status [msg | resp]] eqn:Hr;
        try discriminate.
      { cbn in He. unfold credentialReadClears in Hc. rewrite Hc in He. discriminate. }
      assert (status <> 404) as Hs.
      { intros ->. discriminate. }
      rewrite (credentialRead_found _ _ _ Hr Hs) in HR.
      cbn [is_nil andb] in HR.
      rewrite Id_credentialFound in HR. cbn [data sent] in HR.
      rewrite HId in HR.
      destruct (String.eqb_spec origID "") as [Hempty | Hne].
      * change (credentialRetryable "credential_not_found") with true in HR.
        cbn [negb] in HR.
        eapply Hcont; [| | | exact HR]; cbn.
        -- rewrite Hreq. reflexivity.
        -- reflexivity.
        -- rewrite <- Hreq. apply credentialReadRequest_ext; cbn.
           ++ symmetry; exact HId.
           ++ rewrite lookup_partial_alter_ne by discriminate.
              rewrite lookup_insert_ne by discriminate. reflexivity.
      * exists [req], 0%nat. subst req R. cbn.
        repeat split; try assumption; try (right; assumption).
        intros ev ->%list_elem_of_singleton. left; reflexivity.
Qed.

End CredentialProofs.

(** ** The model reconciler *)

Section ModelReconcilerProofs.
Variable server : nat -> Reply ModelResponse.
Variable GetStringValue : string -> string -> string.
Variable GetIntValue : Z -> Z -> Z.
Variable float_to_int : float -> Z.

#[local] Abbreviation read m :=
  (resourceLiteLLMModelRead server m GetStringValue GetIntValue float_to_int).
#[local] Abbreviation loop m :=
  (retryModelRead_loop server m GetStringValue GetIntValue float_to_int).
#[local] Abbreviation readFields :=
  (readModelFields GetStringValue GetIntValue float_to_int).

Lemma modelRead_error (w : World) (e : string) :
  modelReadError (server (requests w)) = Some e ->
  read MetaClient w = (sent (modelReadRequest (data w)) w, Some e).
Proof.
  unfold resourceLiteLLMModelRead, modelReadError, MakeRequest, modelReadRequest,
    sent, Errorf_w.
  destruct (server (requests w)) as [msg | status [msg | resp]]; intros H;
    try discriminate.
  - injection H as <-. reflexivity.
  - destruct (String.eqb msg "model_not_found"); [discriminate|].
    injection H as <-. reflexivity.
Qed.

Lemma modelRead_clears (w : World) (status : Z) :
  server (requests w) = Response status (HandlerError "model_not_found") ->
  read MetaClient w = (with_data (SetId "") (sent (modelReadRequest (data w)) w), None).
Proof.
  intros H. unfold resourceLiteLLMModelRead, MakeRequest. rewrite H. reflexivity.
Qed.

Lemma modelRead_found (w : World) (status : Z) (resp : ModelResponse) :
  server (requests w) = Response status (Decoded resp) ->
  read MetaClient w =
  (with_data (readFields resp) (sent (modelReadRequest (data w)) w), None).
Proof.
  intros H. unfold resourceLiteLLMModelRead, MakeRequest. rewrite H. reflexivity.
Qed.

Lemma modelRead_success_cases (w : World) :
  modelReadError (server (requests w)) = None ->
  (exists status, server (requests w) = Response status (HandlerError "model_not_found")) \/
  (exists status resp, server (requests w) = Response status (Decoded resp)).
Proof.
  unfold modelReadError.
  destruct (server (requests w)) as [msg | status [msg | resp]]; intros H;
    try discriminate.
  - left. exists status. destruct (String.eqb msg "model_not_found") eqn:E;
      [apply String.eqb_eq in E; subst msg; reflexivity | discriminate].
  - right. eauto.
Qed.

Lemma Id_run_statements (stmts : list (ResourceData -> ResourceData)) :
  Forall (fun stmt => forall d, Id (stmt d) = Id d) stmts ->
  forall d, Id (run_statements stmts d) = Id d.
Proof.
  unfold run_statements. induction 1 as [|stmt stmts Hs _ IH]; intros d; cbn.
  - reflexivity.
  - rewrite IH. apply Hs.
Qed.

Lemma Id_readModelFields (resp : ModelResponse) (d : ResourceData) :
  Id (readFields resp d) = Id d.
Proof.
  cbv beta delta [readModelFields]. cbv zeta. apply Id_run_statements.
  repeat (apply Forall_cons; split; [intros d'; repeat case_match; reflexivity|]).
  apply Forall_nil. exact I.
Qed.

(** One iteration on a reply that is a retryable not-found. *)
Lemma retryModelRead_loop_retry (rem : nat) (i maxRetries delay : Z)
    (err : error) (w : World) :
  modelNotFound (server (requests w)) = true ->
  loop MetaClient (S rem) i maxRetries delay err w =
  let w1 := sent (modelReadRequest (data w)) w in
  let err1 := modelReadError (server (requests w)) in
  if i <? maxRetries - 1
  then loop MetaClient rem (i + 1) maxRetries (next_delay delay) err1 (Sleep delay w1)
  else loop MetaClient rem (i + 1) maxRetries delay err1 w1.
Proof.
  unfold modelNotFound. intros H. cbn [retryModelRead_loop].
  destruct (modelReadError (server (requests w))) as [e|] eqn:He; [|discriminate].
  rewrite (modelRead_error _ _ He), H. cbn [negb].
  destruct (i <? maxRetries - 1); reflexivity.
Qed.

(** One iteration on a reply that is an error of another kind. *)
Lemma retryModelRead_loop_fatal (rem : nat) (i maxRetries delay : Z)
    (err : error) (w : World) (e : string) :
  modelReadError (server (requests w)) = Some e ->
  isRetryableModelError (Some e) = false ->
  loop MetaClient (S rem) i maxRetries delay err w =
  (sent (modelReadRequest (data w)) w, Some e).
Proof.
  intros He Hr. cbn [retryModelRead_loop].
  rewrite (modelRead_error _ _ He), Hr. reflexivity.
Qed.

(** Every attempt a retryable not-found: the loop runs out of attempts. *)
Lemma retryModelRead_loop_exhausts (rem : nat) :
  forall (i maxRetries delay : Z) (err : error) (w : World),
  Z.of_nat rem = maxRetries - i -> (1 <= rem)%nat ->
  (forall j, (j < rem)%nat -> modelNotFound (server (requests w + j)%nat) = true) ->
  loop MetaClient rem i maxRetries delay err w =
  (ran (retry_trace (modelReadRequest (data w)) delay rem) rem w,
   modelReadError (server (requests w + (rem - 1))%nat)).
Proof.
  induction rem as [|rem IH]; intros i maxRetries delay err w Hrem Hpos Hnf; [lia|].
  rewrite retryModelRead_loop_retry
    by (specialize (Hnf 0%nat); rewrite Nat.add_0_r in Hnf; apply Hnf; lia).
  cbv zeta. destruct rem as [|rem].
  - destruct (Z.ltb_spec i (maxRetries - 1)); [lia|].
    cbn [retryModelRead_loop]. rewrite sent_ran. simpl.
    rewrite Nat.add_0_r. reflexivity.
  - destruct (Z.ltb_spec i (maxRetries - 1)); [|lia].
    rewrite sent_ran, Sleep_ran, IH.
    + rewrite ran_ran. cbn [data ran]. rewrite retry_trace_S.
      f_equal. do 2 f_equal. cbn [requests ran]. lia.
    + lia.
    + lia.
    + intros j Hj. cbn [requests ran].
      replace (requests w + 1 + j)%nat with (requests w + S j)%nat by lia.
      apply Hnf. lia.
Qed.

(** Retryable not-founds, then an error of another kind at attempt [k]. *)
Lemma retryModelRead_loop_stops (k : nat) :
  forall (rem : nat) (i maxRetries delay : Z) (err : error) (w : World) (e : string),
  Z.of_nat rem = maxRetries - i -> (k < rem)%nat ->
  (forall j, (j < k)%nat -> modelNotFound (server (requests w + j)%nat) = true) ->
  modelReadError (server (requests w + k)%nat) = Some e ->
  isRetryableModelError (Some e) = false ->
  loop MetaClient rem i maxRetries delay err w =
  (ran (retry_trace (modelReadRequest (data w)) delay (S k)) (S k) w, Some e).
Proof.
  induction k as [|k IH]; intros rem i maxRetries delay err w e Hrem Hk Hnf He Hr;
    (destruct rem as [|rem]; [lia|]).
  - rewrite Nat.add_0_r in He.
    rewrite (retryModelRead_loop_fatal _ _ _ _ _ _ _ He Hr).
    rewrite sent_ran. reflexivity.
  - rewrite retryModelRead_loop_retry
      by (specialize (Hnf 0%nat); rewrite Nat.add_0_r in Hnf; apply Hnf; lia).
    cbv zeta. destruct (Z.ltb_spec i (maxRetries - 1)); [|lia].
    rewrite sent_ran, Sleep_ran, (IH _ _ _ _ _ _ e).
    + rewrite ran_ran. cbn [data ran]. rewrite retry_trace_S. reflexivity.
    + lia.
    + lia.
    + intros j Hj. cbn [requests ran].
      replace (requests w + 1 + j)%nat with (requests w + S j)%nat by lia.
      apply Hnf. lia.
    + cbn [requests ran].
      replace (requests w + 1 + k)%nat with (requests w + S k)%nat by lia. exact He.
    + exact Hr.
Qed.

(** What holds of the loop whatever the server replies: it only appends
    reads of the identifier it started with and sleeps of the backoff
    sequence, and it ends with that identifier or with none. *)
Lemma retryModelRead_loop_invariants (rem : nat) :
  forall (m : Meta) (i maxRetries delay : Z) (err : error) (w : World)
         (R : World * error),
  R = loop m rem i maxRetries delay err w ->
  exists tr n,
    trace (fst R) = trace w ++ tr /\
    sleeps tr = backoff_delays delay n /\
    (forall ev, ev ∈ tr -> ev = modelReadRequest (data w) \/ exists d, ev = EvSleep d) /\
    (Id (data (fst R)) = Id (data w) \/ Id (data (fst R)) = "").
Proof.
  induction rem as [|rem IH]; intros m i maxRetries delay err w R HR.
  { exists [], 0%nat. subst R. cbn. rewrite app_nil_r.
    repeat split; [intros ev Hev; inversion Hev | left; reflexivity]. }
  destruct m.
  2:{ exists [], 0%nat. subst R. cbn. rewrite app_nil_r.
      repeat split; [intros ev Hev; inversion Hev | left; reflexivity]. }
  cbn [retryModelRead_loop] in HR.
  destruct (modelReadError (server (requests w))) as [e|] eqn:He.
  - rewrite (modelRead_error _ _ He) in HR.
    destruct (isRetryableModelError (Some e)); cbn [negb] in HR.
    + destruct (i <? maxRetries - 1).
      * destruct (IH _ _ _ _ _ _ _ HR) as (tr & n & H1 & H2 & H3 & H4).
        exists ([modelReadRequest (data w)] ++ [EvSleep delay] ++ tr), (S n).
        rewrite H1. cbn [Sleep sent trace data] in *. rewrite <- !app_assoc.
        repeat split; try assumption; try (rewrite !sleeps_app, H2; reflexivity).
        intros ev Hev. rewrite !elem_of_app, !list_elem_of_singleton in Hev.
        destruct Hev as [-> | [-> | Hev]]; [left; reflexivity | right; eauto | auto].
      * destruct (IH _ _ _ _ _ _ _ HR) as (tr & n & H1 & H2 & H3 & H4).
        exists ([modelReadRequest (data w)] ++ tr), n.
        rewrite H1. cbn [Sleep sent trace data] in *. rewrite <- !app_assoc.
        repeat split; try assumption; try (rewrite !sleeps_app, H2; reflexivity).
        intros ev Hev. rewrite !elem_of_app, !list_elem_of_singleton in Hev.
        destruct Hev as [-> | Hev]; [left; reflexivity | auto].
    + exists [modelReadRequest (data w)], 0%nat. subst R. cbn.
      repeat split; try (left; reflexivity).
      intros ev ->%list_elem_of_singleton. left; reflexivity.
  - exists [modelReadRequest (data w)], 0%nat.
    destruct (modelRead_success_cases _ He) as [[status Hr] | (status & resp & Hr)].
    + rewrite (modelRead_clears _ _ Hr) in HR. subst R. cbn.
      repeat split; try (right; reflexivity).
      intros ev ->%list_elem_of_singleton. left; reflexivity.
    + rewrite (modelRead_found _ _ _ Hr) in HR. subst R.
      cbn [fst snd trace data with_data sent].
      repeat split; try (left; apply Id_readModelFields).
      intros ev ->%list_elem_of_singleton. left; reflexivity.
Qed.

End ModelReconcilerProofs.

(** ** Claims on the classifiers and the backoff *)

(** C7: [isRetryableModelError] is true exactly on a non-nil error whose
    message contains "not found", "Model id =" or "model_not_found", and is
    false on nil; the credential reconciler retries an error exactly when
    its message contains "credential_not_found". *)
Theorem C7_error_classification :
  (forall err : error,
     isRetryableModelError err = true <->
     exists msg, err = Some msg /\
       (has_substring msg "not found" \/ has_substring msg "Model id =" \/
        has_substring msg "model_not_found")) /\
  isRetryableModelError None = false /\
  (forall msg : string,
     credentialRetryable msg = true <-> has_substring msg "credential_not_found").
Proof.
  split; [|split; [reflexivity | intros msg; apply Contains_spec]].
  intros [msg|]; cbn.
  - rewrite !orb_true_iff, !Contains_spec. split.
    + intros H. exists msg. split; [reflexivity | tauto].
    + intros (msg' & [= <-] & H). tauto.
  - split; [discriminate | intros (msg & H & _); discriminate].
Qed.

Lemma nondecreasing_cons (a : Z) (l : list Z) :
  (forall b, l !! 0%nat = Some b -> a <= b) -> nondecreasing l -> nondecreasing (a :: l).
Proof.
  intros Hhd Hl [|k] x y Hx Hy; cbn in *.
  - injection Hx as <-. apply Hhd, Hy.
  - apply (Hl k); assumption.
Qed.

(** C6: the delay update is [min (current * 2) cap] with a cap of ten
    seconds, and the delays slept during a call of either reconciler never
    decrease and never exceed the cap. *)
Theorem C6_backoff_monotone_capped :
  (forall current : Z,
     0 <= current <= maxDelay -> next_delay current = Z.min (current * 2) maxDelay) /\
  maxDelay = 10 * Second /\
  (forall (server : nat -> Reply CredentialResponse)
      (schema_Set : string -> Value -> World -> option Value) (w : World) (maxRetries : Z),
     exists tr,
       trace (fst (retryCredentialRead server schema_Set w maxRetries)) = trace w ++ tr /\
       nondecreasing (sleeps tr) /\
       (forall a, a ∈ sleeps tr -> a <= maxDelay)) /\
  (forall (server : nat -> Reply ModelResponse) (m : Meta)
          (GetStringValue : string -> string -> string) (GetIntValue : Z -> Z -> Z)
          (float_to_int : float -> Z) (w : World) (maxRetries : Z),
     exists tr,
       trace (fst (retryModelRead server m GetStringValue GetIntValue float_to_int
                     w maxRetries)) = trace w ++ tr /\
       nondecreasing (sleeps tr) /\
       (forall a, a ∈ sleeps tr -> a <= maxDelay)).
Proof.
  pose proof maxDelay_value as Hm.
  split; [|split; [reflexivity | split]].
  - intros current H. apply next_delay_min. lia.
  - intros server schema_Set w maxRetries. unfold retryCredentialRead.
    destruct (retryCredentialRead_loop_invariants server schema_Set (Z.to_nat maxRetries) 0
                maxRetries (1 * Second) None w (Id (data w))
                (credentialReadRequest (data w)) _ eq_refl eq_refl eq_refl)
      as (tr & n & H1 & H2 & _).
    exists tr. rewrite H2. split; [exact H1 | split].
    + apply backoff_delays_nondecreasing. rewrite Hm. cbv. split; reflexivity || discriminate.
    + intros a Ha. eapply backoff_delays_capped; [|exact Ha].
      rewrite Hm. cbv. split; reflexivity || discriminate.
  - intros server m GetStringValue GetIntValue float_to_int w maxRetries.
    unfold retryModelRead.
    destruct (retryModelRead_loop_invariants server GetStringValue GetIntValue
                float_to_int (Z.to_nat maxRetries) m 0 maxRetries (500 * Millisecond)
                None (Sleep (200 * Millisecond) w) _ eq_refl)
      as (tr & n & H1 & H2 & _).
    exists ([EvSleep (200 * Millisecond)] ++ tr).
    rewrite H1. cbn [Sleep trace]. rewrite <- app_assoc, sleeps_app, H2.
    assert (0 < 500 * Millisecond <= maxDelay) as Hd
      by (rewrite Hm; cbv; split; reflexivity || discriminate).
    split; [reflexivity | split].
    + apply nondecreasing_cons; [|apply backoff_delays_nondecreasing, Hd].
      destruct n as [|n]; cbn; [discriminate|]. intros b [= <-]. cbv. discriminate.
    + intros a [->%list_elem_of_singleton | Ha]%elem_of_app.
      * rewrite Hm. cbv. discriminate.
      * eapply backoff_delays_capped; [exact Hd | exact Ha].
Qed.

Lemma C6_witness :
  next_delay (8 * Second) = Z.min (8 * Second * 2) maxDelay /\
  next_delay (8 * Second) = 10 * Second.
Proof.
  split; [apply (proj1 C6_backoff_monotone_capped); cbv; split; discriminate | reflexivity].
Defined.

(** ** Claims on the reconcilers *)

Lemma retry_trace_reads_with_backoff (endpoint : string) (delay : Z) (n : nat) :
  0 < delay <= maxDelay ->
  reads_with_backoff (retry_trace (EvRequest "GET" endpoint BodyNil) delay n)
    endpoint delay n.
Proof.
  intros Hd. unfold reads_with_backoff.
  rewrite endpoints_retry_trace, sleeps_retry_trace, backoff_delays_length.
  repeat split. intros k Hk. apply backoff_delays_lookup; assumption.
Qed.

Lemma retryCredentialRead_exhausts (server : nat -> Reply CredentialResponse)
    (schema_Set : string -> Value -> World -> option Value)
    (w : World) (N : nat) :
  (1 <= N)%nat ->
  (forall k, (k < N)%nat -> credentialNotFound (server (requests w + k)%nat) = true) ->
  retryCredentialRead server schema_Set w (Z.of_nat N) =
  (ran (retry_trace (credentialReadRequest (data w)) (1 * Second) N) N w,
   credentialAttemptError (server (requests w + (N - 1))%nat)).
Proof.
  intros HN Hnf. unfold retryCredentialRead. rewrite Nat2Z.id.
  apply retryCredentialRead_loop_exhausts; [lia | exact HN | exact Hnf].
Qed.

Lemma retryModelRead_exhausts (server : nat -> Reply ModelResponse)
    (GetStringValue : string -> string -> string) (GetIntValue : Z -> Z -> Z)
    (float_to_int : float -> Z) (w : World) (N : nat) :
  (1 <= N)%nat ->
  (forall k, (k < N)%nat -> modelNotFound (server (requests w + k)%nat) = true) ->
  retryModelRead server MetaClient GetStringValue GetIntValue float_to_int w (Z.of_nat N) =
  (ran (retry_trace (modelReadRequest (data w)) (500 * Millisecond) N) N
     (Sleep (200 * Millisecond) w),
   modelReadError (server (requests w + (N - 1))%nat)).
Proof.
  intros HN Hnf. unfold retryModelRead. rewrite Nat2Z.id.
  apply (retryModelRead_loop_exhausts server GetStringValue GetIntValue float_to_int N
           0 (Z.of_nat N) (500 * Millisecond) None (Sleep (200 * Millisecond) w));
    [lia | exact HN | exact Hnf].
Qed.

Lemma delay_1s_in_range : 0 < 1 * Second <= maxDelay.
Proof. cbv. split; [reflexivity | discriminate]. Qed.

Lemma delay_500ms_in_range : 0 < 500 * Millisecond <= maxDelay.
Proof. cbv. split; [reflexivity | discriminate]. Qed.

(** C3: with a budget of [N >= 1] attempts that all report a retryable
    not-found, each reconciler makes exactly [N] reads with [N - 1] sleeps
    in between, the delays doubling up to the cap, and returns a not-found
    error. The model reconciler sleeps its settle delay once before. *)
Theorem C3_exhaustion_reads_and_sleeps (N : nat) :
  (1 <= N)%nat ->
  (forall (server : nat -> Reply CredentialResponse)
      (schema_Set : string -> Value -> World -> option Value) (w : World),
     (forall k, (k < N)%nat -> credentialNotFound (server (requests w + k)%nat) = true) ->
     exists tr msg,
       retryCredentialRead server schema_Set w (Z.of_nat N) = (ran tr N w, Some msg) /\
       reads_with_backoff tr (credentialReadEndpoint (data w)) (1 * Second) N /\
       credentialRetryable msg = true) /\
  (forall (server : nat -> Reply ModelResponse)
          (GetStringValue : string -> string -> string) (GetIntValue : Z -> Z -> Z)
          (float_to_int : float -> Z) (w : World),
     (forall k, (k < N)%nat -> modelNotFound (server (requests w + k)%nat) = true) ->
     exists tr msg,
       retryModelRead server MetaClient GetStringValue GetIntValue float_to_int
         w (Z.of_nat N) = (ran tr N (Sleep (200 * Millisecond) w), Some msg) /\
       reads_with_backoff tr (modelReadEndpoint (data w)) (500 * Millisecond) N /\
       isRetryableModelError (Some msg) = true).
Proof.
  intros HN. split.
  - intros server schema_Set w Hnf.
    pose proof (Hnf (N - 1)%nat ltac:(lia)) as Hlast. unfold credentialNotFound in Hlast.
    destruct (credentialAttemptError (server (requests w + (N - 1))%nat))
      as [msg|] eqn:He; [|discriminate].
    exists (retry_trace (credentialReadRequest (data w)) (1 * Second) N), msg.
    rewrite retryCredentialRead_exhausts, He by assumption.
    split; [reflexivity | split; [|exact Hlast]].
    apply retry_trace_reads_with_backoff, delay_1s_in_range.
  - intros server GetStringValue GetIntValue float_to_int w Hnf.
    pose proof (Hnf (N - 1)%nat ltac:(lia)) as Hlast. unfold modelNotFound in Hlast.
    destruct (modelReadError (server (requests w + (N - 1))%nat))
      as [msg|] eqn:He; [|discriminate].
    exists (retry_trace (modelReadRequest (data w)) (500 * Millisecond) N), msg.
    rewrite retryModelRead_exhausts, He by assumption.
    split; [reflexivity | split; [|exact Hlast]].
    apply retry_trace_reads_with_backoff, delay_500ms_in_range.
Qed.

Lemma C3_witness :
  (exists tr msg,
     retryCredentialRead (scripted [] reply_404)
         sample_schema_Set (initial_world test_credential) 3 =
       (ran tr 3 (initial_world test_credential), Some msg) /\
     reads_with_backoff tr "/credentials/by_name/test-cred" (1 * Second) 3 /\
     credentialRetryable msg = true) /\
  (exists tr msg,
     retryModelRead (scripted [] model_reply_not_yet) MetaClient sample_GetStringValue
       sample_GetIntValue sample_float_to_int (initial_world test_model) 3 =
       (ran tr 3 (Sleep (200 * Millisecond) (initial_world test_model)), Some msg) /\
     reads_with_backoff tr "/model/info?litellm_model_id=model-1" (500 * Millisecond) 3 /\
     isRetryableModelError (Some msg) = true).
Proof.
  split.
  - apply (proj1 (C3_exhaustion_reads_and_sleeps 3 ltac:(lia))
             (scripted [] reply_404) sample_schema_Set (initial_world test_credential)).
    intros [|[|[|k]]] Hk; reflexivity.
  - apply (proj2 (C3_exhaustion_reads_and_sleeps 3 ltac:(lia))
             (scripted [] model_reply_not_yet) sample_GetStringValue sample_GetIntValue
             sample_float_to_int (initial_world test_model)).
    intros [|[|[|k]]] Hk; reflexivity.
Defined.

(** C5: when attempt [k] of the budget fails with an error that is not a
    retryable not-found, the reconciler returns that error as it is, having
    made [k + 1] reads and the [k] sleeps between them, whatever is left of
    the budget. *)
Theorem C5_fatal_error_stops_immediately (N k : nat) :
  (k < N)%nat ->
  (forall (server : nat -> Reply CredentialResponse)
      (schema_Set : string -> Value -> World -> option Value) (w : World) (e : string),
     (forall j, (j < k)%nat -> credentialNotFound (server (requests w + j)%nat) = true) ->
     credentialReadError (server (requests w + k)%nat) = Some e ->
     credentialRetryable e = false ->
     exists tr,
       retryCredentialRead server schema_Set w (Z.of_nat N) = (ran tr (S k) w, Some e) /\
       reads_with_backoff tr (credentialReadEndpoint (data w)) (1 * Second) (S k)) /\
  (forall (server : nat -> Reply ModelResponse)
          (GetStringValue : string -> string -> string) (GetIntValue : Z -> Z -> Z)
          (float_to_int : float -> Z) (w : World) (e : string),
     (forall j, (j < k)%nat -> modelNotFound (server (requests w + j)%nat) = true) ->
     modelReadError (server (requests w + k)%nat) = Some e ->
     isRetryableModelError (Some e) = false ->
     exists tr,
       retryModelRead server MetaClient GetStringValue GetIntValue float_to_int
         w (Z.of_nat N) = (ran tr (S k) (Sleep (200 * Millisecond) w), Some e) /\
       reads_with_backoff tr (modelReadEndpoint (data w)) (500 * Millisecond) (S k)).
Proof.
  intros Hk. split.
  - intros server schema_Set w e Hnf He Hr.
    exists (retry_trace (credentialReadRequest (data w)) (1 * Second) (S k)).
    split; [|apply retry_trace_reads_with_backoff, delay_1s_in_range].
    unfold retryCredentialRead. rewrite Nat2Z.id.
    apply retryCredentialRead_loop_stops; solve [assumption | lia].
  - intros server GetStringValue GetIntValue float_to_int w e Hnf He Hr.
    exists (retry_trace (modelReadRequest (data w)) (500 * Millisecond) (S k)).
    split; [|apply retry_trace_reads_with_backoff, delay_500ms_in_range].
    unfold retryModelRead. rewrite Nat2Z.id.
    apply (retryModelRead_loop_stops server GetStringValue GetIntValue float_to_int k N
             0 (Z.of_nat N) (500 * Millisecond) None (Sleep (200 * Millisecond) w) e);
      solve [assumption | lia].
Qed.

Lemma C5_witness :
  (exists tr,
     retryCredentialRead (scripted [reply_404] reply_500)
         sample_schema_Set (initial_world test_credential) 5 =
       (ran tr 2 (initial_world test_credential),
        Some "failed to read credential: API request failed: internal server error") /\
     reads_with_backoff tr "/credentials/by_name/test-cred" (1 * Second) 2) /\
  (exists tr,
     retryModelRead (scripted [model_reply_not_yet] model_reply_500) MetaClient
       sample_GetStringValue sample_GetIntValue sample_float_to_int
       (initial_world test_model) 8 =
       (ran tr 2 (Sleep (200 * Millisecond) (initial_world test_model)),
        Some "failed to read model: API request failed: internal server error") /\
     reads_with_backoff tr "/model/info?litellm_model_id=model-1" (500 * Millisecond) 2).
Proof.
  split.
  - apply (proj1 (C5_fatal_error_stops_immediately 5 1 ltac:(lia))
             (scripted [reply_404] reply_500) sample_schema_Set (initial_world test_credential)).
    + intros [|j] Hj; [reflexivity | lia].
    + reflexivity.
    + reflexivity.
  - apply (proj2 (C5_fatal_error_stops_immediately 8 1 ltac:(lia))
             (scripted [model_reply_not_yet] model_reply_500) sample_GetStringValue
             sample_GetIntValue sample_float_to_int (initial_world test_model)).
    + intros [|j] Hj; [reflexivity | lia].
    + reflexivity.
    + reflexivity.
Defined.

(** The credential reconciler keeps the identifier: whatever the server
    replies, every read it makes is for the identifier recorded on entry,
    the identifier is the same on return, and [nil] is returned only after
    a read that left a non-empty identifier. *)
Theorem retryCredentialRead_restores_identifier
    (server : nat -> Reply CredentialResponse)
        (schema_Set : string -> Value -> World -> option Value) (w : World) (maxRetries : Z) :
  1 <= maxRetries ->
  exists tr,
    trace (fst (retryCredentialRead server schema_Set w maxRetries)) = trace w ++ tr /\
    (forall endpoint, endpoint ∈ endpoints "GET" tr ->
       endpoint = credentialReadEndpoint (data w)) /\
    Id (data (fst (retryCredentialRead server schema_Set w maxRetries))) = Id (data w) /\
    (snd (retryCredentialRead server schema_Set w maxRetries) = None -> Id (data w) <> "").
Proof.
  intros HN. unfold retryCredentialRead.
  destruct (retryCredentialRead_loop_invariants server schema_Set (Z.to_nat maxRetries) 0
              maxRetries (1 * Second) None w (Id (data w))
              (credentialReadRequest (data w)) _ eq_refl eq_refl eq_refl)
    as (tr & n & H1 & _ & H3 & H4 & H5).
  exists tr. repeat split; try assumption.
  - intros endpoint Hin. unfold endpoints in Hin.
    apply list_elem_of_omap in Hin as (ev & Hev & Hep).
    destruct (H3 ev Hev) as [-> | [d ->]]; [|discriminate].
    cbn in Hep. injection Hep as <-. reflexivity.
  - intros Hnil. destruct (H5 Hnil) as [[Hz _] | Hne]; [lia | exact Hne].
Qed.

(** C1 (violated by the model reconciler): when a model read clears the
    identifier and returns no error, [retryModelRead] does not restore the
    identifier and does not retry: it returns [nil] after that single read
    and leaves the identifier empty. *)
Theorem C1_retryModelRead_accepts_cleared_identifier
    (server : nat -> Reply ModelResponse)
    (GetStringValue : string -> string -> string) (GetIntValue : Z -> Z -> Z)
    (float_to_int : float -> Z) (w : World) (maxRetries status : Z) :
  1 <= maxRetries ->
  server (requests w) = Response status (HandlerError "model_not_found") ->
  retryModelRead server MetaClient GetStringValue GetIntValue float_to_int w maxRetries =
    (with_data (SetId "")
       (sent (modelReadRequest (data w)) (Sleep (200 * Millisecond) w)), None) /\
  Id (data (fst (retryModelRead server MetaClient GetStringValue GetIntValue
                   float_to_int w maxRetries))) = "".
Proof.
  intros HN Hr.
  assert (retryModelRead server MetaClient GetStringValue GetIntValue float_to_int
            w maxRetries =
          (with_data (SetId "")
             (sent (modelReadRequest (data w)) (Sleep (200 * Millisecond) w)), None)) as E.
  { unfold retryModelRead.
    destruct (Z.to_nat maxRetries) as [|rem] eqn:Hrem; [lia|].
    cbn [retryModelRead_loop].
    rewrite (modelRead_clears server GetStringValue GetIntValue float_to_int
               (Sleep (200 * Millisecond) w) status Hr).
    reflexivity. }
  rewrite E. split; reflexivity.
Qed.

Lemma C1_witness :
  retryModelRead (scripted [] model_reply_missing) MetaClient sample_GetStringValue
    sample_GetIntValue sample_float_to_int (initial_world test_model) 8 =
    (with_data (SetId "")
       (sent (modelReadRequest test_model)
          (Sleep (200 * Millisecond) (initial_world test_model))), None) /\
  Id (data (fst (retryModelRead (scripted [] model_reply_missing) MetaClient
                   sample_GetStringValue sample_GetIntValue sample_float_to_int
                   (initial_world test_model) 8))) = "".
Proof.
  apply (C1_retryModelRead_accepts_cleared_identifier (scripted [] model_reply_missing)
           sample_GetStringValue sample_GetIntValue sample_float_to_int
           (initial_world test_model) 8 404); [lia | reflexivity].
Defined.

(** C10: a credential read that finds the credential writes the fields
    [credential_name] and [credential_info] and nothing else: it stores the
    name of the response, and whatever [d.Set] makes of the information of
    the response, accepted or refused, every other field and the identifier
    are as before. No read, whatever the reply, changes
    [credential_values]. *)
Theorem C10_credential_read_frame (server : nat -> Reply CredentialResponse)
    (schema_Set : string -> Value -> World -> option Value) (w : World) :
  (forall status resp,
     server (requests w) = Response status (Decoded resp) -> status <> 404 ->
     snd (resourceLiteLLMCredentialRead server schema_Set w) = None /\
     Id (data (fst (resourceLiteLLMCredentialRead server schema_Set w))) = Id (data w) /\
     rd_fields (data (fst (resourceLiteLLMCredentialRead server schema_Set w)))
       !! "credential_name" = Some (VStr (CredentialName resp)) /\
     forall key, key <> "credential_name" -> key <> "credential_info" ->
       rd_fields (data (fst (resourceLiteLLMCredentialRead server schema_Set w))) !! key =
       rd_fields (data w) !! key) /\
  rd_fields (data (fst (resourceLiteLLMCredentialRead server schema_Set w)))
    !! "credential_values" =
    rd_fields (data w) !! "credential_values".
Proof.
  split.
  - intros status resp Hr Hs.
    rewrite (credentialRead_found server schema_Set w status resp Hr Hs).
    cbn [fst snd]. split; [reflexivity|]. split; [reflexivity|]. split.
    + unfold credentialFound. cbn [with_data data SetStored SetField rd_fields].
      rewrite lookup_partial_alter_ne by discriminate. apply lookup_insert_eq.
    + intros key H1 H2.
      destruct (credentialFound_frame schema_Set resp
                  (sent (credentialReadRequest (data w)) w)) as (_ & _ & _ & Hframe).
      rewrite (Hframe key H1 H2). reflexivity.
  - unfold resourceLiteLLMCredentialRead, MakeRequest.
    destruct (server (requests w)) as [msg | status [msg | resp]]; cbn;
      repeat case_match; cbn;
      rewrite ?lookup_partial_alter_ne by discriminate;
      rewrite ?lookup_insert_ne by discriminate; reflexivity.
Qed.

Lemma C10_witness :
  snd (resourceLiteLLMCredentialRead (scripted [] reply_found) sample_schema_Set
         (initial_world test_credential)) = None /\
  rd_fields (data (fst (resourceLiteLLMCredentialRead (scripted [] reply_found) sample_schema_Set
                          (initial_world test_credential)))) !! "credential_values" =
    Some (VMap (<["key" := VStr "val"]> ∅)).
Proof.
  destruct (proj1 (C10_credential_read_frame (scripted [] reply_found) sample_schema_Set
                     (initial_world test_credential)) 200
              {| CredentialName := "test-cred";
                 CredentialInfo := <["provider" := VStr "aws"]> ∅ |}
              eq_refl ltac:(lia)) as (H1 & _ & _ & H4).
  split; [exact H1|].
  rewrite (H4 "credential_values") by discriminate. reflexivity.
Defined.

(** ** The upsert orchestrator *)

Lemma retryModelRead_invariants (server : nat -> Reply ModelResponse) (m : Meta)
    (GetStringValue : string -> string -> string) (GetIntValue : Z -> Z -> Z)
    (float_to_int : float -> Z) (w : World) (maxRetries : Z) :
  exists tr,
    trace (fst (retryModelRead server m GetStringValue GetIntValue float_to_int
                  w maxRetries)) = trace w ++ tr /\
    (forall ev, ev ∈ tr -> ev = modelReadRequest (data w) \/ exists d, ev = EvSleep d) /\
    (Id (data (fst (retryModelRead server m GetStringValue GetIntValue float_to_int
                      w maxRetries))) = Id (data w) \/
     Id (data (fst (retryModelRead server m GetStringValue GetIntValue float_to_int
                      w maxRetries))) = "").
Proof.
  unfold retryModelRead.
  destruct (retryModelRead_loop_invariants server GetStringValue GetIntValue
              float_to_int (Z.to_nat maxRetries) m 0 maxRetries (500 * Millisecond)
              None (Sleep (200 * Millisecond) w) _ eq_refl)
    as (tr & n & H1 & _ & H3 & H4).
  exists ([EvSleep (200 * Millisecond)] ++ tr).
  rewrite H1. cbn [Sleep trace data] in *. rewrite <- app_assoc.
  repeat split; [|exact H4].
  intros ev [->%list_elem_of_singleton | Hev]%elem_of_app; [right; eauto | auto].
Qed.

Lemma endpoints_POST_of_reads (tr : list Event) (req : Event) :
  (forall ev, ev ∈ tr -> ev = req \/ exists d, ev = EvSleep d) ->
  (exists endpoint, req = EvRequest "GET" endpoint BodyNil) ->
  endpoints "POST" tr = [].
Proof.
  intros H [endpoint ->]. induction tr as [|ev tr IH]; [reflexivity|].
  change (ev :: tr) with ([ev] ++ tr). rewrite endpoints_app, IH.
  - destruct (H ev) as [-> | [d ->]]; [left | reflexivity | reflexivity].
  - intros ev' Hev'. apply H. right. exact Hev'.
Qed.

Section OrchestratorProofs.
Variable server : nat -> Reply ModelResponse.
Variable uuid_New : nat -> string.
Variable json_Unmarshal : string -> option Value.
Variable strconv_Atoi : string -> option Z.
Variable strconv_ParseFloat : string -> option float.
Variable strings_TrimSpace : string -> string.
Variable range : gmap string Value -> list (string * Value).
Variable GetStringValue : string -> string -> string.
Variable GetIntValue : Z -> Z -> Z.
Variable float_to_int : float -> Z.

#[local] Abbreviation upsert m :=
  (createOrUpdateModel server m uuid_New json_Unmarshal strconv_Atoi strconv_ParseFloat
     strings_TrimSpace range GetStringValue GetIntValue float_to_int).
#[local] Abbreviation upsert_body m :=
  (createOrUpdateModel_body server m uuid_New json_Unmarshal strconv_Atoi
     strconv_ParseFloat strings_TrimSpace range GetStringValue GetIntValue float_to_int).
#[local] Abbreviation request :=
  (buildModelRequest json_Unmarshal strconv_Atoi strconv_ParseFloat strings_TrimSpace range).
#[local] Abbreviation reconcile :=
  (retryModelRead server MetaClient GetStringValue GetIntValue float_to_int).
#[local] Abbreviation updateRequest w :=
  (EvRequest "POST" endpointModelUpdate (BodyModel (request (data w) (Id (data w))))).
#[local] Abbreviation createRequest w :=
  (EvRequest "POST" endpointModelNew (BodyModel (request (data w) (uuid_New (uuids w))))).

(** A create never reaches the recursive call. *)
Lemma createOrUpdateModel_body_create (m : Meta) (self self' : World -> World * error)
    (w : World) :
  upsert_body m self w false = upsert_body m self' w false.
Proof.
  unfold createOrUpdateModel_body. destruct m; [|reflexivity].
  cbn [negb andb]. repeat case_match; reflexivity.
Qed.

Lemma createOrUpdateModel_body_ext (m : Meta) (self self' : World -> World * error)
    (w : World) (isUpdate : bool) :
  (forall w', self w' = self' w') ->
  upsert_body m self w isUpdate = upsert_body m self' w isUpdate.
Proof.
  intros H. unfold createOrUpdateModel_body. destruct m; [|reflexivity].
  repeat case_match; try reflexivity; apply H.
Qed.

(** The equation of the source function: the recursive call of line 284 is
    [createOrUpdateModel] itself, with [isUpdate = false]. *)
Lemma createOrUpdateModel_unfold (m : Meta) (w : World) (isUpdate : bool) :
  upsert m w isUpdate = upsert_body m (fun w => upsert m w false) w isUpdate.
Proof.
  unfold createOrUpdateModel at 1. apply createOrUpdateModel_body_ext.
  intros w'. unfold createOrUpdateModel. apply createOrUpdateModel_body_create.
Qed.

Lemma createOrUpdateModel_create (w : World) :
  upsert MetaClient w false =
  match server (requests w) with
  | TransportError msg | Response _ (HandlerError msg) =>
    (sent (createRequest w) (drawn w), Some ("failed to create model: " +:+ msg))
  | Response _ (Decoded _) =>
    reconcile (with_data (SetId (uuid_New (uuids w))) (sent (createRequest w) (drawn w))) 8
  end.
Proof.
  unfold createOrUpdateModel, createOrUpdateModel_body, MakeRequest, uuid_New_String.
  cbn [negb andb data requests uuids trace].
  destruct (server (requests w)) as [msg | status [msg | resp]]; reflexivity.
Qed.

Lemma createOrUpdateModel_update_missing (w : World) (status : Z) :
  server (requests w) = Response status (HandlerError "model_not_found") ->
  upsert MetaClient w true = upsert MetaClient (sent (updateRequest w) w) false.
Proof.
  intros Hr. rewrite (createOrUpdateModel_unfold MetaClient w true).
  unfold createOrUpdateModel_body at 1, MakeRequest. cbn [negb andb]. rewrite Hr.
  reflexivity.
Qed.

(** C2: an update whose write reports "model_not_found" is retried as a
    create, once: the only writes are the update and one create, everything
    after them is a read or a sleep, and when the create reports
    "model_not_found" as well the error is returned, wrapped as any other
    error of a create. *)
Theorem C2_update_falls_back_to_create_once (w : World) (status : Z) :
  server (requests w) = Response status (HandlerError "model_not_found") ->
  upsert MetaClient w true = upsert MetaClient (sent (updateRequest w) w) false /\
  (exists tr,
     trace (fst (upsert MetaClient w true)) =
       trace w ++ [updateRequest w; createRequest w] ++ tr /\
     endpoints "POST" tr = []) /\
  (forall status',
     server (S (requests w)) = Response status' (HandlerError "model_not_found") ->
     upsert MetaClient w true =
       (sent (createRequest w) (drawn (sent (updateRequest w) w)),
        Some "failed to create model: model_not_found")).
Proof.
  intros Hr. pose proof (createOrUpdateModel_update_missing w status Hr) as Hfb.
  split; [exact Hfb | split].
  - rewrite Hfb, createOrUpdateModel_create. cbn [sent requests data uuids trace drawn].
    destruct (server (S (requests w))) as [msg | status' [msg | resp]].
    + exists []. cbn. rewrite <- app_assoc. split; reflexivity.
    + exists []. cbn. rewrite <- app_assoc. split; reflexivity.
    + match goal with
      | |- context [retryModelRead _ _ _ _ _ ?w0 8] =>
        destruct (retryModelRead_invariants server MetaClient GetStringValue GetIntValue
                    float_to_int w0 8) as (tr & H1 & H2 & _)
      end.
      exists tr. rewrite H1. cbn [with_data trace sent drawn]. rewrite <- !app_assoc.
      split; [reflexivity|].
      eapply endpoints_POST_of_reads; [exact H2 | eexists; reflexivity].
  - intros status' Hr'. rewrite Hfb, createOrUpdateModel_create.
    cbn [sent requests data uuids trace drawn]. rewrite Hr'. reflexivity.
Qed.

(** A write that succeeds hands over to the reconciler, one request later. *)
Lemma createOrUpdateModel_written (w : World) (isUpdate : bool) (status : Z)
    (body : ModelResponse) :
  server (requests w) = Response status (Decoded body) ->
  exists written,
    upsert MetaClient w isUpdate = reconcile written 8 /\
    requests written = S (requests w).
Proof.
  intros Hr. destruct isUpdate.
  - exists (with_data (SetId (Id (data w))) (sent (updateRequest w) w)).
    split; [|reflexivity].
    rewrite (createOrUpdateModel_unfold MetaClient w true).
    unfold createOrUpdateModel_body at 1, MakeRequest. cbn [negb andb]. rewrite Hr.
    reflexivity.
  - eexists. rewrite createOrUpdateModel_create, Hr. split; reflexivity.
Qed.

(** C9: when an update falls back to a create whose write succeeds, the
    identifier put into the state is the UUID the create drew, the one its
    request carries; the reconciliation that follows reads that identifier,
    and ends with it or, when a read cleared it, with none. When the first
    read finds the model, the call succeeds with the UUID as identifier. *)
Theorem C9_fallback_assigns_fresh_uuid (w : World) (status status' : Z)
    (body : ModelResponse) :
  server (requests w) = Response status (HandlerError "model_not_found") ->
  server (S (requests w)) = Response status' (Decoded body) ->
  let uuid := uuid_New (uuids w) in
  let written :=
    with_data (SetId uuid) (sent (createRequest w) (drawn (sent (updateRequest w) w))) in
  upsert MetaClient w true = reconcile written 8 /\
  Id (data written) = uuid /\
  mi_ID (mr_ModelInfo (request (data w) uuid)) = uuid /\
  (exists tr,
     trace (fst (upsert MetaClient w true)) = trace written ++ tr /\
     forall endpoint, endpoint ∈ endpoints "GET" tr ->
       endpoint = endpointModelInfo +:+ "?litellm_model_id=" +:+ uuid) /\
  (Id (data (fst (upsert MetaClient w true))) = uuid \/
   Id (data (fst (upsert MetaClient w true))) = "") /\
  (forall status'' resp,
     server (S (S (requests w))) = Response status'' (Decoded resp) ->
     snd (upsert MetaClient w true) = None /\
     Id (data (fst (upsert MetaClient w true))) = uuid /\
     (uuid <> Id (data w) -> Id (data (fst (upsert MetaClient w true))) <> Id (data w))).
Proof.
  intros Hr Hr' uuid written.
  assert (upsert MetaClient w true = reconcile written 8) as E.
  { rewrite (createOrUpdateModel_update_missing w status Hr), createOrUpdateModel_create.
    cbn [sent requests data uuids trace drawn]. rewrite Hr'. reflexivity. }
  rewrite E.
  destruct (retryModelRead_invariants server MetaClient GetStringValue GetIntValue
              float_to_int written 8) as (tr & H1 & H2 & H3).
  split; [reflexivity | split; [reflexivity | split; [reflexivity | split; [|split]]]].
  - exists tr. split; [exact H1|]. intros endpoint Hin. unfold endpoints in Hin.
    apply list_elem_of_omap in Hin as (ev & Hev & Hep).
    destruct (H2 ev Hev) as [-> | [d ->]]; [|discriminate].
    cbn in Hep. injection Hep as <-. reflexivity.
  - exact H3.
  - intros status'' resp Hr''.
    assert (reconcile written 8 =
            (with_data (readModelFields GetStringValue GetIntValue float_to_int resp)
               (sent (modelReadRequest (data written))
                  (Sleep (200 * Millisecond) written)), None)) as Efound.
    { unfold retryModelRead. change (Z.to_nat 8) with 8%nat.
      cbn [retryModelRead_loop].
      rewrite (modelRead_found server GetStringValue GetIntValue float_to_int
                 (Sleep (200 * Millisecond) written) status'' resp Hr'').
      reflexivity. }
    rewrite Efound. cbn [fst snd with_data data sent Sleep].
    rewrite Id_readModelFields.
    split; [reflexivity | split; [reflexivity | intros Hne; exact Hne]].
Qed.

End OrchestratorProofs.

Lemma C2_witness :
  sample_createOrUpdateModel (scripted [model_reply_missing; model_reply_missing]
                                model_reply_ok) (initial_world test_model) true =
  (sent (EvRequest "POST" endpointModelNew
           (BodyModel (sample_buildModelRequest test_model (sample_uuid_New 0))))
     (drawn
        (sent (EvRequest "POST" endpointModelUpdate
                 (BodyModel (sample_buildModelRequest test_model "model-1")))
           (initial_world test_model))),
   Some "failed to create model: model_not_found").
Proof.
  apply (proj2 (proj2 (C2_update_falls_back_to_create_once
                         (scripted [model_reply_missing; model_reply_missing]
                            model_reply_ok)
                         sample_uuid_New sample_json_Unmarshal sample_Atoi
                         sample_ParseFloat sample_TrimSpace sample_range
                         sample_GetStringValue sample_GetIntValue sample_float_to_int
                         (initial_world test_model) 404 eq_refl)) 404 eq_refl).
Defined.

Lemma C9_witness :
  snd (sample_createOrUpdateModel (scripted [model_reply_missing] model_reply_ok)
         (initial_world test_model) true) = None /\
  Id (data (fst (sample_createOrUpdateModel (scripted [model_reply_missing] model_reply_ok)
                   (initial_world test_model) true))) = sample_uuid_New 0.
Proof.
  destruct (C9_fallback_assigns_fresh_uuid
              (scripted [model_reply_missing] model_reply_ok)
              sample_uuid_New sample_json_Unmarshal sample_Atoi sample_ParseFloat
              sample_TrimSpace sample_range sample_GetStringValue sample_GetIntValue
              sample_float_to_int (initial_world test_model) 404 200
              sample_model_response eq_refl eq_refl) as (_ & _ & _ & _ & _ & H).
  destruct (H 200 sample_model_response eq_refl) as (H1 & H2 & _).
  split; [exact H1 | exact H2].
Defined.

(** ** The request mapper *)

Lemma fold_delete_lookup (drops : list string) (params : gmap string Value) (key : string) :
  fold_left (fun params paramToDrop => delete paramToDrop params) drops params !! key =
  if bool_decide (key ∈ drops) then None else params !! key.
Proof.
  revert params. induction drops as [|k drops IH]; intros params; cbn.
  - reflexivity.
  - rewrite IH. destruct (decide (key = k)) as [-> | Hne].
    + rewrite lookup_delete_eq, (bool_decide_eq_true_2 (k ∈ k :: drops)) by left.
      destruct (bool_decide (k ∈ drops)); reflexivity.
    + rewrite lookup_delete_ne by congruence.
      apply (f_equal (fun b : bool => if b then None else params !! key)).
      apply bool_decide_ext. rewrite elem_of_cons. tauto.
Qed.

Section MapperProofs.
Variable json_Unmarshal : string -> option Value.
Variable strconv_Atoi : string -> option Z.
Variable strconv_ParseFloat : string -> option float.
Variable strings_TrimSpace : string -> string.

#[local] Abbreviation merge :=
  (mergeAdditionalParam json_Unmarshal strconv_Atoi strconv_ParseFloat strings_TrimSpace).
#[local] Abbreviation valueOf :=
  (entryValue json_Unmarshal strconv_Atoi strconv_ParseFloat strings_TrimSpace).
#[local] Abbreviation dropsOf := (entryDrops json_Unmarshal strings_TrimSpace).

(** One iteration, by what the entry stores and what it asks to drop. *)
Lemma mergeAdditionalParam_entry (params : gmap string Value) (drops : list string)
    (key : string) (value : Value) :
  merge (params, drops) (key, value) =
  (match valueOf key value with Some v => <[key := v]> params | None => params end,
   drops ++ dropsOf key value).
Proof.
  unfold mergeAdditionalParam, entryValue, entryDrops, looksLikeJSON.
  destruct value; rewrite ?app_nil_r; try reflexivity.
  destruct (HasPrefix _ "[" || HasPrefix _ "{"); rewrite ?app_nil_r; [|reflexivity].
  destruct (json_Unmarshal s) as [parsed|]; rewrite ?app_nil_r; [|reflexivity].
  destruct (String.eqb key "additional_drop_params");
    destruct parsed; rewrite ?app_nil_r; reflexivity.
Qed.

Lemma merge_fold_drops (entries : list (string * Value)) :
  forall (params : gmap string Value) (drops : list string),
  snd (fold_left merge entries (params, drops)) =
  drops ++ flat_map (fun entry => dropsOf (fst entry) (snd entry)) entries.
Proof.
  induction entries as [|[key value] entries IH]; intros params drops; cbn [fold_left].
  - cbn. rewrite app_nil_r. reflexivity.
  - rewrite mergeAdditionalParam_entry, IH. cbn. rewrite app_assoc. reflexivity.
Qed.

Lemma merge_fold_other (entries : list (string * Value)) :
  forall (params : gmap string Value) (drops : list string) (key : string),
  key ∉ entries.*1 ->
  fst (fold_left merge entries (params, drops)) !! key = params !! key.
Proof.
  induction entries as [|[k value] entries IH]; intros params drops key Hk;
    cbn [fold_left]; [reflexivity|].
  cbn in Hk. apply not_elem_of_cons in Hk as [Hne Hk].
  rewrite mergeAdditionalParam_entry, IH by exact Hk.
  destruct (valueOf k value); [apply lookup_insert_ne; congruence | reflexivity].
Qed.

Lemma merge_fold_entry (entries : list (string * Value)) :
  forall (params : gmap string Value) (drops : list string) (key : string) (value : Value),
  NoDup entries.*1 -> (key, value) ∈ entries ->
  fst (fold_left merge entries (params, drops)) !! key =
  match valueOf key value with Some v => Some v | None => params !! key end.
Proof.
  induction entries as [|[k v] entries IH]; intros params drops key value Hnd Hin;
    [inversion Hin|].
  cbn in Hnd. apply NoDup_cons in Hnd as [Hk Hnd].
  cbn [fold_left]. rewrite mergeAdditionalParam_entry.
  apply elem_of_cons in Hin as [[= -> ->] | Hin].
  - rewrite merge_fold_other by exact Hk.
    destruct (valueOf k v); [apply lookup_insert_eq | reflexivity].
  - rewrite (IH _ _ key value Hnd Hin).
    assert (k <> key).
    { intros ->. apply Hk. apply list_elem_of_fmap. exists (key, value). split; auto. }
    destruct (valueOf key value); [reflexivity|].
    destruct (valueOf k v); [apply lookup_insert_ne; assumption | reflexivity].
Qed.

Lemma dropsOf_reserved (key : string) (value : Value) (name : string) :
  name ∈ dropsOf key value -> key = "additional_drop_params".
Proof.
  unfold entryDrops. repeat case_match; try (by inversion 1).
  intros _. apply String.eqb_eq. assumption.
Qed.

Section WithRange.
Variable range : gmap string Value -> list (string * Value).
Hypothesis range_permutation : forall m, range m ≡ₚ map_to_list m.

#[local] Abbreviation mergeAll :=
  (mergeAdditionalParams json_Unmarshal strconv_Atoi strconv_ParseFloat
     strings_TrimSpace range).
#[local] Abbreviation named := (namedDrops json_Unmarshal strings_TrimSpace).

Lemma range_elem (bag : gmap string Value) (key : string) (value : Value) :
  (key, value) ∈ range bag <-> bag !! key = Some value.
Proof. rewrite range_permutation. apply elem_of_map_to_list. Qed.

Lemma range_NoDup (bag : gmap string Value) : NoDup (range bag).*1.
Proof. rewrite range_permutation. apply NoDup_fst_map_to_list. Qed.

Lemma range_drops (bag : gmap string Value) (name : string) :
  name ∈ flat_map (fun entry => dropsOf (fst entry) (snd entry)) (range bag) <->
  name ∈ named bag.
Proof.
  unfold namedDrops. rewrite list_elem_of_In, in_flat_map. split.
  - intros ([key value] & Hin & Hname). cbn in Hname.
    apply list_elem_of_In in Hin, Hname.
    pose proof (dropsOf_reserved _ _ _ Hname) as ->.
    apply range_elem in Hin. rewrite Hin. exact Hname.
  - destruct (bag !! "additional_drop_params") as [value|] eqn:Hb;
      [|intros H; inversion H].
    intros Hname. exists ("additional_drop_params", value).
    split; apply list_elem_of_In; [apply range_elem, Hb | exact Hname].
Qed.

(** The payload after the merge and the drops, key by key. *)
Lemma mergeAdditionalParams_lookup (bag base : gmap string Value) (key : string) :
  mergeAll bag base !! key =
  if bool_decide (key ∈ named bag) then None
  else match bag !! key with
       | Some value =>
         match valueOf key value with Some v => Some v | None => base !! key end
       | None => base !! key
       end.
Proof.
  unfold mergeAdditionalParams.
  pose proof (merge_fold_drops (range bag) base []) as Hd.
  destruct (fold_left merge (range bag) (base, [])) as [merged drops] eqn:Hfold.
  cbn in Hd. rewrite fold_delete_lookup.
  rewrite (bool_decide_ext (key ∈ drops) (key ∈ named bag))
    by (rewrite Hd; apply range_drops).
  destruct (bool_decide (key ∈ named bag)); [reflexivity|].
  replace merged with (fst (fold_left merge (range bag) (base, [])))
    by (rewrite Hfold; reflexivity).
  destruct (bag !! key) as [value|] eqn:Hb.
  - apply merge_fold_entry; [apply range_NoDup | apply range_elem, Hb].
  - apply merge_fold_other.
    intros [[k v] [Hk Hin]]%list_elem_of_fmap. cbn in Hk. subst k.
    apply range_elem in Hin. congruence.
Qed.

End WithRange.
End MapperProofs.

(** C8 (as amended): a string of the bag reaches the payload converted by
    the first that applies of JSON parsing, tried only when the trimmed
    string starts with a bracket or a brace, the boolean literals, integer
    parsing and float parsing, and as the string itself otherwise; the
    reserved entry is not merged when its string is parsed as JSON; and no
    key named in the reserved list is in the payload, whatever had set it,
    the drops being applied after the merge. *)
Theorem C8_additional_params_merged_then_dropped
    (json_Unmarshal : string -> option Value) (strconv_Atoi : string -> option Z)
    (strconv_ParseFloat : string -> option float) (strings_TrimSpace : string -> string)
    (range : gmap string Value -> list (string * Value))
    (d : ResourceData) (modelID : string) (bag : gmap string Value) :
  (forall m, range m ≡ₚ map_to_list m) ->
  rd_fields d !! "additional_litellm_params" = Some (VMap bag) ->
  let payload :=
    mr_LiteLLMParams (buildModelRequest json_Unmarshal strconv_Atoi strconv_ParseFloat
                        strings_TrimSpace range d modelID) in
  (forall key strValue,
     bag !! key = Some (VStr strValue) ->
     key <> "additional_drop_params" \/
       looksLikeJSON strings_TrimSpace strValue = false \/
       json_Unmarshal strValue = None ->
     payload !! key =
       if bool_decide (key ∈ namedDrops json_Unmarshal strings_TrimSpace bag) then None
       else Some (mergedValue json_Unmarshal strconv_Atoi strconv_ParseFloat
                    strings_TrimSpace strValue)) /\
  (forall name,
     name ∈ namedDrops json_Unmarshal strings_TrimSpace bag -> payload !! name = None).
Proof.
  intros Hrange Hbag payload. subst payload.
  unfold buildModelRequest. cbn [mr_LiteLLMParams].
  unfold buildLiteLLMParams, GetOk. rewrite Hbag. cbn [is_zero].
  destruct (bool_decide_reflect (bag = ∅)) as [-> | Hne].
  { split.
    - intros key strValue Hkey. rewrite lookup_empty in Hkey. discriminate.
    - intros name Hin. unfold namedDrops in Hin. rewrite lookup_empty in Hin.
      inversion Hin. }
  split.
  - intros key strValue Hkey Hmerged.
    rewrite (mergeAdditionalParams_lookup _ _ _ _ _ Hrange), Hkey.
    destruct (bool_decide (key ∈ namedDrops json_Unmarshal strings_TrimSpace bag));
      [reflexivity|].
    unfold entryValue, mergedValue.
    destruct (looksLikeJSON strings_TrimSpace strValue); [|reflexivity].
    destruct (json_Unmarshal strValue); [|reflexivity].
    destruct (String.eqb_spec key "additional_drop_params"); [|reflexivity].
    destruct Hmerged as [? | [? | ?]]; [contradiction | discriminate | discriminate].
  - intros name Hin.
    rewrite (mergeAdditionalParams_lookup _ _ _ _ _ Hrange).
    rewrite bool_decide_eq_true_2 by exact Hin. reflexivity.
Qed.

Lemma C8_witness :
  mr_LiteLLMParams (sample_buildModelRequest test_model_with_bag "model-1") !! "stop" =
    Some (VStr "null") /\
  mr_LiteLLMParams (sample_buildModelRequest test_model_with_bag "model-1") !! "tpm" = None.
Proof.
  destruct (C8_additional_params_merged_then_dropped sample_json_Unmarshal sample_Atoi
              sample_ParseFloat sample_TrimSpace sample_range test_model_with_bag
              "model-1"
              (<["stop" := VStr "null"]>
                 (<["additional_drop_params" := VStr ("[" +:+ quoted "tpm" +:+ "]")]> ∅))
              (fun m => reflexivity (map_to_list m)) eq_refl) as [H1 H2].
  split.
  - unfold sample_buildModelRequest.
    rewrite (H1 "stop" "null"); [|reflexivity|left; discriminate].
    vm_compute. reflexivity.
  - apply H2. vm_compute. left.
Defined.

(** C8 as stated fails: the string [null] is a JSON document, yet it is
    not parsed, because it starts with neither a bracket nor a brace; it
    reaches the payload as a string. *)
Lemma C8_counterexample :
  mr_LiteLLMParams (sample_buildModelRequest test_model_with_bag "model-1") !! "stop" =
    Some (VStr "null") /\
  coerce_spec sample_json_Unmarshal sample_Atoi sample_ParseFloat "null" = VNil /\
  mr_LiteLLMParams (sample_buildModelRequest test_model_with_bag "model-1") !! "stop" <>
    Some (coerce_spec sample_json_Unmarshal sample_Atoi sample_ParseFloat "null").
Proof.
  assert (mr_LiteLLMParams (sample_buildModelRequest test_model_with_bag "model-1")
            !! "stop" = Some (VStr "null")) as E by (vm_compute; reflexivity).
  rewrite E. repeat split. discriminate.
Qed.

(** ** Claims on the errors that reach the caller *)

Lemma credentialNotFound_error (reply : Reply CredentialResponse) :
  credentialNotFound reply = true ->
  (credentialReadClears reply = true /\
   credentialAttemptError reply = Some "credential_not_found") \/
  (credentialReadClears reply = false /\
   exists msg, credentialAttemptError reply = Some ("failed to read credential: " +:+ msg)).
Proof.
  unfold credentialNotFound, credentialAttemptError.
  destruct (credentialReadClears reply) eqn:Hc; [left; split; reflexivity|].
  intros H. right. split; [reflexivity|]. unfold credentialReadError in *.
  destruct reply as [msg | status [msg | resp]]; try discriminate.
  - exists msg. reflexivity.
  - rewrite Hc. exists msg. reflexivity.
Qed.

Lemma modelNotFound_error (reply : Reply ModelResponse) :
  modelNotFound reply = true ->
  exists msg, modelReadError reply = Some ("failed to read model: " +:+ msg).
Proof.
  unfold modelNotFound, modelReadError.
  destruct reply as [msg | status [msg | resp]]; try discriminate.
  - exists msg. reflexivity.
  - destruct (String.eqb msg "model_not_found"); [discriminate|]. exists msg. reflexivity.
Qed.

(** C4 (as amended): when the budget runs out on retryable not-found
    errors only, the caller of the reconciler, and the caller of the
    orchestrator that ends with it, get the error of the last attempt as it
    is, with no prefix added: for a credential the bare sentinel
    "credential_not_found" when the last read cleared the identifier, and
    otherwise the error of the read, which the read itself had prefixed
    with "failed to read credential: " or "failed to read model: ". *)
Theorem C4_exhaustion_returns_last_error_unchanged (N : nat) :
  (1 <= N)%nat ->
  (forall (server : nat -> Reply CredentialResponse)
      (schema_Set : string -> Value -> World -> option Value) (w : World),
     (forall k, (k < N)%nat -> credentialNotFound (server (requests w + k)%nat) = true) ->
     let last := server (requests w + (N - 1))%nat in
     snd (retryCredentialRead server schema_Set w (Z.of_nat N)) = credentialAttemptError last /\
     ((credentialReadClears last = true /\
       credentialAttemptError last = Some "credential_not_found") \/
      (credentialReadClears last = false /\
       exists msg,
         credentialAttemptError last = Some ("failed to read credential: " +:+ msg)))) /\
  (forall (server : nat -> Reply CredentialResponse)
      (schema_Set : string -> Value -> World -> option Value) (w : World) (status : Z)
          (body : CredentialResponse),
     server (requests w) = Response status (Decoded body) ->
     (forall k, (k < 5)%nat -> credentialNotFound (server (S (requests w) + k)%nat) = true) ->
     snd (resourceLiteLLMCredentialCreate server schema_Set w) =
       credentialAttemptError (server (S (requests w) + 4)%nat) /\
     snd (resourceLiteLLMCredentialUpdate server schema_Set w) =
       credentialAttemptError (server (S (requests w) + 4)%nat)) /\
  (forall (server : nat -> Reply ModelResponse)
          (GetStringValue : string -> string -> string) (GetIntValue : Z -> Z -> Z)
          (float_to_int : float -> Z) (w : World),
     (forall k, (k < N)%nat -> modelNotFound (server (requests w + k)%nat) = true) ->
     let last := server (requests w + (N - 1))%nat in
     snd (retryModelRead server MetaClient GetStringValue GetIntValue float_to_int
            w (Z.of_nat N)) = modelReadError last /\
     exists msg, modelReadError last = Some ("failed to read model: " +:+ msg)) /\
  (forall (server : nat -> Reply ModelResponse) (uuid_New : nat -> string)
          (json_Unmarshal : string -> option Value) (strconv_Atoi : string -> option Z)
          (strconv_ParseFloat : string -> option float)
          (strings_TrimSpace : string -> string)
          (range : gmap string Value -> list (string * Value))
          (GetStringValue : string -> string -> string) (GetIntValue : Z -> Z -> Z)
          (float_to_int : float -> Z) (w : World) (isUpdate : bool) (status : Z)
          (body : ModelResponse),
     server (requests w) = Response status (Decoded body) ->
     (forall k, (k < 8)%nat -> modelNotFound (server (S (requests w) + k)%nat) = true) ->
     snd (createOrUpdateModel server MetaClient uuid_New json_Unmarshal strconv_Atoi
            strconv_ParseFloat strings_TrimSpace range GetStringValue GetIntValue
            float_to_int w isUpdate) = modelReadError (server (S (requests w) + 7)%nat)).
Proof.
  intros HN. split; [|split; [|split]].
  - intros server schema_Set w Hnf last. subst last.
    rewrite retryCredentialRead_exhausts by assumption.
    split; [reflexivity|]. apply credentialNotFound_error, Hnf. lia.
  - intros server schema_Set w status body Hr Hnf.
    unfold resourceLiteLLMCredentialCreate, resourceLiteLLMCredentialUpdate, MakeRequest.
    rewrite Hr. split.
    + rewrite (retryCredentialRead_exhausts server schema_Set _ 5); [reflexivity | lia | exact Hnf].
    + rewrite (retryCredentialRead_exhausts server schema_Set _ 5); [reflexivity | lia | exact Hnf].
  - intros server GetStringValue GetIntValue float_to_int w Hnf last. subst last.
    rewrite retryModelRead_exhausts by assumption.
    split; [reflexivity|]. apply modelNotFound_error, Hnf. lia.
  - intros server uuid_New json_Unmarshal strconv_Atoi strconv_ParseFloat
      strings_TrimSpace range GetStringValue GetIntValue float_to_int w isUpdate
      status body Hr Hnf.
    destruct (createOrUpdateModel_written server uuid_New json_Unmarshal strconv_Atoi
                strconv_ParseFloat strings_TrimSpace range GetStringValue GetIntValue
                float_to_int w isUpdate status body Hr) as (written & -> & Hreq).
    pose proof (retryModelRead_exhausts server GetStringValue GetIntValue float_to_int
                  written 8 ltac:(lia)) as E.
    change (Z.of_nat 8) with 8 in E. rewrite E, Hreq; [reflexivity|].
    rewrite Hreq. exact Hnf.
Qed.

Lemma C4_witness :
  snd (retryCredentialRead (scripted [] reply_404)
      sample_schema_Set (initial_world test_credential) 2) =
    Some "credential_not_found" /\
  snd (retryModelRead (scripted [] model_reply_not_yet) MetaClient sample_GetStringValue
         sample_GetIntValue sample_float_to_int (initial_world test_model) 2) =
    Some "failed to read model: Model id = model-1 not found on litellm proxy".
Proof.
  split.
  - apply (proj1 (C4_exhaustion_returns_last_error_unchanged 2 ltac:(lia))
             (scripted [] reply_404) sample_schema_Set (initial_world test_credential)).
    intros [|[|k]] Hk; reflexivity.
  - apply (proj1 (proj2 (proj2 (C4_exhaustion_returns_last_error_unchanged 2 ltac:(lia))))
             (scripted [] model_reply_not_yet) sample_GetStringValue sample_GetIntValue
             sample_float_to_int (initial_world test_model)).
    intros [|[|k]] Hk; reflexivity.
Defined.

(** C4 as stated fails: a credential is created, every read that follows
    answers 404, and what the orchestrator returns after the fifth read is
    the bare "credential_not_found" of the last attempt, behind no prefix. *)
Lemma C4_counterexample :
  snd (resourceLiteLLMCredentialCreate (scripted [reply_found] reply_404) sample_schema_Set
         (initial_world test_credential)) = Some "credential_not_found" /\
  credentialAttemptError reply_404 = Some "credential_not_found" /\
  ~ wrapped_with_operation_prefix
      (snd (resourceLiteLLMCredentialCreate (scripted [reply_found] reply_404) sample_schema_Set
              (initial_world test_credential)))
      "credential_not_found".
Proof.
  assert (snd (resourceLiteLLMCredentialCreate (scripted [reply_found] reply_404) sample_schema_Set
                 (initial_world test_credential)) = Some "credential_not_found") as E
    by (vm_compute; reflexivity).
  rewrite E. split; [reflexivity | split; [reflexivity|]].
  intros (op & Hop & H). unfold Errorf_w in H. injection H as H.
  apply Hop, (append_self_inv op "credential_not_found"). exact H.
Qed.

(** * Further properties of the code *)

(** ** The shape of a reconciliation, whatever the server replies *)

Section CredentialShape.
Variable server : nat -> Reply CredentialResponse.
Variable schema_Set : string -> Value -> World -> option Value.

(** One iteration of the credential loop: it ends the loop after its read,
    or it goes on from a world that differs by that read only. *)
Lemma retryCredentialRead_loop_step (rem : nat) (i maxRetries delay : Z) (err : error)
    (w : World) (origID : string) :
  Id (data w) = origID ->
  (exists w' e,
     retryCredentialRead_loop server schema_Set (S rem) i maxRetries origID delay err w = (w', e) /\
     trace w' = trace w ++ [credentialReadRequest (data w)] /\
     requests w' = S (requests w) /\ uuids w' = uuids w /\
     Id (data w') = origID /\
     (e = None -> origID <> "") /\
     (e <> None -> data w' = data w)) \/
  (exists w1 msg,
     trace w1 = trace w ++ [credentialReadRequest (data w)] /\
     requests w1 = S (requests w) /\ uuids w1 = uuids w /\
     Id (data w1) = origID /\
     credentialReadRequest (data w1) = credentialReadRequest (data w) /\
     (origID <> "" -> data w1 = data w) /\
     retryCredentialRead_loop server schema_Set (S rem) i maxRetries origID delay err w =
       if i <? maxRetries - 1
       then retryCredentialRead_loop server schema_Set rem (i + 1) maxRetries origID
              (next_delay delay) (Some msg) (Sleep delay w1)
       else retryCredentialRead_loop server schema_Set rem (i + 1) maxRetries origID
              delay (Some msg) w1).
Proof.
  intros HId. cbn [retryCredentialRead_loop].
  destruct (credentialReadClears (server (requests w))) eqn:Hc.
  - right. rewrite credentialRead_clears by exact Hc.
    cbn [is_nil andb with_data data sent]. rewrite Id_SetId, String.eqb_refl.
    change (credentialRetryable "credential_not_found") with true. cbn [negb].
    exists (sent (credentialReadRequest (data w)) w), "credential_not_found".
    subst origID.
    replace (with_data (SetId (Id (data w)))
               (with_data (SetId "") (sent (credentialReadRequest (data w)) w)))
      with (sent (credentialReadRequest (data w)) w)
      by (unfold with_data, sent; cbn; rewrite SetId_restore; reflexivity).
    repeat split. destruct (i <? maxRetries - 1); reflexivity.
  - destruct (credentialReadError (server (requests w))) as [e|] eqn:He.
    + rewrite (credentialRead_error _ _ _ _ He). cbn [is_nil andb].
      destruct (credentialRetryable e); cbn [negb].
      * right. exists (sent (credentialReadRequest (data w)) w), e.
        repeat split; try assumption. destruct (i <? maxRetries - 1); reflexivity.
      * left. exists (sent (credentialReadRequest (data w)) w), (Some e).
        repeat split; try assumption. discriminate.
    + destruct (server (requests w)) as [msg | status [msg | resp]] eqn:Hr;
        try discriminate.
      { cbn in He. unfold credentialReadClears in Hc. rewrite Hc in He. discriminate. }
      assert (status <> 404) as Hs by (intros ->; discriminate).
      rewrite (credentialRead_found _ _ _ _ _ Hr Hs).
      cbn [is_nil andb]. rewrite Id_credentialFound. cbn [data sent]. rewrite HId.
      destruct (String.eqb_spec origID "") as [Hempty | Hne].
      * right. change (credentialRetryable "credential_not_found") with true.
        cbn [negb]. eexists _, "credential_not_found".
        split; [|split; [|split; [|split; [|split; [|split]]]]];
          [| | | | | |destruct (i <? maxRetries - 1); reflexivity]; cbn; try reflexivity.
        -- apply credentialReadRequest_ext; [symmetry; exact HId|]. cbn.
           rewrite lookup_partial_alter_ne by discriminate.
           rewrite lookup_insert_ne by discriminate. reflexivity.
        -- intros Hne. contradiction.
      * left. eexists _, None. split; [reflexivity|]. cbn.
        repeat split; try assumption; try congruence.
Qed.

(** The loop makes between one and [rem] reads, with the backoff sleeps in
    between and nothing else; it keeps the identifier, and it leaves the
    whole field set as it was when it returns an error. *)
Lemma retryCredentialRead_loop_shape (rem : nat) :
  forall (i maxRetries delay : Z) (err : error) (w : World) (origID : string)
         (req : Event) (R : World * error),
  Z.of_nat rem = maxRetries - i -> (1 <= rem)%nat ->
  Id (data w) = origID -> credentialReadRequest (data w) = req ->
  R = retryCredentialRead_loop server schema_Set rem i maxRetries origID delay err w ->
  exists k,
    (1 <= k <= rem)%nat /\
    trace (fst R) = trace w ++ retry_trace req delay k /\
    requests (fst R) = (requests w + k)%nat /\
    uuids (fst R) = uuids w /\
    (origID <> "" -> snd R <> None -> data (fst R) = data w).
Proof.
  induction rem as [|rem IH];
    intros i maxRetries delay err w origID req R Hrem Hpos HId Hreq HR; [lia|].
  destruct (retryCredentialRead_loop_step rem i maxRetries delay err w origID HId)
    as [(w' & e & E & Ht & Hq & Hu & _ & _ & Hd)
       | (w1 & msg & Ht & Hq & Hu & HId1 & Hreq1 & Hd & E)]; rewrite E in HR.
  - exists 1%nat. subst R. cbn [fst snd retry_trace]. rewrite Ht, Hq, Hu, Hreq.
    repeat split; try lia. intros _ He. apply Hd, He.
  - destruct rem as [|rem].
    + destruct (Z.ltb_spec i (maxRetries - 1)); [lia|]. cbn in HR.
      exists 1%nat. subst R. cbn [fst snd retry_trace]. rewrite Ht, Hq, Hu, Hreq.
      repeat split; try lia. intros Hne _. apply Hd, Hne.
    + destruct (Z.ltb_spec i (maxRetries - 1)); [|lia].
      destruct (IH (i + 1) maxRetries (next_delay delay) (Some msg) (Sleep delay w1)
                  origID req R ltac:(lia) ltac:(lia) HId1
                  ltac:(cbn; rewrite Hreq1; exact Hreq) HR)
        as (k & Hk & Ht' & Hq' & Hu' & Hd').
      exists (S k). destruct k as [|k]; [lia|].
      rewrite Ht', Hq', Hu'. cbn [Sleep trace requests uuids data] in *.
      rewrite Ht, Hq, Hu, retry_trace_S, <- !app_assoc, Hreq.
      repeat split; try lia.
      intros Hne He. rewrite (Hd' Hne He). apply Hd, Hne.
Qed.

End CredentialShape.

Section ModelShape.
Variable server : nat -> Reply ModelResponse.
Variable GetStringValue : string -> string -> string.
Variable GetIntValue : Z -> Z -> Z.
Variable float_to_int : float -> Z.

#[local] Abbreviation mloop m :=
  (retryModelRead_loop server m GetStringValue GetIntValue float_to_int).

(** One iteration of the model loop: it ends the loop after its read, or it
    goes on from the world after that read, the field set untouched. *)
Lemma retryModelRead_loop_step (rem : nat) (i maxRetries delay : Z) (err : error)
    (w : World) :
  (exists w' e,
     mloop MetaClient (S rem) i maxRetries delay err w = (w', e) /\
     trace w' = trace w ++ [modelReadRequest (data w)] /\
     requests w' = S (requests w) /\ uuids w' = uuids w /\
     (e <> None -> data w' = data w)) \/
  (exists msg,
     mloop MetaClient (S rem) i maxRetries delay err w =
       if i <? maxRetries - 1
       then mloop MetaClient rem (i + 1) maxRetries (next_delay delay) (Some msg)
              (Sleep delay (sent (modelReadRequest (data w)) w))
       else mloop MetaClient rem (i + 1) maxRetries delay (Some msg)
              (sent (modelReadRequest (data w)) w)).
Proof.
  destruct (modelReadError (server (requests w))) as [e|] eqn:He.
  - destruct (isRetryableModelError (Some e)) eqn:Hr.
    + right. exists e. rewrite retryModelRead_loop_retry
        by (unfold modelNotFound; rewrite He; exact Hr).
      cbv zeta. rewrite He. reflexivity.
    + left. exists (sent (modelReadRequest (data w)) w), (Some e).
      rewrite (retryModelRead_loop_fatal _ _ _ _ _ _ _ _ _ _ _ He Hr).
      repeat split.
  - left. cbn [retryModelRead_loop].
    destruct (modelRead_success_cases server w He)
      as [[status Hr] | (status & resp & Hr)].
    + rewrite (modelRead_clears server GetStringValue GetIntValue float_to_int _ _ Hr).
      eexists _, None. split; [reflexivity|]. cbn. repeat split. congruence.
    + rewrite (modelRead_found server GetStringValue GetIntValue float_to_int _ _ _ Hr).
      eexists _, None. split; [reflexivity|].
      cbn [with_data sent trace requests uuids]. repeat split. congruence.
Qed.

(** The loop makes between one and [rem] reads, with the backoff sleeps in
    between and nothing else, and it leaves the field set as it was when it
    returns an error. *)
Lemma retryModelRead_loop_shape (rem : nat) :
  forall (i maxRetries delay : Z) (err : error) (w : World) (R : World * error),
  Z.of_nat rem = maxRetries - i -> (1 <= rem)%nat ->
  R = mloop MetaClient rem i maxRetries delay err w ->
  exists k,
    (1 <= k <= rem)%nat /\
    trace (fst R) = trace w ++ retry_trace (modelReadRequest (data w)) delay k /\
    requests (fst R) = (requests w + k)%nat /\
    uuids (fst R) = uuids w /\
    (snd R <> None -> data (fst R) = data w).
Proof.
  induction rem as [|rem IH]; intros i maxRetries delay err w R Hrem Hpos HR; [lia|].
  destruct (retryModelRead_loop_step rem i maxRetries delay err w)
    as [(w' & e & E & Ht & Hq & Hu & Hd) | (msg & E)]; rewrite E in HR.
  - exists 1%nat. subst R. cbn [fst snd retry_trace]. rewrite Ht, Hq, Hu.
    repeat split; try lia. exact Hd.
  - destruct rem as [|rem].
    + destruct (Z.ltb_spec i (maxRetries - 1)); [lia|]. cbn in HR.
      exists 1%nat. subst R. cbn. repeat split; lia.
    + destruct (Z.ltb_spec i (maxRetries - 1)); [|lia].
      destruct (IH (i + 1) maxRetries (next_delay delay) (Some msg) _ R
                  ltac:(lia) ltac:(lia) HR) as (k & Hk & Ht' & Hq' & Hu' & Hd').
      exists (S k). destruct k as [|k]; [lia|].
      rewrite Ht', Hq', Hu'. cbn [Sleep sent trace requests uuids data] in *.
      rewrite retry_trace_S, <- !app_assoc.
      repeat split; try lia. exact Hd'.
Qed.

(** With a meta value that is not a client no request is made. *)
Lemma retryModelRead_loop_not_client (rem : nat) (i maxRetries delay : Z) (err : error)
    (w : World) :
  mloop MetaOther (S rem) i maxRetries delay err w =
  (w, Some "invalid type assertion for client").
Proof. reflexivity. Qed.

End ModelShape.

(** X1: whatever the server replies, a credential reconciliation with a
    budget of at least one makes [k] reads of the identifier it started
    with, for some [k] between one and the budget, with the [k - 1] backoff
    sleeps in between and nothing else. *)
Theorem X1_retryCredentialRead_bounded (server : nat -> Reply CredentialResponse)
    (schema_Set : string -> Value -> World -> option Value)
    (w : World) (maxRetries : Z) :
  1 <= maxRetries ->
  exists k tr,
    (1 <= k <= Z.to_nat maxRetries)%nat /\
    trace (fst (retryCredentialRead server schema_Set w maxRetries)) = trace w ++ tr /\
    reads_with_backoff tr (credentialReadEndpoint (data w)) (1 * Second) k /\
    requests (fst (retryCredentialRead server schema_Set w maxRetries)) = (requests w + k)%nat.
Proof.
  intros HN. unfold retryCredentialRead.
  destruct (retryCredentialRead_loop_shape server schema_Set (Z.to_nat maxRetries) 0 maxRetries
              (1 * Second) None w (Id (data w)) (credentialReadRequest (data w)) _
              ltac:(lia) ltac:(lia) eq_refl eq_refl eq_refl)
    as (k & Hk & Ht & Hq & _).
  exists k, (retry_trace (credentialReadRequest (data w)) (1 * Second) k).
  split; [lia | split; [exact Ht | split; [|exact Hq]]].
  apply retry_trace_reads_with_backoff, delay_1s_in_range.
Qed.

Lemma X1_witness :
  exists k tr,
    (1 <= k <= 3)%nat /\
    trace (fst (retryCredentialRead (scripted [reply_404; reply_404] reply_found) sample_schema_Set
                  (initial_world test_credential) 3)) = [] ++ tr /\
    reads_with_backoff tr "/credentials/by_name/test-cred" (1 * Second) k /\
    requests (fst (retryCredentialRead (scripted [reply_404; reply_404] reply_found)
        sample_schema_Set
                     (initial_world test_credential) 3)) = (0 + k)%nat.
Proof.
  apply (X1_retryCredentialRead_bounded (scripted [reply_404; reply_404] reply_found)
      sample_schema_Set
           (initial_world test_credential) 3).
  lia.
Defined.

(** X2: whatever the server replies, a model reconciliation with a budget
    of at least one sleeps its settle delay and then makes [k] reads of the
    identifier it started with, for some [k] between one and the budget,
    with the [k - 1] backoff sleeps in between and nothing else. *)
Theorem X2_retryModelRead_bounded (server : nat -> Reply ModelResponse)
    (GetStringValue : string -> string -> string) (GetIntValue : Z -> Z -> Z)
    (float_to_int : float -> Z) (w : World) (maxRetries : Z) :
  1 <= maxRetries ->
  exists k tr,
    (1 <= k <= Z.to_nat maxRetries)%nat /\
    trace (fst (retryModelRead server MetaClient GetStringValue GetIntValue
                  float_to_int w maxRetries)) =
      trace w ++ EvSleep (200 * Millisecond) :: tr /\
    reads_with_backoff tr (modelReadEndpoint (data w)) (500 * Millisecond) k /\
    requests (fst (retryModelRead server MetaClient GetStringValue GetIntValue
                     float_to_int w maxRetries)) = (requests w + k)%nat.
Proof.
  intros HN. unfold retryModelRead.
  destruct (retryModelRead_loop_shape server GetStringValue GetIntValue float_to_int
              (Z.to_nat maxRetries) 0 maxRetries (500 * Millisecond) None
              (Sleep (200 * Millisecond) w) _ ltac:(lia) ltac:(lia) eq_refl)
    as (k & Hk & Ht & Hq & _).
  exists k, (retry_trace (modelReadRequest (data w)) (500 * Millisecond) k).
  rewrite Ht, Hq. cbn [Sleep trace requests data]. rewrite <- app_assoc.
  split; [lia | split; [reflexivity | split; [|reflexivity]]].
  apply retry_trace_reads_with_backoff, delay_500ms_in_range.
Qed.

Lemma X2_witness :
  exists k tr,
    (1 <= k <= 8)%nat /\
    trace (fst (retryModelRead (scripted [model_reply_not_yet] model_reply_ok) MetaClient
                  sample_GetStringValue sample_GetIntValue sample_float_to_int
                  (initial_world test_model) 8)) =
      [] ++ EvSleep (200 * Millisecond) :: tr /\
    reads_with_backoff tr "/model/info?litellm_model_id=model-1" (500 * Millisecond) k /\
    requests (fst (retryModelRead (scripted [model_reply_not_yet] model_reply_ok)
                     MetaClient sample_GetStringValue sample_GetIntValue
                     sample_float_to_int (initial_world test_model) 8)) = (0 + k)%nat.
Proof.
  apply (X2_retryModelRead_bounded (scripted [model_reply_not_yet] model_reply_ok)
           sample_GetStringValue sample_GetIntValue sample_float_to_int
           (initial_world test_model) 8).
  lia.
Defined.

(** X3: a reconciliation that returns an error leaves the field set,
    identifier included, exactly as it found it: of a model always, of a
    credential when it started with a non-empty identifier. *)
Theorem X3_failed_reconciliation_keeps_fields (maxRetries : Z) :
  1 <= maxRetries ->
  (forall (server : nat -> Reply CredentialResponse)
      (schema_Set : string -> Value -> World -> option Value) (w : World),
     Id (data w) <> "" ->
     snd (retryCredentialRead server schema_Set w maxRetries) <> None ->
     data (fst (retryCredentialRead server schema_Set w maxRetries)) = data w) /\
  (forall (server : nat -> Reply ModelResponse)
          (GetStringValue : string -> string -> string) (GetIntValue : Z -> Z -> Z)
          (float_to_int : float -> Z) (w : World),
     snd (retryModelRead server MetaClient GetStringValue GetIntValue float_to_int
            w maxRetries) <> None ->
     data (fst (retryModelRead server MetaClient GetStringValue GetIntValue
                  float_to_int w maxRetries)) = data w).
Proof.
  intros HN. split.
  - intros server schema_Set w Hne Herr. unfold retryCredentialRead in *.
    destruct (retryCredentialRead_loop_shape server schema_Set (Z.to_nat maxRetries) 0 maxRetries
                (1 * Second) None w (Id (data w)) (credentialReadRequest (data w)) _
                ltac:(lia) ltac:(lia) eq_refl eq_refl eq_refl)
      as (k & _ & _ & _ & _ & Hd).
    apply Hd; assumption.
  - intros server GetStringValue GetIntValue float_to_int w Herr.
    unfold retryModelRead in *.
    destruct (retryModelRead_loop_shape server GetStringValue GetIntValue float_to_int
                (Z.to_nat maxRetries) 0 maxRetries (500 * Millisecond) None
                (Sleep (200 * Millisecond) w) _ ltac:(lia) ltac:(lia) eq_refl)
      as (k & _ & _ & _ & _ & Hd).
    apply Hd, Herr.
Qed.

Lemma X3_witness :
  data (fst (retryCredentialRead (scripted [reply_404] reply_500) sample_schema_Set
               (initial_world test_credential) 5)) = test_credential /\
  data (fst (retryModelRead (scripted [model_reply_not_yet] model_reply_500) MetaClient
               sample_GetStringValue sample_GetIntValue sample_float_to_int
               (initial_world test_model) 8)) = test_model.
Proof.
  split.
  - apply (proj1 (X3_failed_reconciliation_keeps_fields 5 ltac:(lia))
             (scripted [reply_404] reply_500) sample_schema_Set (initial_world test_credential));
      [discriminate | vm_compute; discriminate].
  - apply (proj2 (X3_failed_reconciliation_keeps_fields 8 ltac:(lia))
             (scripted [model_reply_not_yet] model_reply_500) sample_GetStringValue
             sample_GetIntValue sample_float_to_int (initial_world test_model)).
    vm_compute. discriminate.
Defined.

(** ** The time a call can sleep *)

Lemma total_sleep_app (tr1 tr2 : list Event) :
  total_sleep (tr1 ++ tr2) = total_sleep tr1 + total_sleep tr2.
Proof.
  unfold total_sleep. rewrite sleeps_app.
  induction (sleeps tr1) as [|a l IH]; cbn; [reflexivity | rewrite IH; lia].
Qed.

Lemma backoff_total_nonneg (n : nat) :
  forall delay, 0 < delay <= maxDelay -> 0 <= foldr Z.add 0 (backoff_delays delay n).
Proof.
  induction n as [|n IH]; intros delay Hd; cbn; [lia|].
  specialize (IH (next_delay delay) (proj2 (next_delay_bounds delay Hd))). lia.
Qed.

Lemma backoff_total_mono (n : nat) :
  forall (n' : nat) (delay : Z), 0 < delay <= maxDelay -> (n <= n')%nat ->
  foldr Z.add 0 (backoff_delays delay n) <= foldr Z.add 0 (backoff_delays delay n').
Proof.
  induction n as [|n IH]; intros n' delay Hd Hn.
  - apply backoff_total_nonneg, Hd.
  - destruct n' as [|n']; [lia|]. cbn.
    specialize (IH n' (next_delay delay) (proj2 (next_delay_bounds delay Hd))). lia.
Qed.

Lemma retryCredentialRead_sleep_bound (server : nat -> Reply CredentialResponse)
    (schema_Set : string -> Value -> World -> option Value)
    (w : World) (N : nat) :
  (1 <= N)%nat ->
  exists tr,
    trace (fst (retryCredentialRead server schema_Set w (Z.of_nat N))) = trace w ++ tr /\
    total_sleep tr <= foldr Z.add 0 (backoff_delays (1 * Second) (N - 1)).
Proof.
  intros HN. unfold retryCredentialRead. rewrite Nat2Z.id.
  destruct (retryCredentialRead_loop_shape server schema_Set N 0 (Z.of_nat N)
              (1 * Second) None w (Id (data w)) (credentialReadRequest (data w)) _
              ltac:(lia) HN eq_refl eq_refl eq_refl)
    as (k & Hk & Ht & _).
  eexists. split; [exact Ht|].
  unfold total_sleep, credentialReadRequest. rewrite sleeps_retry_trace.
  apply backoff_total_mono; [apply delay_1s_in_range | lia].
Qed.

Lemma retryModelRead_sleep_bound (server : nat -> Reply ModelResponse) (m : Meta)
    (GetStringValue : string -> string -> string) (GetIntValue : Z -> Z -> Z)
    (float_to_int : float -> Z) (w : World) (N : nat) :
  (1 <= N)%nat ->
  exists tr,
    trace (fst (retryModelRead server m GetStringValue GetIntValue float_to_int
                  w (Z.of_nat N))) = trace w ++ tr /\
    total_sleep tr <=
      200 * Millisecond + foldr Z.add 0 (backoff_delays (500 * Millisecond) (N - 1)).
Proof.
  intros HN. unfold retryModelRead. rewrite Nat2Z.id. destruct m.
  - destruct (retryModelRead_loop_shape server GetStringValue GetIntValue float_to_int
                N 0 (Z.of_nat N) (500 * Millisecond) None
                (Sleep (200 * Millisecond) w) _ ltac:(lia) HN eq_refl)
      as (k & Hk & Ht & _).
    exists ([EvSleep (200 * Millisecond)] ++
            retry_trace (modelReadRequest (data w)) (500 * Millisecond) k).
    rewrite Ht. cbn [Sleep trace data]. rewrite <- app_assoc. split; [reflexivity|].
    rewrite total_sleep_app. unfold total_sleep at 2, modelReadRequest.
    rewrite sleeps_retry_trace.
    pose proof (backoff_total_mono (k - 1) (N - 1) (500 * Millisecond)
                  delay_500ms_in_range ltac:(lia)).
    change (total_sleep [EvSleep (200 * Millisecond)]) with (200 * Millisecond + 0). lia.
  - destruct N as [|N]; [lia|]. exists [EvSleep (200 * Millisecond)].
    split; [reflexivity|].
    pose proof (backoff_total_nonneg (S N - 1) (500 * Millisecond) delay_500ms_in_range).
    change (total_sleep [EvSleep (200 * Millisecond)]) with (200 * Millisecond + 0). lia.
Qed.

Lemma total_sleep_request (method endpoint : string) (body : Body) :
  total_sleep [EvRequest method endpoint body] = 0.
Proof. reflexivity. Qed.

Lemma credential_budget_total :
  foldr Z.add 0 (backoff_delays (1 * Second) (5 - 1)) = 15 * Second.
Proof. vm_compute. reflexivity. Qed.

Lemma model_budget_total :
  200 * Millisecond + foldr Z.add 0 (backoff_delays (500 * Millisecond) (8 - 1)) =
  35700 * Millisecond.
Proof. vm_compute. reflexivity. Qed.

(** X4: whatever the server replies, creating or updating a credential
    sleeps at most 15 seconds in total (1, 2, 4 and 8 seconds between the
    five reads), and creating or updating a model at most 35.7 seconds (the
    settle delay and the seven sleeps between the eight reads), the
    fallback from update to create included. *)
Theorem X4_upsert_sleeps_bounded :
  (forall (server : nat -> Reply CredentialResponse)
      (schema_Set : string -> Value -> World -> option Value) (w : World),
     (exists tr,
        trace (fst (resourceLiteLLMCredentialCreate server schema_Set w)) = trace w ++ tr /\
        total_sleep tr <= 15 * Second) /\
     (exists tr,
        trace (fst (resourceLiteLLMCredentialUpdate server schema_Set w)) = trace w ++ tr /\
        total_sleep tr <= 15 * Second)) /\
  (forall (server : nat -> Reply ModelResponse) (m : Meta) (uuid_New : nat -> string)
          (json_Unmarshal : string -> option Value) (strconv_Atoi : string -> option Z)
          (strconv_ParseFloat : string -> option float)
          (strings_TrimSpace : string -> string)
          (range : gmap string Value -> list (string * Value))
          (GetStringValue : string -> string -> string) (GetIntValue : Z -> Z -> Z)
          (float_to_int : float -> Z) (w : World) (isUpdate : bool),
     exists tr,
       trace (fst (createOrUpdateModel server m uuid_New json_Unmarshal strconv_Atoi
                     strconv_ParseFloat strings_TrimSpace range GetStringValue
                     GetIntValue float_to_int w isUpdate)) = trace w ++ tr /\
       total_sleep tr <= 35700 * Millisecond).
Proof.
  assert (0 <= 15 * Second) as H15 by (cbv; discriminate).
  assert (0 <= 35700 * Millisecond) as H35 by (cbv; discriminate).
  split.
  - intros server schema_Set w.
    assert (forall w0 method endpoint body,
              trace w0 = trace w ++ [EvRequest method endpoint body] ->
              exists tr,
                trace (fst (retryCredentialRead server schema_Set w0 5)) = trace w ++ tr /\
                total_sleep tr <= 15 * Second) as Hrec.
    { intros w0 method endpoint body Hw0.
      destruct (retryCredentialRead_sleep_bound server schema_Set w0 5 ltac:(lia))
        as (tr & Ht & Hs).
      exists ([EvRequest method endpoint body] ++ tr). change (Z.of_nat 5) with 5 in Ht.
      rewrite Ht, Hw0, <- app_assoc. split; [reflexivity|].
      rewrite total_sleep_app, total_sleep_request.
      rewrite credential_budget_total in Hs. lia. }
    split.
    + unfold resourceLiteLLMCredentialCreate, MakeRequest.
      destruct (server (requests w)) as [msg | status [msg | body]].
      * eexists [_]. split; [reflexivity | rewrite total_sleep_request; exact H15].
      * eexists [_]. split; [reflexivity | rewrite total_sleep_request; exact H15].
      * eapply Hrec. reflexivity.
    + unfold resourceLiteLLMCredentialUpdate, MakeRequest.
      destruct (server (requests w)) as [msg | status [msg | body]].
      * eexists [_]. split; [reflexivity | rewrite total_sleep_request; exact H15].
      * eexists [_]. split; [reflexivity | rewrite total_sleep_request; exact H15].
      * eapply Hrec. reflexivity.
  - intros server m uuid_New json_Unmarshal strconv_Atoi strconv_ParseFloat
      strings_TrimSpace range GetStringValue GetIntValue float_to_int.
    assert (forall w w0 method endpoint body,
              trace w0 = trace w ++ [EvRequest method endpoint body] ->
              exists tr,
                trace (fst (retryModelRead server m GetStringValue GetIntValue
                              float_to_int w0 8)) = trace w ++ tr /\
                total_sleep tr <= 35700 * Millisecond) as Hrec.
    { intros w w0 method endpoint body Hw0.
      destruct (retryModelRead_sleep_bound server m GetStringValue GetIntValue
                  float_to_int w0 8 ltac:(lia)) as (tr & Ht & Hs).
      exists ([EvRequest method endpoint body] ++ tr). change (Z.of_nat 8) with 8 in Ht.
      rewrite Ht, Hw0, <- app_assoc. split; [reflexivity|].
      rewrite total_sleep_app, total_sleep_request.
      rewrite model_budget_total in Hs. lia. }
    assert (forall w, exists tr,
              trace (fst (createOrUpdateModel server m uuid_New json_Unmarshal
                            strconv_Atoi strconv_ParseFloat strings_TrimSpace range
                            GetStringValue GetIntValue float_to_int w false)) =
                trace w ++ tr /\
              total_sleep tr <= 35700 * Millisecond) as Hcreate.
    { intros w. unfold createOrUpdateModel, createOrUpdateModel_body, MakeRequest,
        uuid_New_String.
      destruct m; [|exists []; rewrite app_nil_r; split; [reflexivity | exact H35]].
      cbn [negb andb data requests uuids trace].
      destruct (server (requests w)) as [msg | status [msg | body]].
      - eexists [_]. split; [reflexivity | rewrite total_sleep_request; exact H35].
      - eexists [_]. split; [reflexivity | rewrite total_sleep_request; exact H35].
      - eapply Hrec. reflexivity. }
    intros w [|]; [|apply Hcreate].
    rewrite createOrUpdateModel_unfold.
    unfold createOrUpdateModel_body at 1, MakeRequest.
    destruct m; [|exists []; rewrite app_nil_r; split; [reflexivity | exact H35]].
    cbn [negb andb data requests uuids trace].
    destruct (server (requests w)) as [msg | status [msg | body]].
    + eexists [_]. split; [reflexivity | rewrite total_sleep_request; exact H35].
    + destruct (String.eqb msg "model_not_found").
      * match goal with
        | |- context [createOrUpdateModel _ _ _ _ _ _ _ _ _ _ _ ?w0 false] =>
          destruct (Hcreate w0) as (tr & Ht & Hs)
        end.
        eexists ([_] ++ tr). rewrite Ht. cbn [trace]. rewrite <- app_assoc.
        split; [reflexivity|]. rewrite total_sleep_app, total_sleep_request. lia.
      * eexists [_]. split; [reflexivity | rewrite total_sleep_request; exact H35].
    + eapply Hrec. reflexivity.
Qed.

(** ** A reconciliation that succeeds *)

(** Retryable not-founds, then a read that finds the credential. *)
Lemma retryCredentialRead_loop_succeeds (server : nat -> Reply CredentialResponse)
    (schema_Set : string -> Value -> World -> option Value)
    (k : nat) :
  forall (rem : nat) (i maxRetries delay : Z) (err : error) (w : World) (status : Z)
         (resp : CredentialResponse),
  Z.of_nat rem = maxRetries - i -> (k < rem)%nat -> Id (data w) <> "" ->
  (forall j, (j < k)%nat -> credentialNotFound (server (requests w + j)%nat) = true) ->
  server (requests w + k)%nat = Response status (Decoded resp) -> status <> 404 ->
  retryCredentialRead_loop server schema_Set rem i maxRetries (Id (data w)) delay err w =
  (credentialFound schema_Set resp
     (ran (retry_trace (credentialReadRequest (data w)) delay (S k)) (S k) w), None).
Proof.
  induction k as [|k IH];
    intros rem i maxRetries delay err w status resp Hrem Hk HId Hnf Hr Hs;
    (destruct rem as [|rem]; [lia|]).
  - rewrite Nat.add_0_r in Hr. cbn [retryCredentialRead_loop].
    rewrite (credentialRead_found server schema_Set w status resp Hr Hs).
    cbn [is_nil andb]. rewrite Id_credentialFound. cbn [data sent].
    destruct (String.eqb_spec (Id (data w)) ""); [contradiction|].
    rewrite sent_ran. reflexivity.
  - rewrite retryCredentialRead_loop_retry
      by (specialize (Hnf 0%nat); rewrite Nat.add_0_r in Hnf; apply Hnf; lia).
    cbv zeta. destruct (Z.ltb_spec i (maxRetries - 1)); [|lia].
    rewrite sent_ran, Sleep_ran.
    change (Id (data w)) with
      (Id (data (ran ([credentialReadRequest (data w)] ++ [EvSleep delay]) 1 w))).
    rewrite (IH _ _ _ _ _ _ status resp).
    + rewrite ran_ran. cbn [data ran]. rewrite retry_trace_S. reflexivity.
    + lia.
    + lia.
    + exact HId.
    + intros j Hj. cbn [requests ran].
      replace (requests w + 1 + j)%nat with (requests w + S j)%nat by lia.
      apply Hnf. lia.
    + cbn [requests ran].
      replace (requests w + 1 + k)%nat with (requests w + S k)%nat by lia. exact Hr.
    + exact Hs.
Qed.

(** Retryable not-founds, then a read that finds the model. *)
Lemma retryModelRead_loop_succeeds (server : nat -> Reply ModelResponse)
    (GetStringValue : string -> string -> string) (GetIntValue : Z -> Z -> Z)
    (float_to_int : float -> Z) (k : nat) :
  forall (rem : nat) (i maxRetries delay : Z) (err : error) (w : World) (status : Z)
         (resp : ModelResponse),
  Z.of_nat rem = maxRetries - i -> (k < rem)%nat ->
  (forall j, (j < k)%nat -> modelNotFound (server (requests w + j)%nat) = true) ->
  server (requests w + k)%nat = Response status (Decoded resp) ->
  retryModelRead_loop server MetaClient GetStringValue GetIntValue float_to_int
    rem i maxRetries delay err w =
  (with_data (readModelFields GetStringValue GetIntValue float_to_int resp)
     (ran (retry_trace (modelReadRequest (data w)) delay (S k)) (S k) w), None).
Proof.
  induction k as [|k IH];
    intros rem i maxRetries delay err w status resp Hrem Hk Hnf Hr;
    (destruct rem as [|rem]; [lia|]).
  - rewrite Nat.add_0_r in Hr. cbn [retryModelRead_loop].
    rewrite (modelRead_found server GetStringValue GetIntValue float_to_int w status
               resp Hr).
    unfold ran, with_data, sent. cbn [data requests uuids trace retry_trace].
    rewrite Nat.add_1_r. reflexivity.
  - rewrite retryModelRead_loop_retry
      by (specialize (Hnf 0%nat); rewrite Nat.add_0_r in Hnf; apply Hnf; lia).
    cbv zeta. destruct (Z.ltb_spec i (maxRetries - 1)); [|lia].
    rewrite sent_ran, Sleep_ran, (IH _ _ _ _ _ _ status resp).
    + rewrite ran_ran. cbn [data ran]. rewrite retry_trace_S. reflexivity.
    + lia.
    + lia.
    + intros j Hj. cbn [requests ran].
      replace (requests w + 1 + j)%nat with (requests w + S j)%nat by lia.
      apply Hnf. lia.
    + cbn [requests ran].
      replace (requests w + 1 + k)%nat with (requests w + S k)%nat by lia. exact Hr.
Qed.

(** X5: when attempt [k] of the budget is the first to find the resource,
    the earlier ones having been retryable not-founds, the model reconciler,
    and the credential reconciler when it starts with an identifier that is
    not empty, return [nil] after [k + 1] reads and the [k] sleeps between
    them; the field set is the one that read made of the original one (for
    a credential, the name of the response stored and the information as
    [d.Set] left it), and the identifier is unchanged. *)
Theorem X5_reconciliation_succeeds_at_first_found (N k : nat) :
  (k < N)%nat ->
  (forall (server : nat -> Reply CredentialResponse)
      (schema_Set : string -> Value -> World -> option Value) (w : World) (status : Z)
          (resp : CredentialResponse),
     Id (data w) <> "" ->
     (forall j, (j < k)%nat -> credentialNotFound (server (requests w + j)%nat) = true) ->
     server (requests w + k)%nat = Response status (Decoded resp) -> status <> 404 ->
     exists tr,
       retryCredentialRead server schema_Set w (Z.of_nat N) =
         (credentialFound schema_Set resp (ran tr (S k) w), None) /\
       reads_with_backoff tr (credentialReadEndpoint (data w)) (1 * Second) (S k) /\
       Id (data (fst (retryCredentialRead server schema_Set w (Z.of_nat N)))) = Id (data w)) /\
  (forall (server : nat -> Reply ModelResponse)
          (GetStringValue : string -> string -> string) (GetIntValue : Z -> Z -> Z)
          (float_to_int : float -> Z) (w : World) (status : Z) (resp : ModelResponse),
     (forall j, (j < k)%nat -> modelNotFound (server (requests w + j)%nat) = true) ->
     server (requests w + k)%nat = Response status (Decoded resp) ->
     exists tr,
       retryModelRead server MetaClient GetStringValue GetIntValue float_to_int
         w (Z.of_nat N) =
         (with_data (readModelFields GetStringValue GetIntValue float_to_int resp)
            (ran tr (S k) (Sleep (200 * Millisecond) w)), None) /\
       reads_with_backoff tr (modelReadEndpoint (data w)) (500 * Millisecond) (S k) /\
       Id (data (fst (retryModelRead server MetaClient GetStringValue GetIntValue
                        float_to_int w (Z.of_nat N)))) = Id (data w)).
Proof.
  intros Hk. split.
  - intros server schema_Set w status resp HId Hnf Hr Hs.
    exists (retry_trace (credentialReadRequest (data w)) (1 * Second) (S k)).
    assert (retryCredentialRead server schema_Set w (Z.of_nat N) =
            (credentialFound schema_Set resp
               (ran (retry_trace (credentialReadRequest (data w)) (1 * Second) (S k))
                  (S k) w), None)) as E.
    { unfold retryCredentialRead. rewrite Nat2Z.id.
      apply (retryCredentialRead_loop_succeeds server schema_Set k N 0 (Z.of_nat N) (1 * Second)
               None w status resp); solve [assumption | lia]. }
    rewrite E. split; [reflexivity | split; [|reflexivity]].
    apply retry_trace_reads_with_backoff, delay_1s_in_range.
  - intros server GetStringValue GetIntValue float_to_int w status resp Hnf Hr.
    exists (retry_trace (modelReadRequest (data w)) (500 * Millisecond) (S k)).
    assert (retryModelRead server MetaClient GetStringValue GetIntValue float_to_int
              w (Z.of_nat N) =
            (with_data (readModelFields GetStringValue GetIntValue float_to_int resp)
               (ran (retry_trace (modelReadRequest (data w)) (500 * Millisecond) (S k))
                  (S k) (Sleep (200 * Millisecond) w)), None)) as E.
    { unfold retryModelRead. rewrite Nat2Z.id.
      apply (retryModelRead_loop_succeeds server GetStringValue GetIntValue float_to_int
               k N 0 (Z.of_nat N) (500 * Millisecond) None
               (Sleep (200 * Millisecond) w) status resp); solve [assumption | lia]. }
    rewrite E. split; [reflexivity | split].
    + apply retry_trace_reads_with_backoff, delay_500ms_in_range.
    + cbn [fst with_data data ran Sleep]. apply Id_readModelFields.
Qed.

Lemma X5_witness :
  (exists tr,
     retryCredentialRead (scripted [reply_404; reply_404] reply_found) sample_schema_Set
       (initial_world test_credential) 3 =
       (credentialFound sample_schema_Set
          {| CredentialName := "test-cred";
             CredentialInfo := <["provider" := VStr "aws"]> ∅ |}
          (ran tr 3 (initial_world test_credential)), None) /\
     reads_with_backoff tr "/credentials/by_name/test-cred" (1 * Second) 3 /\
     Id (data (fst (retryCredentialRead (scripted [reply_404; reply_404] reply_found)
         sample_schema_Set
                      (initial_world test_credential) 3))) = "test-cred") /\
  (exists tr,
     retryModelRead (scripted [model_reply_not_yet] model_reply_ok) MetaClient
       sample_GetStringValue sample_GetIntValue sample_float_to_int
       (initial_world test_model) 8 =
       (with_data (readModelFields sample_GetStringValue sample_GetIntValue
                     sample_float_to_int sample_model_response)
          (ran tr 2 (Sleep (200 * Millisecond) (initial_world test_model))), None) /\
     reads_with_backoff tr "/model/info?litellm_model_id=model-1" (500 * Millisecond) 2 /\
     Id (data (fst (retryModelRead (scripted [model_reply_not_yet] model_reply_ok)
                      MetaClient sample_GetStringValue sample_GetIntValue
                      sample_float_to_int (initial_world test_model) 8))) = "model-1").
Proof.
  split.
  - assert (forall j, (j < 2)%nat ->
              credentialNotFound
                (scripted [reply_404; reply_404] reply_found
                   (requests (initial_world test_credential) + j)%nat) = true) as Hnf
      by (intros [|[|j]] Hj; [reflexivity | reflexivity | lia]).
    exact (proj1 (X5_reconciliation_succeeds_at_first_found 3 2 ltac:(lia))
             (scripted [reply_404; reply_404] reply_found) sample_schema_Set
             (initial_world test_credential) 200
             {| CredentialName := "test-cred";
                CredentialInfo := <["provider" := VStr "aws"]> ∅ |}
             ltac:(discriminate) Hnf eq_refl ltac:(discriminate)).
  - apply (proj2 (X5_reconciliation_succeeds_at_first_found 8 1 ltac:(lia))
             (scripted [model_reply_not_yet] model_reply_ok) sample_GetStringValue
             sample_GetIntValue sample_float_to_int (initial_world test_model) 200
             sample_model_response).
    + intros [|j] Hj; [reflexivity | lia].
    + reflexivity.
Defined.

(** ** Edge cases of the reconcilers *)

(** X6: with a budget of zero or less no read is made and [nil] is
    returned: the credential reconciler leaves the world as it is, the
    model reconciler has only slept its settle delay. *)
Theorem X6_no_budget_no_read (maxRetries : Z) :
  maxRetries <= 0 ->
  (forall (server : nat -> Reply CredentialResponse)
      (schema_Set : string -> Value -> World -> option Value) (w : World),
     retryCredentialRead server schema_Set w maxRetries = (w, None)) /\
  (forall (server : nat -> Reply ModelResponse) (m : Meta)
          (GetStringValue : string -> string -> string) (GetIntValue : Z -> Z -> Z)
          (float_to_int : float -> Z) (w : World),
     retryModelRead server m GetStringValue GetIntValue float_to_int w maxRetries =
     (Sleep (200 * Millisecond) w, None)).
Proof.
  intros HN. split.
  - intros server schema_Set w. unfold retryCredentialRead.
    replace (Z.to_nat maxRetries) with 0%nat by lia. reflexivity.
  - intros server m GetStringValue GetIntValue float_to_int w. unfold retryModelRead.
    replace (Z.to_nat maxRetries) with 0%nat by lia. reflexivity.
Qed.

Lemma X6_witness :
  retryCredentialRead (scripted [] reply_500) sample_schema_Set (initial_world test_credential) 0 =
    (initial_world test_credential, None) /\
  retryModelRead (scripted [] model_reply_500) MetaClient sample_GetStringValue
    sample_GetIntValue sample_float_to_int (initial_world test_model) (-1) =
    (Sleep (200 * Millisecond) (initial_world test_model), None).
Proof.
  split.
  - apply (proj1 (X6_no_budget_no_read 0 ltac:(lia))).
  - apply (proj2 (X6_no_budget_no_read (-1) ltac:(lia))).
Defined.

(** X7: with a meta value that is not a client the model operations make
    no request and leave the field set alone: the read and the orchestrator
    return the assertion error at once, without drawing a UUID, and the
    reconciler returns it after its settle delay instead of retrying. *)
Theorem X7_not_a_client (server : nat -> Reply ModelResponse)
    (uuid_New : nat -> string) (json_Unmarshal : string -> option Value)
    (strconv_Atoi : string -> option Z) (strconv_ParseFloat : string -> option float)
    (strings_TrimSpace : string -> string)
    (range : gmap string Value -> list (string * Value))
    (GetStringValue : string -> string -> string) (GetIntValue : Z -> Z -> Z)
    (float_to_int : float -> Z) (w : World) (maxRetries : Z) (isUpdate : bool) :
  1 <= maxRetries ->
  resourceLiteLLMModelRead server MetaOther GetStringValue GetIntValue float_to_int w =
    (w, Some "invalid type assertion for client") /\
  retryModelRead server MetaOther GetStringValue GetIntValue float_to_int w maxRetries =
    (Sleep (200 * Millisecond) w, Some "invalid type assertion for client") /\
  createOrUpdateModel server MetaOther uuid_New json_Unmarshal strconv_Atoi
    strconv_ParseFloat strings_TrimSpace range GetStringValue GetIntValue float_to_int
    w isUpdate = (w, Some "invalid type assertion for client") /\
  isRetryableModelError (Some "invalid type assertion for client") = false.
Proof.
  intros HN. split; [reflexivity | split; [|split; reflexivity]].
  unfold retryModelRead. destruct (Z.to_nat maxRetries) as [|rem] eqn:E; [lia|].
  reflexivity.
Qed.

Lemma X7_witness :
  retryModelRead (scripted [] model_reply_ok) MetaOther sample_GetStringValue
    sample_GetIntValue sample_float_to_int (initial_world test_model) 8 =
    (Sleep (200 * Millisecond) (initial_world test_model),
     Some "invalid type assertion for client").
Proof.
  apply (X7_not_a_client (scripted [] model_reply_ok) sample_uuid_New
           sample_json_Unmarshal sample_Atoi sample_ParseFloat sample_TrimSpace
           sample_range sample_GetStringValue sample_GetIntValue sample_float_to_int
           (initial_world test_model) 8 true).
  lia.
Defined.

(** X8: the credential reconciler keeps the identifier. Whatever the server
    replies, every read it makes is for the identifier recorded on entry,
    the identifier is the same on return, and [nil] is returned only after
    a read that left a non-empty identifier. *)
Theorem X8_credential_reconciler_keeps_identifier
    (server : nat -> Reply CredentialResponse)
        (schema_Set : string -> Value -> World -> option Value) (w : World) (maxRetries : Z) :
  1 <= maxRetries ->
  exists tr,
    trace (fst (retryCredentialRead server schema_Set w maxRetries)) = trace w ++ tr /\
    (forall endpoint, endpoint ∈ endpoints "GET" tr ->
       endpoint = credentialReadEndpoint (data w)) /\
    Id (data (fst (retryCredentialRead server schema_Set w maxRetries))) = Id (data w) /\
    (snd (retryCredentialRead server schema_Set w maxRetries) = None -> Id (data w) <> "").
Proof.
  intros HN. unfold retryCredentialRead.
  destruct (retryCredentialRead_loop_invariants server schema_Set (Z.to_nat maxRetries) 0
              maxRetries (1 * Second) None w (Id (data w))
              (credentialReadRequest (data w)) _ eq_refl eq_refl eq_refl)
    as (tr & n & H1 & _ & H3 & H4 & H5).
  exists tr. repeat split; try assumption.
  - intros endpoint Hin. unfold endpoints in Hin.
    apply list_elem_of_omap in Hin as (ev & Hev & Hep).
    destruct (H3 ev Hev) as [-> | [d ->]]; [|discriminate].
    cbn in Hep. injection Hep as <-. reflexivity.
  - intros Hnil. destruct (H5 Hnil) as [[Hz _] | Hne]; [lia | exact Hne].
Qed.

Lemma X8_witness :
  exists tr,
    trace (fst (retryCredentialRead (scripted [reply_404] reply_found) sample_schema_Set
                  (initial_world test_credential) 2)) =
      trace (initial_world test_credential) ++ tr /\
    (forall endpoint, endpoint ∈ endpoints "GET" tr ->
       endpoint = credentialReadEndpoint (data (initial_world test_credential))) /\
    Id (data (fst (retryCredentialRead (scripted [reply_404] reply_found) sample_schema_Set
                     (initial_world test_credential) 2))) =
      Id (data (initial_world test_credential)) /\
    (snd (retryCredentialRead (scripted [reply_404] reply_found) sample_schema_Set
            (initial_world test_credential) 2) = None ->
     Id (data (initial_world test_credential)) <> "").
Proof.
  apply (X8_credential_reconciler_keeps_identifier (scripted [reply_404] reply_found)
      sample_schema_Set
           (initial_world test_credential) 2).
  lia.
Defined.

(** ** What the orchestrators do to the identifier and the fields *)

(** X9: a credential create that returns [nil] has set the identifier to
    the credential name, which is then not empty; once its write has
    succeeded the identifier is the credential name even when the
    reconciliation fails. A credential update never changes the identifier,
    and returns [nil] only when it is not empty. *)
Theorem X9_credential_upsert_identifier (server : nat -> Reply CredentialResponse)
    (schema_Set : string -> Value -> World -> option Value)
    (w : World) :
  (snd (resourceLiteLLMCredentialCreate server schema_Set w) = None ->
   Id (data (fst (resourceLiteLLMCredentialCreate server schema_Set w))) =
     GetString (data w) "credential_name" /\
   GetString (data w) "credential_name" <> "") /\
  (forall status body,
     server (requests w) = Response status (Decoded body) ->
     Id (data (fst (resourceLiteLLMCredentialCreate server schema_Set w))) =
       GetString (data w) "credential_name") /\
  Id (data (fst (resourceLiteLLMCredentialUpdate server schema_Set w))) = Id (data w) /\
  (snd (resourceLiteLLMCredentialUpdate server schema_Set w) = None -> Id (data w) <> "").
Proof.
  assert (forall w0,
            Id (data (fst (retryCredentialRead server schema_Set w0 5))) = Id (data w0)) as Hid.
  { intros w0.
    destruct (retryCredentialRead_restores_identifier server schema_Set w0 5 ltac:(lia))
      as (tr & _ & _ & H1 & _).
    exact H1. }
  assert (forall w0,
            snd (retryCredentialRead server schema_Set w0 5) = None -> Id (data w0) <> "") as Hnil.
  { intros w0.
    destruct (retryCredentialRead_restores_identifier server schema_Set w0 5 ltac:(lia))
      as (tr & _ & _ & _ & H2).
    exact H2. }
  split; [|split; [|split]].
  - unfold resourceLiteLLMCredentialCreate, MakeRequest.
    destruct (server (requests w)) as [msg | status [msg | body]]; try discriminate.
    intros H. split; [rewrite Hid; reflexivity | exact (Hnil _ H)].
  - intros status body Hr. unfold resourceLiteLLMCredentialCreate, MakeRequest.
    rewrite Hr, Hid. reflexivity.
  - unfold resourceLiteLLMCredentialUpdate, MakeRequest.
    destruct (server (requests w)) as [msg | status [msg | body]]; try reflexivity.
    rewrite Hid. reflexivity.
  - unfold resourceLiteLLMCredentialUpdate, MakeRequest.
    destruct (server (requests w)) as [msg | status [msg | body]]; try discriminate.
    intros H. exact (Hnil _ H).
Qed.

Lemma X9_witness :
  Id (data (fst (resourceLiteLLMCredentialCreate (scripted [reply_found; reply_404]
                                                    reply_found) sample_schema_Set
                   (initial_world test_credential)))) = "test-cred" /\
  "test-cred" <> "".
Proof.
  apply (proj1 (X9_credential_upsert_identifier
                  (scripted [reply_found; reply_404] reply_found) sample_schema_Set
                  (initial_world test_credential))).
  vm_compute. reflexivity.
Defined.

Section OrchestratorCoverage.
Variable server : nat -> Reply ModelResponse.
Variable uuid_New : nat -> string.
Variable json_Unmarshal : string -> option Value.
Variable strconv_Atoi : string -> option Z.
Variable strconv_ParseFloat : string -> option float.
Variable strings_TrimSpace : string -> string.
Variable range : gmap string Value -> list (string * Value).
Variable GetStringValue : string -> string -> string.
Variable GetIntValue : Z -> Z -> Z.
Variable float_to_int : float -> Z.

#[local] Abbreviation upsert' m :=
  (createOrUpdateModel server m uuid_New json_Unmarshal strconv_Atoi strconv_ParseFloat
     strings_TrimSpace range GetStringValue GetIntValue float_to_int).
#[local] Abbreviation request' :=
  (buildModelRequest json_Unmarshal strconv_Atoi strconv_ParseFloat strings_TrimSpace range).
#[local] Abbreviation reconcile' :=
  (retryModelRead server MetaClient GetStringValue GetIntValue float_to_int).
#[local] Abbreviation updateRequest' w :=
  (EvRequest "POST" endpointModelUpdate (BodyModel (request' (data w) (Id (data w))))).

(** An update, by the reply to its write. *)
Lemma createOrUpdateModel_update (w : World) :
  upsert' MetaClient w true =
  match server (requests w) with
  | TransportError msg =>
    (sent (updateRequest' w) w, Some ("failed to update model: " +:+ msg))
  | Response _ (HandlerError msg) =>
    if String.eqb msg "model_not_found"
    then upsert' MetaClient (sent (updateRequest' w) w) false
    else (sent (updateRequest' w) w, Some ("failed to update model: " +:+ msg))
  | Response _ (Decoded _) =>
    reconcile' (with_data (SetId (Id (data w))) (sent (updateRequest' w) w)) 8
  end.
Proof.
  rewrite createOrUpdateModel_unfold.
  unfold createOrUpdateModel_body at 1, MakeRequest. cbn [negb andb].
  destruct (server (requests w)) as [msg | status [msg | resp]]; reflexivity.
Qed.

(** The reconciliation of the orchestrator, whatever the server replies. *)
Lemma reconcile_8_facts (w0 : World) :
  uuids (fst (reconcile' w0 8)) = uuids w0 /\
  (snd (reconcile' w0 8) <> None -> data (fst (reconcile' w0 8)) = data w0).
Proof.
  unfold retryModelRead.
  destruct (retryModelRead_loop_shape server GetStringValue GetIntValue float_to_int
              (Z.to_nat 8) 0 8 (500 * Millisecond) None
              (Sleep (200 * Millisecond) w0) _ ltac:(lia) ltac:(lia) eq_refl)
    as (k & _ & _ & _ & Hu & Hd).
  split; [exact Hu | exact Hd].
Qed.



(** X11: with a client, [createOrUpdateModel] draws exactly one UUID on a
    create and on an update whose write reports "model_not_found", and none
    on any other update, whatever happens afterwards. *)
Theorem X11_upsert_uuid_draws (w : World) (isUpdate : bool) :
  uuids (fst (upsert' MetaClient w isUpdate)) =
  if isUpdate &&
     negb match server (requests w) with
          | Response _ (HandlerError msg) => String.eqb msg "model_not_found"
          | _ => false
          end
  then uuids w else S (uuids w).
Proof.
  assert (forall w0, uuids (fst (upsert' MetaClient w0 false)) = S (uuids w0)) as Hc.
  { intros w0. rewrite createOrUpdateModel_create.
    destruct (server (requests w0)) as [msg | status [msg | resp]]; try reflexivity.
    rewrite (proj1 (reconcile_8_facts _)). reflexivity. }
  destruct isUpdate; [|apply Hc].
  rewrite createOrUpdateModel_update.
  destruct (server (requests w)) as [msg | status [msg | resp]]; try reflexivity.
  - destruct (String.eqb msg "model_not_found"); [|reflexivity].
    rewrite Hc. reflexivity.
  - rewrite (proj1 (reconcile_8_facts _)). reflexivity.
Qed.

End OrchestratorCoverage.


(** ** Deletion *)



(** ** What a model read does to the fields *)

Lemma run_statements_preserves (P : ResourceData -> Prop)
    (stmts : list (ResourceData -> ResourceData)) :
  Forall (fun stmt => forall d, P d -> P (stmt d)) stmts ->
  forall d, P d -> P (run_statements stmts d).
Proof.
  unfold run_statements. induction 1 as [|stmt stmts Hs _ IH]; intros d Hd; cbn.
  - exact Hd.
  - apply IH, Hs, Hd.
Qed.

Lemma run_statements_split (n : nat) (stmts : list (ResourceData -> ResourceData))
    (d : ResourceData) :
  run_statements stmts d = run_statements (drop n stmts) (run_statements (take n stmts) d).
Proof.
  unfold run_statements. rewrite <- fold_left_app, take_drop. reflexivity.
Qed.

Lemma not_elem_of_ne (key k : string) (l : list string) : key ∉ l -> k ∈ l -> k <> key.
Proof. intros Hk Hin ->. exact (Hk Hin). Qed.

(** A statement of the read leaves alone what is stored under [key], or the
    typed value read from it. *)
Ltac statement_keeps :=
  let d := fresh "d" in
  let H := fresh "Hkept" in
  intros d H; cbv beta zeta; repeat case_match;
  unfold GetString, GetInt, GetFloat, GetBool, GetMap in *;
  cbn [SetField rd_fields];
  rewrite ?lookup_insert_ne by discriminate;
  rewrite ?lookup_insert_eq;
  solve [exact H | assumption].

Ltac statements_keep :=
  repeat (apply Forall_cons; split; [statement_keeps|]); apply Forall_nil; exact I.

Section ModelReadFields.
Variable GetStringValue : string -> string -> string.
Variable GetIntValue : Z -> Z -> Z.
Variable float_to_int : float -> Z.

#[local] Abbreviation readFields' :=
  (readModelFields GetStringValue GetIntValue float_to_int).

Lemma readModelFields_keeps_string (resp : ModelResponse) (d : ResourceData)
    (key : string) :
  key ∈ ["model_api_key"; "aws_access_key_id"; "aws_secret_access_key";
         "aws_session_name"; "aws_role_name"] ->
  GetString (readFields' resp d) key = GetString d key.
Proof.
  intros Hkey. cbv beta delta [readModelFields] zeta.
  apply (run_statements_preserves (fun d' => GetString d' key = GetString d key));
    [|reflexivity].
  repeat (apply elem_of_cons in Hkey as [-> | Hkey]); [..|inversion Hkey];
    statements_keep.
Qed.

Lemma readModelFields_keeps_costs (resp : ModelResponse) (d : ResourceData) :
  GetFloat (readFields' resp d) "input_cost_per_million_tokens" =
    GetFloat d "input_cost_per_million_tokens" /\
  GetFloat (readFields' resp d) "output_cost_per_million_tokens" =
    GetFloat d "output_cost_per_million_tokens".
Proof.
  cbv beta delta [readModelFields] zeta. split.
  - apply (run_statements_preserves
             (fun d' => GetFloat d' "input_cost_per_million_tokens" =
                        GetFloat d "input_cost_per_million_tokens")); [|reflexivity].
    statements_keep.
  - apply (run_statements_preserves
             (fun d' => GetFloat d' "output_cost_per_million_tokens" =
                        GetFloat d "output_cost_per_million_tokens")); [|reflexivity].
    statements_keep.
Qed.

Lemma readModelFields_keeps_bag (resp : ModelResponse) (d : ResourceData) :
  GetMap (readFields' resp d) "additional_litellm_params" =
  GetMap d "additional_litellm_params".
Proof.
  cbv beta delta [readModelFields] zeta.
  apply (run_statements_preserves
           (fun d' => GetMap d' "additional_litellm_params" =
                      GetMap d "additional_litellm_params")); [|reflexivity].
  statements_keep.
Qed.

Lemma readModelFields_frame (resp : ModelResponse) (d : ResourceData) (key : string) :
  key ∉ modelReadKeys ->
  rd_fields (readFields' resp d) !! key = rd_fields d !! key.
Proof.
  intros Hk. cbv beta delta [readModelFields] zeta.
  apply (run_statements_preserves
           (fun d' => rd_fields d' !! key = rd_fields d !! key)); [|reflexivity].
  repeat (apply Forall_cons; split;
          [intros d' Hd'; cbv beta zeta; repeat case_match; cbn [SetField rd_fields];
           rewrite ?lookup_insert_ne
             by (apply (not_elem_of_ne key _ modelReadKeys Hk);
                 apply list_elem_of_In; cbn; tauto);
           exact Hd'|]).
  apply Forall_nil. exact I.
Qed.

End ModelReadFields.

(** X14: a model read that finds the model never changes the identifier,
    the API key, the AWS access key, secret, session and role names, the two
    costs per million tokens or the bag of additional parameters, and it
    leaves every field it does not write exactly as it was, whatever the
    response holds. *)
Theorem X14_model_read_keeps_local_fields (server : nat -> Reply ModelResponse)
    (GetStringValue : string -> string -> string) (GetIntValue : Z -> Z -> Z)
    (float_to_int : float -> Z) (w : World) (status : Z) (resp : ModelResponse) :
  server (requests w) = Response status (Decoded resp) ->
  let d' := data (fst (resourceLiteLLMModelRead server MetaClient GetStringValue
                         GetIntValue float_to_int w)) in
  snd (resourceLiteLLMModelRead server MetaClient GetStringValue GetIntValue
         float_to_int w) = None /\
  Id d' = Id (data w) /\
  (forall key,
     key ∈ ["model_api_key"; "aws_access_key_id"; "aws_secret_access_key";
            "aws_session_name"; "aws_role_name"] ->
     GetString d' key = GetString (data w) key) /\
  GetFloat d' "input_cost_per_million_tokens" =
    GetFloat (data w) "input_cost_per_million_tokens" /\
  GetFloat d' "output_cost_per_million_tokens" =
    GetFloat (data w) "output_cost_per_million_tokens" /\
  GetMap d' "additional_litellm_params" = GetMap (data w) "additional_litellm_params" /\
  (forall key, key ∉ modelReadKeys -> rd_fields d' !! key = rd_fields (data w) !! key).
Proof.
  intros Hr d'. subst d'.
  rewrite (modelRead_found server GetStringValue GetIntValue float_to_int w status resp Hr).
  cbn [fst snd with_data data sent].
  split; [reflexivity|]. split; [apply Id_readModelFields|].
  split; [intros key Hkey; apply readModelFields_keeps_string, Hkey|].
  split; [apply readModelFields_keeps_costs|].
  split; [apply readModelFields_keeps_costs|].
  split; [apply readModelFields_keeps_bag | apply readModelFields_frame].
Qed.

Lemma X14_witness :
  snd (resourceLiteLLMModelRead (scripted [] model_reply_ok) MetaClient
         sample_GetStringValue sample_GetIntValue sample_float_to_int
         (initial_world test_model_with_bag)) = None /\
  Id (data (fst (resourceLiteLLMModelRead (scripted [] model_reply_ok) MetaClient
                   sample_GetStringValue sample_GetIntValue sample_float_to_int
                   (initial_world test_model_with_bag)))) = "model-1".
Proof.
  destruct (X14_model_read_keeps_local_fields (scripted [] model_reply_ok)
              sample_GetStringValue sample_GetIntValue sample_float_to_int
              (initial_world test_model_with_bag) 200 sample_model_response eq_refl)
    as (H1 & H2 & _).
  split; [exact H1 | exact H2].
Defined.

Lemma run_statements_focus (n : nat) (stmts : list (ResourceData -> ResourceData))
    (Q P : ResourceData -> Prop) (d : ResourceData) :
  Forall (fun stmt => forall d, Q d -> Q (stmt d)) (take n stmts) -> Q d ->
  (forall d1, Q d1 ->
     match drop n stmts with
     | stmt :: rest =>
       P (stmt d1) /\ Forall (fun stmt => forall d, P d -> P (stmt d)) rest
     | [] => False
     end) ->
  P (run_statements stmts d).
Proof.
  intros Hpre Hd Hown. rewrite (run_statements_split n).
  pose proof (run_statements_preserves Q _ Hpre d Hd) as Hd1.
  specialize (Hown _ Hd1). destruct (drop n stmts) as [|stmt rest]; [contradiction|].
  destruct Hown as [Hown Hrest].
  change (run_statements (stmt :: rest) ?x) with (run_statements rest (stmt x)).
  apply (run_statements_preserves P _ Hrest), Hown.
Qed.

Section ModelReadRefresh.
Variable GetStringValue : string -> string -> string.
Variable GetIntValue : Z -> Z -> Z.
Variable float_to_int : float -> Z.

#[local] Abbreviation readFields'' :=
  (readModelFields GetStringValue GetIntValue float_to_int).

(** The statement at position [n] is the one that writes [key]; the ones
    before it leave [key] alone and the ones after it keep the value read. *)
Ltac focus_on n key d :=
  cbv beta delta [readModelFields] zeta;
  apply (run_statements_focus n _ (fun d' => rd_fields d' !! key = rd_fields d !! key));
  [ cbn [firstn]; statements_keep
  | reflexivity
  | let d1 := fresh "d1" in
    let H1 := fresh "H1" in
    intros d1 H1; cbn [skipn]; split; [|statements_keep] ].

Ltac own_string H :=
  cbv beta; unfold GetString; cbn [SetField rd_fields];
  rewrite lookup_insert_eq, H; reflexivity.

Lemma readModelFields_refreshes (resp : ModelResponse) (d : ResourceData) :
  let d' := readFields'' resp d in
  let params := LiteLLMParams resp in
  let info := ModelInfoOf resp in
  GetString d' "model_name" =
    GetStringValue (ModelName resp) (GetString d "model_name") /\
  GetString d' "custom_llm_provider" =
    GetStringValue (CustomLLMProvider params) (GetString d "custom_llm_provider") /\
  GetInt d' "tpm" = GetIntValue (TPM params) (GetInt d "tpm") /\
  GetInt d' "rpm" = GetIntValue (RPM params) (GetInt d "rpm") /\
  GetString d' "model_api_base" =
    GetStringValue (APIBase params) (GetString d "model_api_base") /\
  GetString d' "api_version" =
    GetStringValue (APIVersion params) (GetString d "api_version") /\
  GetString d' "base_model" =
    GetStringValue (BaseModel info) (GetString d "base_model") /\
  GetString d' "tier" = GetStringValue (Tier info) (GetString d "tier") /\
  GetString d' "mode" = GetStringValue (Mode info) (GetString d "mode") /\
  GetString d' "team_id" = GetStringValue (TeamID info) (GetString d "team_id") /\
  GetString d' "aws_region_name" =
    GetStringValue (AWSRegionName params) (GetString d "aws_region_name").
Proof.
  cbv zeta. repeat split.
  - focus_on 0%nat "model_name" d. own_string H1.
  - focus_on 1%nat "custom_llm_provider" d. own_string H1.
  - focus_on 2%nat "tpm" d.
    cbv beta; unfold GetInt; cbn [SetField rd_fields].
    rewrite lookup_insert_eq, H1. reflexivity.
  - focus_on 3%nat "rpm" d.
    cbv beta; unfold GetInt; cbn [SetField rd_fields].
    rewrite lookup_insert_eq, H1. reflexivity.
  - focus_on 4%nat "model_api_base" d. own_string H1.
  - focus_on 5%nat "api_version" d. own_string H1.
  - focus_on 6%nat "base_model" d. own_string H1.
  - focus_on 7%nat "tier" d. own_string H1.
  - focus_on 8%nat "mode" d. own_string H1.
  - focus_on 9%nat "team_id" d. own_string H1.
  - focus_on 13%nat "aws_region_name" d. own_string H1.
Qed.

Lemma readModelFields_flags (resp : ModelResponse) (d : ResourceData) :
  (unset_or_bool d "thinking_enabled" ->
   GetBool (readFields'' resp d) "thinking_enabled" =
     GetBool d "thinking_enabled" || apiThinkingEnabled resp) /\
  (unset_or_bool d "merge_reasoning_content_in_choices" ->
   GetBool (readFields'' resp d) "merge_reasoning_content_in_choices" =
     GetBool d "merge_reasoning_content_in_choices" ||
     MergeReasoningContentInChoices (LiteLLMParams resp)).
Proof.
  split; intros Htyped.
  - focus_on 18%nat "thinking_enabled" d.
    unfold GetOk, GetBool, apiThinkingEnabled. rewrite !H1.
    destruct Htyped as [-> | [[|] ->]]; cbn [is_zero negb orb].
    + destruct (Thinking (LiteLLMParams resp)) as [thinking|];
        [destruct (thinking !! "type") as [[| | | |thinkingType| |]|];
         try (destruct (String.eqb thinkingType "enabled");
              [destruct (thinking !! "budget_tokens") as [[]|]|])|];
        cbn [SetField rd_fields];
        rewrite ?lookup_insert_ne by discriminate; rewrite ?lookup_insert_eq;
        reflexivity.
    + cbn [SetField rd_fields].
      destruct (<["thinking_enabled":=VBool true]> (rd_fields d1)
                  !! "thinking_budget_tokens") as [v|]; [destruct (is_zero v)|];
        cbn [negb SetField rd_fields];
        rewrite ?lookup_insert_ne by discriminate; rewrite ?lookup_insert_eq;
        reflexivity.
    + destruct (Thinking (LiteLLMParams resp)) as [thinking|];
        [destruct (thinking !! "type") as [[| | | |thinkingType| |]|];
         try (destruct (String.eqb thinkingType "enabled");
              [destruct (thinking !! "budget_tokens") as [[]|]|])|];
        cbn [SetField rd_fields];
        rewrite ?lookup_insert_ne by discriminate; rewrite ?lookup_insert_eq;
        reflexivity.
  - focus_on 19%nat "merge_reasoning_content_in_choices" d.
    unfold GetOk, GetBool. rewrite !H1.
    destruct Htyped as [-> | [[|] ->]]; cbn [is_zero negb orb SetField rd_fields];
      rewrite lookup_insert_eq; reflexivity.
Qed.

End ModelReadRefresh.

(** X15: a model read that finds the model writes each of the eleven
    API-backed fields exactly once: the field holds afterwards what the
    value picker returns for the API's value and the field's own prior value
    (strings through GetStringValue, tpm and rpm through GetIntValue), and no
    later statement of the read overwrites it. *)
Theorem X15_model_read_refreshes_api_fields (server : nat -> Reply ModelResponse)
    (GetStringValue : string -> string -> string) (GetIntValue : Z -> Z -> Z)
    (float_to_int : float -> Z) (w : World) (status : Z) (resp : ModelResponse) :
  server (requests w) = Response status (Decoded resp) ->
  let d := data w in
  let d' := data (fst (resourceLiteLLMModelRead server MetaClient GetStringValue
                         GetIntValue float_to_int w)) in
  let params := LiteLLMParams resp in
  let info := ModelInfoOf resp in
  GetString d' "model_name" =
    GetStringValue (ModelName resp) (GetString d "model_name") /\
  GetString d' "custom_llm_provider" =
    GetStringValue (CustomLLMProvider params) (GetString d "custom_llm_provider") /\
  GetInt d' "tpm" = GetIntValue (TPM params) (GetInt d "tpm") /\
  GetInt d' "rpm" = GetIntValue (RPM params) (GetInt d "rpm") /\
  GetString d' "model_api_base" =
    GetStringValue (APIBase params) (GetString d "model_api_base") /\
  GetString d' "api_version" =
    GetStringValue (APIVersion params) (GetString d "api_version") /\
  GetString d' "base_model" =
    GetStringValue (BaseModel info) (GetString d "base_model") /\
  GetString d' "tier" = GetStringValue (Tier info) (GetString d "tier") /\
  GetString d' "mode" = GetStringValue (Mode info) (GetString d "mode") /\
  GetString d' "team_id" = GetStringValue (TeamID info) (GetString d "team_id") /\
  GetString d' "aws_region_name" =
    GetStringValue (AWSRegionName params) (GetString d "aws_region_name").
Proof.
  intros Hr d d' params info. subst d d' params info.
  rewrite (modelRead_found server GetStringValue GetIntValue float_to_int w status resp Hr).
  cbn [fst snd with_data data sent].
  apply readModelFields_refreshes.
Qed.

Lemma X15_witness :
  GetString
    (data (fst (resourceLiteLLMModelRead (scripted [] model_reply_ok) MetaClient
                  sample_GetStringValue sample_GetIntValue sample_float_to_int
                  (initial_world test_model))))
    "model_name" =
  sample_GetStringValue (ModelName sample_model_response)
    (GetString test_model "model_name").
Proof.
  exact (proj1 (X15_model_read_refreshes_api_fields (scripted [] model_reply_ok)
                  sample_GetStringValue sample_GetIntValue sample_float_to_int
                  (initial_world test_model) 200 sample_model_response eq_refl)).
Defined.

(** X16: a model read can turn the two reasoning flags on but never off.
    When the field is unset or holds a boolean before the read, thinking is
    enabled afterwards exactly when it was enabled before or the response's
    thinking object has type enabled, and the merge flag is set afterwards
    exactly when it was set before or the response sets it. *)
Theorem X16_model_read_flags (server : nat -> Reply ModelResponse)
    (GetStringValue : string -> string -> string) (GetIntValue : Z -> Z -> Z)
    (float_to_int : float -> Z) (w : World) (status : Z) (resp : ModelResponse) :
  server (requests w) = Response status (Decoded resp) ->
  let d := data w in
  let d' := data (fst (resourceLiteLLMModelRead server MetaClient GetStringValue
                         GetIntValue float_to_int w)) in
  (unset_or_bool d "thinking_enabled" ->
   GetBool d' "thinking_enabled" =
     GetBool d "thinking_enabled" || apiThinkingEnabled resp) /\
  (unset_or_bool d "merge_reasoning_content_in_choices" ->
   GetBool d' "merge_reasoning_content_in_choices" =
     GetBool d "merge_reasoning_content_in_choices" ||
     MergeReasoningContentInChoices (LiteLLMParams resp)).
Proof.
  intros Hr d d'. subst d d'.
  rewrite (modelRead_found server GetStringValue GetIntValue float_to_int w status resp Hr).
  cbn [fst snd with_data data sent].
  apply readModelFields_flags.
Qed.

Lemma X16_witness :
  unset_or_bool test_model "thinking_enabled" /\
  GetBool
    (data (fst (resourceLiteLLMModelRead (scripted [] model_reply_ok) MetaClient
                  sample_GetStringValue sample_GetIntValue sample_float_to_int
                  (initial_world test_model))))
    "thinking_enabled" =
  GetBool test_model "thinking_enabled" || apiThinkingEnabled sample_model_response.
Proof.
  assert (Hunset : unset_or_bool test_model "thinking_enabled")
    by (left; reflexivity).
  split; [exact Hunset|].
  exact (proj1 (X16_model_read_flags (scripted [] model_reply_ok)
                  sample_GetStringValue sample_GetIntValue sample_float_to_int
                  (initial_world test_model) 200 sample_model_response eq_refl)
               Hunset).
Defined.

(** ** The classifiers and the prefix of a read *)

Lemma model_read_prefix_neutral (msg : string) :
  isRetryableModelError (Errorf_w "failed to read model: " msg) =
  isRetryableModelError (Some msg).
Proof.
  unfold isRetryableModelError, Errorf_w.
  cbn [String.append Contains HasPrefix Ascii.eqb Bool.eqb andb orb].
  reflexivity.
Qed.

Lemma credential_read_prefix_neutral (msg : string) :
  credentialRetryable ("failed to read credential: " +:+ msg) = credentialRetryable msg.
Proof.
  unfold credentialRetryable.
  cbn [String.append Contains HasPrefix Ascii.eqb Bool.eqb andb orb].
  reflexivity.
Qed.

(** X17: the prefix a read puts before its cause never changes how the
    reconcilers classify the error. The error of a model read is retryable
    exactly when the cause is, a handler error that is exactly
    "model_not_found" apart, which the read turns into [nil]; the error of a
    credential read contains "credential_not_found" exactly when the cause
    does, the replies on which the read clears the identifier apart. *)
Theorem X17_read_prefix_keeps_classification
    (modelServer : nat -> Reply ModelResponse)
    (credentialServer : nat -> Reply CredentialResponse)
        (schema_Set : string -> Value -> World -> option Value)
    (GetStringValue : string -> string -> string) (GetIntValue : Z -> Z -> Z)
    (float_to_int : float -> Z) (w : World) :
  isRetryableModelError
    (snd (resourceLiteLLMModelRead modelServer MetaClient GetStringValue GetIntValue
            float_to_int w)) =
  match modelServer (requests w) with
  | TransportError msg => isRetryableModelError (Some msg)
  | Response _ (HandlerError msg) =>
    negb (String.eqb msg "model_not_found") && isRetryableModelError (Some msg)
  | Response _ (Decoded _) => false
  end /\
  match snd (resourceLiteLLMCredentialRead credentialServer schema_Set w) with
  | Some msg => credentialRetryable msg
  | None => false
  end =
  match credentialServer (requests w) with
  | TransportError msg => credentialRetryable msg
  | Response status (HandlerError msg) =>
    negb (Z.eqb status 404) && negb (String.eqb msg "credential_not_found") &&
    credentialRetryable msg
  | Response _ (Decoded _) => false
  end.
Proof.
  split.
  - unfold resourceLiteLLMModelRead, MakeRequest.
    destruct (modelServer (requests w)) as [msg | status [msg | resp]];
      cbn [fst snd]; [apply model_read_prefix_neutral | | reflexivity].
    destruct (String.eqb msg "model_not_found"); cbn [fst snd negb andb];
      [reflexivity | apply model_read_prefix_neutral].
  - unfold resourceLiteLLMCredentialRead, MakeRequest.
    destruct (credentialServer (requests w)) as [msg | status [msg | resp]];
      cbn [fst snd].
    + apply credential_read_prefix_neutral.
    + destruct (Z.eqb status 404); cbn [fst snd negb andb]; [reflexivity|].
      destruct (String.eqb msg "credential_not_found"); cbn [fst snd negb andb];
        [reflexivity | apply credential_read_prefix_neutral].
    + destruct (Z.eqb status 404); reflexivity.
Qed.

(** ** The parameters of a write *)

Lemma lookup_setIf_eq (cond : bool) (k : string) (v : Value) (params : gmap string Value) :
  setIf cond k v params !! k = if cond then Some v else params !! k.
Proof. unfold setIf. destruct cond; [apply lookup_insert_eq | reflexivity]. Qed.

Lemma lookup_setIf_ne (cond : bool) (k key : string) (v : Value)
    (params : gmap string Value) :
  k <> key -> setIf cond k v params !! key = params !! key.
Proof. intros Hne. unfold setIf. destruct cond; [apply lookup_insert_ne, Hne | reflexivity]. Qed.

(** Descend through the assignments of lines 115-181 to the one that writes
    the key looked up. *)
Ltac lookup_param :=
  unfold baseLiteLLMParams, setIfString, setIfFloat; cbv zeta;
  try match goal with
      | |- context [GetBool ?d "thinking_enabled"] =>
        destruct (GetBool d "thinking_enabled")
      end;
  repeat first
    [ rewrite lookup_setIf_ne by discriminate
    | rewrite lookup_setIf_eq
    | rewrite lookup_insert_ne by discriminate
    | rewrite lookup_insert_eq
    | rewrite lookup_empty ].

Lemma baseLiteLLMParams_string (d : ResourceData) (field key : string) :
  (field, key) ∈ stringParams ->
  baseLiteLLMParams d !! key =
  if String.eqb (GetString d field) "" then None else Some (VStr (GetString d field)).
Proof.
  unfold stringParams. intros Hin.
  repeat (apply elem_of_cons in Hin as [Hin | Hin];
          [injection Hin as -> ->; lookup_param;
           destruct (String.eqb (GetString d _) ""); reflexivity|]).
  inversion Hin.
Qed.

Lemma baseLiteLLMParams_float (d : ResourceData) (key : string) :
  key ∈ floatParams ->
  baseLiteLLMParams d !! key =
  if PrimFloat.ltb 0%float (GetFloat d key) then Some (VFloat (GetFloat d key)) else None.
Proof.
  unfold floatParams. intros Hin.
  repeat (apply elem_of_cons in Hin as [-> | Hin]; [lookup_param; reflexivity|]).
  inversion Hin.
Qed.

Lemma baseLiteLLMParams_int (d : ResourceData) (key : string) :
  key ∈ ["tpm"; "rpm"] ->
  baseLiteLLMParams d !! key =
  if 0 <? GetInt d key then Some (VInt (GetInt d key)) else None.
Proof.
  intros Hin.
  repeat (apply elem_of_cons in Hin as [-> | Hin]; [lookup_param; reflexivity|]).
  inversion Hin.
Qed.

Lemma baseLiteLLMParams_other (d : ResourceData) (key : string) :
  key ∉ litellmParamKeys -> baseLiteLLMParams d !! key = None.
Proof.
  intros Hk.
  unfold baseLiteLLMParams, setIfString, setIfFloat; cbv zeta.
  destruct (GetBool d "thinking_enabled");
    repeat first
      [ rewrite lookup_setIf_ne
          by (apply (not_elem_of_ne key _ litellmParamKeys Hk);
              apply list_elem_of_In; cbn; tauto)
      | rewrite lookup_insert_ne
          by (apply (not_elem_of_ne key _ litellmParamKeys Hk);
              apply list_elem_of_In; cbn; tauto) ];
    apply lookup_empty.
Qed.

(** X18: the parameters [createOrUpdateModel] builds before the bag is
    merged. The provider, the model as provider/base_model, the two costs
    per token (the cost per million tokens divided by 1000000) and the merge
    flag are always there; tpm and rpm only when positive; each optional
    string only when not empty, the API key and the API base under api_key
    and api_base; each optional cost only when positive; the thinking object
    only when thinking is enabled; and no other key. No assignment
    overwrites another. *)
Theorem X18_base_params (d : ResourceData) :
  let params := baseLiteLLMParams d in
  params !! "custom_llm_provider" = Some (VStr (GetString d "custom_llm_provider")) /\
  params !! "model" =
    Some (VStr (GetString d "custom_llm_provider" +:+ "/" +:+ GetString d "base_model")) /\
  params !! "input_cost_per_token" =
    Some (VFloat (GetFloat d "input_cost_per_million_tokens" / 1000000)%float) /\
  params !! "output_cost_per_token" =
    Some (VFloat (GetFloat d "output_cost_per_million_tokens" / 1000000)%float) /\
  params !! "merge_reasoning_content_in_choices" =
    Some (VBool (GetBool d "merge_reasoning_content_in_choices")) /\
  (forall key, key ∈ ["tpm"; "rpm"] ->
     params !! key = if 0 <? GetInt d key then Some (VInt (GetInt d key)) else None) /\
  (forall field key, (field, key) ∈ stringParams ->
     params !! key =
     if String.eqb (GetString d field) "" then None
     else Some (VStr (GetString d field))) /\
  (forall key, key ∈ floatParams ->
     params !! key =
     if PrimFloat.ltb 0%float (GetFloat d key) then Some (VFloat (GetFloat d key))
     else None) /\
  params !! "thinking" =
    (if GetBool d "thinking_enabled"
     then Some (VMap (<["type" := VStr "enabled"]>
                        (<["budget_tokens" := VInt (GetInt d "thinking_budget_tokens")]> ∅)))
     else None) /\
  (forall key, key ∉ litellmParamKeys -> params !! key = None).
Proof.
  cbv zeta.
  split; [lookup_param; reflexivity|].
  split; [lookup_param; reflexivity|].
  split; [lookup_param; reflexivity|].
  split; [lookup_param; reflexivity|].
  split; [lookup_param; reflexivity|].
  split; [apply baseLiteLLMParams_int|].
  split; [apply baseLiteLLMParams_string|].
  split; [apply baseLiteLLMParams_float|].
  split; [lookup_param; reflexivity | apply baseLiteLLMParams_other].
Qed.

(** X19: what the bag of additional parameters does to the rest of the
    payload. A key the bag does not hold and the reserved list does not name
    is sent as built from the fields; a value of the bag that is not a
    string replaces what the fields gave, unchanged, unless its key is named
    in the reserved list. Nothing protects the provider, the model or the
    costs built from the fields against the bag. *)
Theorem X19_payload_outside_bag
    (json_Unmarshal : string -> option Value) (strconv_Atoi : string -> option Z)
    (strconv_ParseFloat : string -> option float) (strings_TrimSpace : string -> string)
    (range : gmap string Value -> list (string * Value))
    (d : ResourceData) (modelID : string) (bag : gmap string Value) :
  (forall m, range m ≡ₚ map_to_list m) ->
  rd_fields d !! "additional_litellm_params" = Some (VMap bag) ->
  let payload :=
    mr_LiteLLMParams (buildModelRequest json_Unmarshal strconv_Atoi strconv_ParseFloat
                        strings_TrimSpace range d modelID) in
  (forall key,
     bag !! key = None ->
     key ∉ namedDrops json_Unmarshal strings_TrimSpace bag ->
     payload !! key = baseLiteLLMParams d !! key) /\
  (forall key value,
     bag !! key = Some value ->
     (forall strValue, value <> VStr strValue) ->
     key ∉ namedDrops json_Unmarshal strings_TrimSpace bag ->
     payload !! key = Some value).
Proof.
  intros Hrange Hbag payload. subst payload.
  unfold buildModelRequest. cbn [mr_LiteLLMParams].
  unfold buildLiteLLMParams, GetOk. rewrite Hbag. cbn [is_zero].
  destruct (bool_decide_reflect (bag = ∅)) as [-> | Hne].
  { split.
    - reflexivity.
    - intros key value Hkey. rewrite lookup_empty in Hkey. discriminate. }
  split.
  - intros key Hkey Hnamed.
    rewrite (mergeAdditionalParams_lookup _ _ _ _ _ Hrange), Hkey.
    rewrite bool_decide_eq_false_2 by exact Hnamed. reflexivity.
  - intros key value Hkey Hvalue Hnamed.
    rewrite (mergeAdditionalParams_lookup _ _ _ _ _ Hrange), Hkey.
    rewrite bool_decide_eq_false_2 by exact Hnamed.
    destruct value; try reflexivity.
    exfalso. exact (Hvalue _ eq_refl).
Qed.

Lemma X19_witness :
  mr_LiteLLMParams (sample_buildModelRequest test_model_with_bag "model-1") !! "model" =
    baseLiteLLMParams test_model_with_bag !! "model" /\
  baseLiteLLMParams test_model_with_bag !! "model" = Some (VStr "/").
Proof.
  split; [|vm_compute; reflexivity].
  refine (proj1 (X19_payload_outside_bag sample_json_Unmarshal sample_Atoi
                   sample_ParseFloat sample_TrimSpace sample_range test_model_with_bag
                   "model-1"
                   (<["stop" := VStr "null"]>
                      (<["additional_drop_params" :=
                           VStr ("[" +:+ quoted "tpm" +:+ "]")]> ∅))
                   (fun m => reflexivity (map_to_list m)) eq_refl) "model" _ _).
  - vm_compute. reflexivity.
  - vm_compute. intros Hin. apply list_elem_of_In in Hin. cbn in Hin.
    destruct Hin as [Hin | []]. discriminate.
Defined.
